(** * AI Learning Hub (app.py): rate limiting, model resolution, response
    parsing and the per-user progress record.

    The Streamlit script is embedded as functions over an explicit
    [session] (the fields of [st.session_state] the core touches, plus a
    log of the widgets written and of the calls made to the generative-AI
    client).  Python exceptions are values of type [exn]; a computation
    returns [inl e] when it raises and keeps the session as mutated so far.

    Python floats (wall-clock seconds, quiz scores) are modelled as exact
    rationals [Q]; Python [int]s as [Z]; [str] as [string], one character
    per code point below 256.  Where the script formats a float with
    [.1f] the digit printed depends on the binary64 number itself, so
    there the number is computed with the rounding of each operation
    ([Py.round_f64]) and it is that number which is formatted. *)

From Stdlib Require Import String Ascii ZArith QArith Qround Qpower Qabs Lqa Lia List.
From Stdlib Require Import DecimalString.
From stdpp Require Import base option list gmap strings.
Import ListNotations.

Local Open Scope string_scope.
Local Open Scope list_scope.
Local Open Scope Z_scope.

(** ** Python string primitives *)

Module Py.

(** [str.isspace] on one character (code points below 256). *)
Definition isspace (c : ascii) : bool :=
  let n := N_of_ascii c in
  ((9 <=? n) && (n <=? 13) || (28 <=? n) && (n <=? 31)
   || (n =? 32) || (n =? 133) || (n =? 160))%N.

Fixpoint lstrip (s : string) : string :=
  match s with
  | EmptyString => EmptyString
  | String c r => if isspace c then lstrip r else s
  end.

Fixpoint rstrip (s : string) : string :=
  match s with
  | EmptyString => EmptyString
  | String c r =>
      match rstrip r with
      | EmptyString => if isspace c then EmptyString else String c EmptyString
      | r' => String c r'
      end
  end.

(** [s.strip()] *)
Definition strip (s : string) : string := lstrip (rstrip s).

(** [s[n:]] for [n >= 0] *)
Fixpoint drop (n : nat) (s : string) : string :=
  match n, s with
  | O, _ => s
  | S n', String _ r => drop n' r
  | S _, EmptyString => EmptyString
  end.

(** [s[:n]] for [n >= 0] *)
Fixpoint take (n : nat) (s : string) : string :=
  match n, s with
  | S n', String c r => String c (take n' r)
  | _, _ => EmptyString
  end.

(** [s[:-n]] for [n > 0]: all but the last [n] characters. *)
Definition drop_last (n : nat) (s : string) : string :=
  take (String.length s - n) s.

(** [s.startswith(p)] *)
Definition startswith (p s : string) : bool := String.prefix p s.

(** [s.endswith(p)] *)
Definition endswith (p s : string) : bool :=
  (String.length p <=? String.length s)%nat
  && String.eqb (drop (String.length s - String.length p) s) p.

(** [s.replace(old, new)] for a non-empty [old]: every non-overlapping
    occurrence, scanning from the left.  [skip] counts the characters of a
    match still to be passed over. *)
Fixpoint replace_from (old new : string) (skip : nat) (s : string) : string :=
  match s with
  | EmptyString => EmptyString
  | String c r =>
      match skip with
      | S k => replace_from old new k r
      | O =>
          if String.prefix old s
          then new +:+ replace_from old new (String.length old - 1) r
          else String c (replace_from old new O r)
      end
  end.

Definition replace (old new s : string) : string := replace_from old new O s.

(** Truthiness of a [str]: non-empty. *)
Definition truthy (s : string) : bool :=
  match s with EmptyString => false | _ => true end.

(** [x > y] on floats. *)
Definition gt (x y : Q) : bool := negb (Qle_bool x y).

(** [int(x)] on a float: truncation toward zero. *)
Definition int (x : Q) : Z := Z.quot (Qnum x) (Zpos (Qden x)).

(** [str(n)] on an int. *)
Definition str_int (n : Z) : string := NilZero.string_of_int (Z.to_int n).

(** The integer nearest to [t], the even one of the two when [t] is
    halfway between them. *)
Definition round_half_even (t : Q) : Z :=
  let f := Qfloor t in
  let r := (t - inject_Z f)%Q in
  if Qle_bool r (1 # 2)
  then (if Qeq_bool r (1 # 2) then (if Z.even f then f else f + 1) else f)
  else f + 1.

(** The format spec [.1f] on the exact value [x] of a float: the decimal
    with one digit after the point nearest to [x], ties to even; the
    result is the number of tenths. *)
Definition round1 (x : Q) : Z := round_half_even (x * 10).

(** ** Binary64 arithmetic

    A finite Python float is a rational [m * 2 ** e] with [|m| < 2 ** 53]
    and [e >= -1074].  Division and multiplication return the exact
    result rounded to the nearest such number, ties to the even [m]
    (IEEE 754 round-half-even).  The results formed by the script are far
    below [2 ** 1024], where binary64 overflows; [round_f64] has no such
    limit. *)

(** [2 ** e] as a rational. *)
Definition pow2 (e : Z) : Q := (2 ^ e)%Q.

(** [floor(log2 x)] for [x > 0]: the exponent of the leading bit. *)
Definition ilog2 (x : Q) : Z :=
  let p := Qnum x in
  let q := Zpos (Qden x) in
  if q <=? p then Z.log2 (p / q) else - Z.log2_up ((q + p - 1) / p).

(** The binary64 number nearest to [x]: 53 significant bits, and below
    [2 ** -1022] the fixed spacing [2 ** -1074] of the subnormals. *)
Definition round_f64 (x : Q) : Q :=
  match Qnum x with
  | Z0 => 0
  | Zpos _ =>
      let e := Z.max (ilog2 x - 52) (-1074) in
      (inject_Z (round_half_even (x / pow2 e)) * pow2 e)%Q
  | Zneg _ =>
      let e := Z.max (ilog2 (- x) - 52) (-1074) in
      (- (inject_Z (round_half_even (- x / pow2 e)) * pow2 e))%Q
  end.

(** [a / b] on two ints with [b] not zero: the quotient correctly
    rounded. *)
Definition true_div (a b : Z) : Q := round_f64 (inject_Z a / inject_Z b).

(** [x * y] on two floats. *)
Definition fmul (x y : Q) : Q := round_f64 (x * y).

End Py.

(** ** Python values decoded from JSON

    [None], [bool], [int], [str], [list] and [dict] with [str] keys, the
    entries of a dict in insertion order.  JSON numbers with a fraction
    ([float]) are left out: no course or quiz field is one. *)

#[local] Set Warnings "-register-all".

Inductive json : Type :=
| JNull
| JBool (b : bool)
| JInt (n : Z)
| JStr (s : string)
| JList (items : list json)
| JDict (entries : list (string * json)).

(** Exceptions; the payload is [str(e)]. *)
Inductive exn : Type :=
| JSONDecodeError (msg : string)
| TypeError (msg : string)
| KeyError (msg : string)
| IndexError (msg : string)
| ZeroDivisionError (msg : string)
| ClientError (msg : string).

Definition str_exn (e : exn) : string :=
  match e with
  | JSONDecodeError m | TypeError m | KeyError m | IndexError m
  | ZeroDivisionError m | ClientError m => m
  end.

(** [d.get(k)] on the entries of a dict. *)
Fixpoint dict_get (k : string) (d : list (string * json)) : option json :=
  match d with
  | [] => None
  | (k', v) :: r => if String.eqb k k' then Some v else dict_get k r
  end.

(** [d[k] = v] on the entries of a dict: an existing key keeps its
    position, a new key goes last. *)
Fixpoint dict_set (k : string) (v : json) (d : list (string * json))
  : list (string * json) :=
  match d with
  | [] => [(k, v)]
  | (k', v') :: r =>
      if String.eqb k k' then (k, v) :: r else (k', v') :: dict_set k v r
  end.

(** [obj[k]] with a [str] key. *)
Definition getitem (obj : json) (k : string) : exn + json :=
  match obj with
  | JDict d =>
      match dict_get k d with
      | Some v => inr v
      | None => inl (KeyError k)
      end
  | JList _ => inl (TypeError "list indices must be integers or slices, not str")
  | JStr _ => inl (TypeError "string indices must be integers")
  | _ => inl (TypeError "object is not subscriptable")
  end.

(** [obj[k] = v] with a [str] key. *)
Definition setitem (obj : json) (k : string) (v : json) : exn + json :=
  match obj with
  | JDict d => inr (JDict (dict_set k v d))
  | JList _ => inl (TypeError "list indices must be integers or slices, not str")
  | _ => inl (TypeError "object does not support item assignment")
  end.

(** The elements a [for] loop sees: list items, dict keys, the
    characters of a string. *)
Definition iter (obj : json) : exn + list json :=
  match obj with
  | JList l => inr l
  | JDict d => inr (map (fun kv => JStr (fst kv)) d)
  | JStr s =>
      inr (map (fun c => JStr (String c EmptyString)) (list_ascii_of_string s))
  | _ => inl (TypeError "object is not iterable")
  end.

(** [len(obj)] *)
Definition len (obj : json) : exn + Z :=
  match obj with
  | JList l => inr (Z.of_nat (length l))
  | JDict d => inr (Z.of_nat (length d))
  | JStr s => inr (Z.of_nat (String.length s))
  | _ => inl (TypeError "object has no len()")
  end.

(** [a == v] where [a] is the result of [quiz_answers.get(idx)]: a [str],
    or [None] when the index is missing. *)
Definition eq_answer (a : option string) (v : json) : bool :=
  match a, v with
  | Some s, JStr s' => String.eqb s s'
  | None, JNull => true
  | _, _ => false
  end.

(** ** Session state *)

(** One entry of [quiz_history]. *)
Record quiz_attempt : Type := {
  topic : string;
  score : Q;
  date : string
}.

(** The per-user dict created by [initialize_user_data]. *)
Record user_stats : Type := {
  courses : list json;
  quiz_history : list quiz_attempt;
  learning_preferences : list string;
  total_score : Q;
  courses_completed : Z;
  quizzes_taken : Z;
  learning_streak : Z
}.

(** What the script writes to the page. *)
Inductive ui_event : Type :=
| WarnRateLimit (wait_seconds : Z)
    (* st.warning: Rate limit protection: Please wait {int(wait_time)} seconds ... *)
| ErrApiConfiguration (cause : string)
    (* st.error: API Configuration Error: {str(e)} *)
| ErrNoWorkingModel
    (* st.error: No working model found. Please check your API key. *)
| InfoGetNewKey
    (* st.info: Get a new API key from: ... *)
| InfoUsingModel (model_name : string)
    (* st.info: Using model: {model_name} *)
| ErrGeneratingCourse (cause : string)
    (* st.error: Error generating course: {str(e)} *)
| ErrGeneratingQuiz (cause : string)
    (* st.error: Error generating quiz: {str(e)} *)
| Balloons
| SuccessScore (tenths correct total : Z)
    (* st.success: You scored {score:.1f}% ({correct}/{len} correct) *)
| SuccessQuestion (idx : nat)
    (* st.success: Q{idx+1}: Correct! *)
| ErrQuestion (idx : nat) (correct : json)
    (* st.error: Q{idx+1}: Incorrect. Correct answer: {q['correct']} *)
| InfoExplanation (explanation : json).
    (* st.info: {q['explanation']} *)

(** Calls made to the generative-AI client.  [CallConfigure] only stores
    the credential in the client library; the other two go out to the
    backend. *)
Inductive client_call : Type :=
| CallConfigure (key : string)
| CallListModels
| CallGenerateContent (model_name prompt : string).

Definition outbound (c : client_call) : bool :=
  match c with
  | CallConfigure _ => false
  | CallListModels | CallGenerateContent _ _ => true
  end.

Record session : Type := {
  api_key : option string;
  working_model : option string;      (* absent or None: [None] *)
  last_request_time : Q;
  request_count : Z;
  user_data : gmap string user_stats;
  current_user : option string;
  current_quiz : option json;
  quiz_answers : gmap nat string;
  quiz_score : option Q;
  quiz_topic : string;
  ui : list ui_event;                 (* newest last *)
  calls : list client_call            (* newest last *)
}.

(** The state the script's preamble sets up (lines 84-97). *)
Definition initial_session : session := {|
  api_key := None;
  working_model := None;
  last_request_time := 0;
  request_count := 0;
  user_data := ∅;
  current_user := None;
  current_quiz := None;
  quiz_answers := ∅;
  quiz_score := None;
  quiz_topic := "";
  ui := [];
  calls := []
|}.

Definition set_working_model (m : option string) (s : session) : session :=
  {| api_key := api_key s; working_model := m;
     last_request_time := last_request_time s;
     request_count := request_count s; user_data := user_data s;
     current_user := current_user s; current_quiz := current_quiz s;
     quiz_answers := quiz_answers s; quiz_score := quiz_score s;
     quiz_topic := quiz_topic s; ui := ui s; calls := calls s |}.

Definition set_last_request_time (t : Q) (s : session) : session :=
  {| api_key := api_key s; working_model := working_model s;
     last_request_time := t;
     request_count := request_count s; user_data := user_data s;
     current_user := current_user s; current_quiz := current_quiz s;
     quiz_answers := quiz_answers s; quiz_score := quiz_score s;
     quiz_topic := quiz_topic s; ui := ui s; calls := calls s |}.

Definition set_request_count (n : Z) (s : session) : session :=
  {| api_key := api_key s; working_model := working_model s;
     last_request_time := last_request_time s;
     request_count := n; user_data := user_data s;
     current_user := current_user s; current_quiz := current_quiz s;
     quiz_answers := quiz_answers s; quiz_score := quiz_score s;
     quiz_topic := quiz_topic s; ui := ui s; calls := calls s |}.

Definition set_user_data (d : gmap string user_stats) (s : session) : session :=
  {| api_key := api_key s; working_model := working_model s;
     last_request_time := last_request_time s;
     request_count := request_count s; user_data := d;
     current_user := current_user s; current_quiz := current_quiz s;
     quiz_answers := quiz_answers s; quiz_score := quiz_score s;
     quiz_topic := quiz_topic s; ui := ui s; calls := calls s |}.

Definition set_current_quiz (q : option json) (s : session) : session :=
  {| api_key := api_key s; working_model := working_model s;
     last_request_time := last_request_time s;
     request_count := request_count s; user_data := user_data s;
     current_user := current_user s; current_quiz := q;
     quiz_answers := quiz_answers s; quiz_score := quiz_score s;
     quiz_topic := quiz_topic s; ui := ui s; calls := calls s |}.

Definition set_quiz_answers (a : gmap nat string) (s : session) : session :=
  {| api_key := api_key s; working_model := working_model s;
     last_request_time := last_request_time s;
     request_count := request_count s; user_data := user_data s;
     current_user := current_user s; current_quiz := current_quiz s;
     quiz_answers := a; quiz_score := quiz_score s;
     quiz_topic := quiz_topic s; ui := ui s; calls := calls s |}.

Definition set_quiz_score (x : option Q) (s : session) : session :=
  {| api_key := api_key s; working_model := working_model s;
     last_request_time := last_request_time s;
     request_count := request_count s; user_data := user_data s;
     current_user := current_user s; current_quiz := current_quiz s;
     quiz_answers := quiz_answers s; quiz_score := x;
     quiz_topic := quiz_topic s; ui := ui s; calls := calls s |}.

Definition set_quiz_topic (t : string) (s : session) : session :=
  {| api_key := api_key s; working_model := working_model s;
     last_request_time := last_request_time s;
     request_count := request_count s; user_data := user_data s;
     current_user := current_user s; current_quiz := current_quiz s;
     quiz_answers := quiz_answers s; quiz_score := quiz_score s;
     quiz_topic := t; ui := ui s; calls := calls s |}.

Definition set_ui (l : list ui_event) (s : session) : session :=
  {| api_key := api_key s; working_model := working_model s;
     last_request_time := last_request_time s;
     request_count := request_count s; user_data := user_data s;
     current_user := current_user s; current_quiz := current_quiz s;
     quiz_answers := quiz_answers s; quiz_score := quiz_score s;
     quiz_topic := quiz_topic s; ui := l; calls := calls s |}.

Definition set_calls (l : list client_call) (s : session) : session :=
  {| api_key := api_key s; working_model := working_model s;
     last_request_time := last_request_time s;
     request_count := request_count s; user_data := user_data s;
     current_user := current_user s; current_quiz := current_quiz s;
     quiz_answers := quiz_answers s; quiz_score := quiz_score s;
     quiz_topic := quiz_topic s; ui := ui s; calls := l |}.

(** ** Computations: session passing with exceptions *)

Definition M (A : Type) : Type := session -> (exn + A) * session.

Definition ret {A} (a : A) : M A := fun s => (inr a, s).

Definition bind {A B} (c : M A) (k : A -> M B) : M B :=
  fun s =>
    match c s with
    | (inr a, s') => k a s'
    | (inl e, s') => (inl e, s')
    end.

Definition raise {A} (e : exn) : M A := fun s => (inl e, s).

(** [try: c  except Exception as e: h e] *)
Definition try_except {A} (c : M A) (h : exn -> M A) : M A :=
  fun s =>
    match c s with
    | (inr a, s') => (inr a, s')
    | (inl e, s') => h e s'
    end.

Definition get : M session := fun s => (inr s, s).
Definition modify (f : session -> session) : M unit := fun s => (inr tt, f s).

(** Lift the result of a pure step that may raise. *)
Definition lift {A} (r : exn + A) : M A := fun s => (r, s).

Declare Scope py_scope.
Delimit Scope py_scope with py.
Notation "x <- c ;; k" := (bind c (fun x => k))
  (at level 100, c at next level, right associativity) : py_scope.
Notation "c ;;; k" := (bind c (fun _ => k))
  (at level 100, right associativity) : py_scope.
Local Open Scope py_scope.

Definition show (e : ui_event) : M unit :=
  modify (fun s => set_ui (ui s ++ [e]) s).

Definition log_call (c : client_call) : M unit :=
  modify (fun s => set_calls (calls s ++ [c]) s).

(** ** The outside world *)

(** One entry of [genai.list_models()]. *)
Record model_info : Type := {
  name : string;
  supported_generation_methods : list string
}.

Inductive HarmCategory : Type :=
| HARM_CATEGORY_HATE_SPEECH
| HARM_CATEGORY_HARASSMENT
| HARM_CATEGORY_SEXUALLY_EXPLICIT
| HARM_CATEGORY_DANGEROUS_CONTENT.

Inductive HarmBlockThreshold : Type := BLOCK_NONE.

(** The [safety_settings] every [GenerativeModel] is built with. *)
Definition safety_settings : list (HarmCategory * HarmBlockThreshold) :=
  [ (HARM_CATEGORY_HATE_SPEECH, BLOCK_NONE);
    (HARM_CATEGORY_HARASSMENT, BLOCK_NONE);
    (HARM_CATEGORY_SEXUALLY_EXPLICIT, BLOCK_NONE);
    (HARM_CATEGORY_DANGEROUS_CONTENT, BLOCK_NONE) ].

(** Library and backend behaviour the script cannot see into:
    [json.loads]; [genai.configure] ([Some e] when it raises);
    [genai.list_models()]; [model.generate_content(prompt).text] for a
    model name and a prompt; [repr] of a list of strings. *)
Record environment : Type := {
  json_loads : string -> exn + json;
  genai_configure : string -> option exn;
  genai_list_models : exn + list model_info;
  genai_generate_content : string -> string -> exn + string;
  repr_list : list string -> string
}.

(** ** Prompt templates *)

(** The templates are written with [~] where the source has a double
    quote. *)
Fixpoint unq (s : string) : string :=
  match s with
  | EmptyString => EmptyString
  | String c r =>
      String (if Ascii.eqb c "~"%char then ascii_of_nat 34 else c) (unq r)
  end.

Definition course_prompt (topic level duration : string) : string :=
  unq "Create a detailed course outline for ~" +:+ topic +:+ unq "~ at "
  +:+ level +:+ " level.
        The course should be designed for " +:+ duration +:+ unq " of learning.
        
        Format the response as JSON with the following structure:
        {
            ~title~: ~Course Title~,
            ~description~: ~Brief description~,
            ~modules~: [
                {
                    ~name~: ~Module Name~,
                    ~topics~: [~Topic 1~, ~Topic 2~],
                    ~duration~: ~Estimated time~
                }
            ],
            ~learning_outcomes~: [~Outcome 1~, ~Outcome 2~],
            ~prerequisites~: [~Prerequisite 1~]
        }
        
        Provide only the JSON, no additional text.".

Definition quiz_prompt (topic difficulty : string) (num_questions : Z) : string :=
  "Generate " +:+ Py.str_int num_questions
  +:+ unq " multiple-choice questions about ~" +:+ topic +:+ unq "~ at "
  +:+ difficulty +:+ unq " difficulty level.
        
        Format as JSON:
        {
            ~questions~: [
                {
                    ~question~: ~Question text?~,
                    ~options~: [~A) Option 1~, ~B) Option 2~, ~C) Option 3~, ~D) Option 4~],
                    ~correct~: ~A~,
                    ~explanation~: ~Why this is correct~
                }
            ]
        }
        
        Provide only the JSON.".

Definition recommendations_prompt (E : environment)
    (user_history preferences : list string) : string :=
  "Based on learning history: " +:+ repr_list E user_history
  +:+ " and preferences: " +:+ repr_list E preferences +:+ unq ",
        recommend 5 relevant courses. Return only a JSON array of course names:
        [~Course 1~, ~Course 2~, ~Course 3~, ~Course 4~, ~Course 5~]".

(** ** Helper functions of the script *)

Definition fresh_user_stats : user_stats := {|
  courses := [];
  quiz_history := [];
  learning_preferences := [];
  total_score := 0;
  courses_completed := 0;
  quizzes_taken := 0;
  learning_streak := 0
|}.

Definition initialize_user_data (username : string) : M unit :=
  modify (fun s =>
    match user_data s !! username with
    | Some _ => s
    | None => set_user_data (<[username := fresh_user_stats]> (user_data s)) s
    end).

(** Truthiness of [st.session_state.api_key] and of a model name. *)
Definition truthy_opt (o : option string) : bool :=
  match o with
  | Some k => Py.truthy k
  | None => false
  end.

Section Script.

Variable E : environment.

(** [genai.configure(api_key=key)] *)
Definition configure (key : string) : M unit :=
  log_call (CallConfigure key) ;;;
  match genai_configure E key with
  | Some e => raise e
  | None => ret tt
  end.

(** [genai.list_models()], consumed to the end. *)
Definition list_models : M (list model_info) :=
  log_call CallListModels ;;; lift (genai_list_models E).

(** [model.generate_content(prompt)] followed by [response.text], for a
    model built with [safety_settings]. *)
Definition generate_content (model_name prompt : string) : M string :=
  log_call (CallGenerateContent model_name prompt) ;;;
  lift (genai_generate_content E model_name prompt).

Definition configure_gemini : M bool :=
  s <- get ;;
  match api_key s with
  | Some k =>
      if Py.truthy k
      then try_except (configure k ;;; ret true)
             (fun e => show (ErrApiConfiguration (str_exn e)) ;;; ret false)
      else ret false
  | None => ret false
  end.

(** The loop of [test_api_key_and_list_models]: keep the models that
    support content generation, without the [models/] prefix. *)
Fixpoint collect_models (ms : list model_info) (models : list string)
  : list string :=
  match ms with
  | [] => models
  | m :: r =>
      if bool_decide ("generateContent" ∈ supported_generation_methods m)
      then collect_models r (models ++ [Py.replace "models/" "" (name m)])
      else collect_models r models
  end.

(** Returns the pair [(models, error)]. *)
Definition test_api_key_and_list_models
  : M (option (list string) * option string) :=
  s <- get ;;
  match api_key s with
  | Some k =>
      if Py.truthy k
      then try_except
             (configure k ;;;
              ms <- list_models ;;
              ret (Some (collect_models ms []), None))
             (fun e => ret (None, Some (str_exn e)))
      else ret (None, Some "No API key provided")
  | None => ret (None, Some "No API key provided")
  end.

Definition preferred : list string :=
  [ "gemini-1.5-flash-8b";
    "gemini-1.5-flash";
    "gemini-2.0-flash-exp";
    "gemini-1.5-pro";
    "gemini-pro" ].

(** [for pref in preferred: if pref in available_models: ... return pref] *)
Fixpoint first_preferred (prefs available_models : list string)
  : option string :=
  match prefs with
  | [] => None
  | pref :: r =>
      if bool_decide (pref ∈ available_models) then Some pref
      else first_preferred r available_models
  end.

Definition get_working_model : M (option string) :=
  s <- get ;;
  if truthy_opt (working_model s) then ret (working_model s)
  else
    r <- test_api_key_and_list_models ;;
    match fst r with
    | Some ((m0 :: _) as available_models) =>
        match first_preferred preferred available_models with
        | Some pref =>
            modify (set_working_model (Some pref)) ;;; ret (Some pref)
        | None =>
            modify (set_working_model (Some m0)) ;;; ret (Some m0)
        end
    | _ => ret None
    end.

(** [now] is the value of [time.time()]. *)
Definition rate_limit_check (now : Q) : M bool :=
  s0 <- get ;;
  (if Py.gt (now - last_request_time s0) 60
   then modify (fun s => set_last_request_time now (set_request_count 0 s))
   else ret tt) ;;;
  s <- get ;;
  let count_request :=
    modify (fun s => set_request_count (request_count s + 1) s) ;;; ret true in
  if 10 <=? request_count s
  then
    let wait_time := (60 - (now - last_request_time s))%Q in
    if Py.gt wait_time 0
    then show (WarnRateLimit (Py.int wait_time)) ;;; ret false
    else count_request
  else count_request.

(** ** Content generation *)

(** The cleaning steps shared by the three generators (lines 238-245,
    298-305 and 335-342): strip, drop a leading [```json], drop a leading
    [```], drop a trailing [```], strip. *)
Definition clean_response (response_text : string) : string :=
  let text := Py.strip response_text in
  let text := if Py.startswith "```json" text then Py.drop 7 text else text in
  let text := if Py.startswith "```" text then Py.drop 3 text else text in
  let text := if Py.endswith "```" text then Py.drop_last 3 text else text in
  Py.strip text.

(** [json.loads] of the cleaned text. *)
Definition parse_response (response_text : string) : exn + json :=
  json_loads E (clean_response response_text).

(** [today] is [datetime.now().strftime("%Y-%m-%d")]. *)
Definition generate_course (now : Q) (today : string)
    (topic level duration : string) : M (option json) :=
  configured <- configure_gemini ;;
  if negb configured then ret None else
  permitted <- rate_limit_check now ;;
  if negb permitted then ret None else
  model_name <- get_working_model ;;
  if negb (truthy_opt model_name) then
    show ErrNoWorkingModel ;;; ret None
  else
    let model_name := default "" model_name in
    try_except
      (show (InfoUsingModel model_name) ;;;
       let prompt := course_prompt topic level duration in
       response_text <- generate_content model_name prompt ;;
       course_data <- lift (parse_response response_text) ;;
       course_data <- lift (setitem course_data "created_date" (JStr today)) ;;
       course_data <- lift (setitem course_data "user_topic" (JStr topic)) ;;
       course_data <- lift (setitem course_data "level" (JStr level)) ;;
       ret (Some course_data))
      (fun e => show (ErrGeneratingCourse (str_exn e)) ;;; ret None).

Definition generate_quiz (now : Q) (topic difficulty : string)
    (num_questions : Z) : M (option json) :=
  configured <- configure_gemini ;;
  if negb configured then ret None else
  permitted <- rate_limit_check now ;;
  if negb permitted then ret None else
  model_name <- get_working_model ;;
  if negb (truthy_opt model_name) then
    show ErrNoWorkingModel ;;; show InfoGetNewKey ;;; ret None
  else
    let model_name := default "" model_name in
    try_except
      (show (InfoUsingModel model_name) ;;;
       let prompt := quiz_prompt topic difficulty num_questions in
       response_text <- generate_content model_name prompt ;;
       quiz <- lift (parse_response response_text) ;;
       ret (Some quiz))
      (fun e => show (ErrGeneratingQuiz (str_exn e)) ;;; ret None).

Definition fallback_no_history : json :=
  JList [ JStr "Python Programming"; JStr "Data Science Basics";
          JStr "Web Development"; JStr "Machine Learning Introduction" ].

Definition fallback_on_failure : json :=
  JList [ JStr "Python Programming"; JStr "Data Science Basics";
          JStr "Web Development"; JStr "Machine Learning Introduction";
          JStr "AI Fundamentals" ].

Definition get_recommendations (user_history preferences : list string)
  : M json :=
  configured <- configure_gemini ;;
  if negb configured || bool_decide (user_history = []) then
    ret fallback_no_history
  else
  model_name <- get_working_model ;;
  if negb (truthy_opt model_name) then ret fallback_on_failure
  else
    let model_name := default "" model_name in
    try_except
      (let prompt := recommendations_prompt E user_history preferences in
       response_text <- generate_content model_name prompt ;;
       lift (parse_response response_text))
      (fun _ => ret fallback_on_failure).

(** ** The quiz page *)

(** The question loop of lines 572-577.  [selected idx] is what
    [st.radio] returns for question [idx]: the option string chosen. *)
Fixpoint store_answers (selected : nat -> string) (idx : nat)
    (questions : list json) : M unit :=
  match questions with
  | [] => ret tt
  | q :: r =>
      _ <- lift (getitem q "question") ;;
      _ <- lift (getitem q "options") ;;
      match selected idx with
      | EmptyString => raise (IndexError "string index out of range")
      | String c _ =>
          modify (fun s =>
            set_quiz_answers (<[idx := String c EmptyString]> (quiz_answers s)) s) ;;;
          store_answers selected (S idx) r
      end
  end.

Definition render_questions (selected : nat -> string) : M unit :=
  s <- get ;;
  match current_quiz s with
  | None => ret tt
  | Some quiz =>
      questions <- lift (getitem quiz "questions") ;;
      items <- lift (iter questions) ;;
      store_answers selected O items
  end.

(** The test of lines 584 and 604. *)
Definition answer_matches (answers : gmap nat string) (idx : nat) (q : json)
  : exn + bool :=
  match getitem q "correct" with
  | inl e => inl e
  | inr c => inr (eq_answer (answers !! idx) c)
  end.

(** The counting loop of lines 582-585. *)
Fixpoint count_correct (answers : gmap nat string) (idx : nat)
    (questions : list json) (correct : Z) : exn + Z :=
  match questions with
  | [] => inr correct
  | q :: r =>
      match answer_matches answers idx q with
      | inl e => inl e
      | inr true => count_correct answers (S idx) r (correct + 1)
      | inr false => count_correct answers (S idx) r correct
      end
  end.

(** [score = (correct / len(quiz['questions'])) * 100] *)
Definition compute_score (correct n : Z) : exn + Q :=
  if n =? 0 then inl (ZeroDivisionError "division by zero")
  else inr ((inject_Z correct / inject_Z n) * 100)%Q.

(** The binary64 number that [score] holds after the same line: the
    quotient of the two ints rounded, then its product with 100 rounded.
    [compute_score] gives the rational it stands for. *)
Definition score_float (correct n : Z) : Q :=
  Py.fmul (Py.true_div correct n) 100.

(** Lines 591-597 on the user's dict. *)
Definition add_attempt (a : quiz_attempt) (u : user_stats) : user_stats := {|
  courses := courses u;
  quiz_history := quiz_history u ++ [a];
  learning_preferences := learning_preferences u;
  total_score := (total_score u + score a)%Q;
  courses_completed := courses_completed u;
  quizzes_taken := quizzes_taken u + 1;
  learning_streak := learning_streak u
|}.

(** Lines 590-597.  [stamp] is
    [datetime.now().strftime("%Y-%m-%d %H:%M")]. *)
Definition record_quiz_attempt (score : Q) (stamp : string) : M unit :=
  s <- get ;;
  match current_user s with
  | None => raise (KeyError "None")
  | Some user =>
      match user_data s !! user with
      | None => raise (KeyError user)
      | Some user_stats =>
          let attempt :=
            {| topic := quiz_topic s; score := score; date := stamp |} in
          modify (set_user_data
                    (<[user := add_attempt attempt user_stats]> (user_data s)))
      end
  end.

(** The feedback loop of lines 602-608. *)
Fixpoint show_feedback (answers : gmap nat string) (idx : nat)
    (questions : list json) : M unit :=
  match questions with
  | [] => ret tt
  | q :: r =>
      matches <- lift (answer_matches answers idx q) ;;
      (if matches : bool then show (SuccessQuestion idx)
       else
         correct <- lift (getitem q "correct") ;;
         show (ErrQuestion idx correct) ;;;
         explanation <- lift (getitem q "explanation") ;;
         show (InfoExplanation explanation)) ;;;
      show_feedback answers (S idx) r
  end.

(** The body of the Submit button (lines 581-608) for the quiz being
    taken. *)
Definition submit_quiz (stamp : string) : M unit :=
  s <- get ;;
  match current_quiz s with
  | None => raise (TypeError "'NoneType' object is not subscriptable")
  | Some quiz =>
      questions <- lift (getitem quiz "questions") ;;
      items <- lift (iter questions) ;;
      correct <- lift (count_correct (quiz_answers s) O items 0) ;;
      n <- lift (len questions) ;;
      score <- lift (compute_score correct n) ;;
      modify (set_quiz_score (Some score)) ;;;
      record_quiz_attempt score stamp ;;;
      show Balloons ;;;
      show (SuccessScore (Py.round1 (score_float correct n)) correct n) ;;;
      show_feedback (quiz_answers s) O items
  end.

End Script.

(** ** A reference JSON codec

    [json.loads] and [json.dumps] are library code; the script's
    properties below are stated for any decoder.  The concrete scenarios
    run on this decoder for the JSON subset without fractional numbers
    (a number with a fraction or an exponent is reported as unsupported,
    and so are the [NaN] and [Infinity] literals), whose messages are
    those of [JSONDecodeError] without the position suffix, and on this
    encoder, which follows the default [json.dumps] layout: [", "] and
    [": "] separators, non-ASCII and control characters escaped. *)

Module Json.

Definition dquote : ascii := ascii_of_nat 34.
Definition backslash : ascii := ascii_of_nat 92.

Definition hex_digit (n : N) : ascii :=
  ascii_of_N (if (n <? 10)%N then 48 + n else 87 + n)%N.

(** One character of a string, as [json.dumps] writes it. *)
Definition escape_char (c : ascii) : string :=
  let n := N_of_ascii c in
  if (n =? 34)%N then String backslash (String dquote EmptyString)
  else if (n =? 92)%N then String backslash (String backslash EmptyString)
  else if (n =? 10)%N then String backslash "n"
  else if (n =? 13)%N then String backslash "r"
  else if (n =? 9)%N then String backslash "t"
  else if (n =? 8)%N then String backslash "b"
  else if (n =? 12)%N then String backslash "f"
  else if ((32 <=? n) && (n <=? 126))%N then String c EmptyString
  else String backslash
         ("u00" +:+ String (hex_digit (n / 16)) (String (hex_digit (n mod 16)) EmptyString)).

Fixpoint escape (s : string) : string :=
  match s with
  | EmptyString => EmptyString
  | String c r => escape_char c +:+ escape r
  end.

Definition encode_string (s : string) : string :=
  String dquote (escape s +:+ String dquote EmptyString).

Fixpoint join (sep : string) (l : list string) : string :=
  match l with
  | [] => EmptyString
  | [x] => x
  | x :: r => x +:+ sep +:+ join sep r
  end.

(** [json.dumps(v)] *)
Fixpoint dumps (v : json) : string :=
  match v with
  | JNull => "null"
  | JBool true => "true"
  | JBool false => "false"
  | JInt n => Py.str_int n
  | JStr s => encode_string s
  | JList l => "[" +:+ join ", " (map dumps l) +:+ "]"
  | JDict d =>
      "{" +:+ join ", "
                (map (fun kv => match kv with
                                | (k, x) => encode_string k +:+ ": " +:+ dumps x
                                end) d) +:+ "}"
  end.

Definition is_ws (c : ascii) : bool :=
  let n := N_of_ascii c in
  ((n =? 32) || (n =? 9) || (n =? 10) || (n =? 13))%N.

Fixpoint skip_ws (s : string) : string :=
  match s with
  | String c r => if is_ws c then skip_ws r else s
  | EmptyString => EmptyString
  end.

Definition digit_value (c : ascii) : option Z :=
  let n := N_of_ascii c in
  if ((48 <=? n) && (n <=? 57))%N then Some (Z.of_N (n - 48)) else None.

Definition hex_value (c : ascii) : option N :=
  let n := N_of_ascii c in
  if ((48 <=? n) && (n <=? 57))%N then Some (n - 48)%N
  else if ((97 <=? n) && (n <=? 102))%N then Some (n - 87)%N
  else if ((65 <=? n) && (n <=? 70))%N then Some (n - 55)%N
  else None.

Fixpoint digits (s : string) (acc : Z) : Z * string :=
  match s with
  | String c r =>
      match digit_value c with
      | Some d => digits r (acc * 10 + d)
      | None => (acc, s)
      end
  | EmptyString => (acc, s)
  end.

Definition expecting_value : exn := JSONDecodeError "Expecting value".

(** The rest after an integer must not continue it as a float. *)
Definition no_fraction (v : Z) (rest : string) : exn + (json * string) :=
  match rest with
  | String c _ =>
      if (Ascii.eqb c "." || Ascii.eqb c "e" || Ascii.eqb c "E")%bool
      then inl (JSONDecodeError "fractional numbers are not supported")
      else inr (JInt v, rest)
  | EmptyString => inr (JInt v, rest)
  end.

(** An integer without sign: [0], or a non-zero digit and more digits. *)
Definition unsigned (sign : Z) (s : string) : exn + (json * string) :=
  match s with
  | String c r =>
      match digit_value c with
      | Some 0 => no_fraction 0 r
      | Some d => let '(v, rest) := digits r d in no_fraction (sign * v) rest
      | None => inl expecting_value
      end
  | EmptyString => inl expecting_value
  end.

Definition number (s : string) : exn + (json * string) :=
  match s with
  | String "-" r => unsigned (-1) r
  | _ => unsigned 1 s
  end.

(** The characters of a string after its opening quote, up to the
    closing one. *)
Fixpoint string_body (s : string) : exn + (string * string) :=
  match s with
  | EmptyString => inl (JSONDecodeError "Unterminated string starting at")
  | String c r =>
      if Ascii.eqb c dquote then inr (EmptyString, r)
      else if Ascii.eqb c backslash then
        match r with
        | String "u" (String a (String b (String h (String l r')))) =>
            match hex_value a, hex_value b, hex_value h, hex_value l with
            | Some 0%N, Some 0%N, Some x, Some y =>
                match string_body r' with
                | inr (t, rest) => inr (String (ascii_of_N (16 * x + y)) t, rest)
                | inl e => inl e
                end
            | Some _, Some _, Some _, Some _ =>
                inl (JSONDecodeError "code points above 255 are not supported")
            | _, _, _, _ => inl (JSONDecodeError "Invalid \uXXXX escape")
            end
        | String e r' =>
            let plain (x : ascii) :=
              match string_body r' with
              | inr (t, rest) => inr (String x t, rest)
              | inl err => inl err
              end in
            if Ascii.eqb e dquote then plain dquote
            else if Ascii.eqb e backslash then plain backslash
            else if Ascii.eqb e "/" then plain "/"%char
            else if Ascii.eqb e "n" then plain (ascii_of_nat 10)
            else if Ascii.eqb e "r" then plain (ascii_of_nat 13)
            else if Ascii.eqb e "t" then plain (ascii_of_nat 9)
            else if Ascii.eqb e "b" then plain (ascii_of_nat 8)
            else if Ascii.eqb e "f" then plain (ascii_of_nat 12)
            else inl (JSONDecodeError "Invalid \escape")
        | EmptyString => inl (JSONDecodeError "Unterminated string starting at")
        end
      else if (N_of_ascii c <? 32)%N then
        inl (JSONDecodeError "Invalid control character at")
      else
        match string_body r with
        | inr (t, rest) => inr (String c t, rest)
        | inl e => inl e
        end
  end.

Fixpoint value (fuel : nat) (s : string) : exn + (json * string) :=
  match fuel with
  | O => inl (JSONDecodeError "nesting too deep")
  | S fuel' =>
      match skip_ws s with
      | EmptyString => inl expecting_value
      | String c r =>
          if Ascii.eqb c "{" then
            match skip_ws r with
            | String "}" r' => inr (JDict [], r')
            | _ => members fuel' r []
            end
          else if Ascii.eqb c "[" then
            match skip_ws r with
            | String "]" r' => inr (JList [], r')
            | _ => elements fuel' r []
            end
          else if Ascii.eqb c dquote then
            match string_body r with
            | inr (t, rest) => inr (JStr t, rest)
            | inl e => inl e
            end
          else if Py.startswith "null" (String c r) then inr (JNull, Py.drop 4 (String c r))
          else if Py.startswith "true" (String c r) then inr (JBool true, Py.drop 4 (String c r))
          else if Py.startswith "false" (String c r) then inr (JBool false, Py.drop 5 (String c r))
          else number (String c r)
      end
  end
with members (fuel : nat) (s : string) (acc : list (string * json))
  : exn + (json * string) :=
  match fuel with
  | O => inl (JSONDecodeError "nesting too deep")
  | S fuel' =>
      match skip_ws s with
      | String c r =>
          if Ascii.eqb c dquote then
            match string_body r with
            | inl e => inl e
            | inr (k, r1) =>
                match skip_ws r1 with
                | String ":" r2 =>
                    match value fuel' r2 with
                    | inl e => inl e
                    | inr (v, r3) =>
                        match skip_ws r3 with
                        | String "," r4 => members fuel' r4 (dict_set k v acc)
                        | String "}" r4 => inr (JDict (dict_set k v acc), r4)
                        | _ => inl (JSONDecodeError "Expecting ',' delimiter")
                        end
                    end
                | _ => inl (JSONDecodeError "Expecting ':' delimiter")
                end
            end
          else inl (JSONDecodeError
                      "Expecting property name enclosed in double quotes")
      | EmptyString =>
          inl (JSONDecodeError
                 "Expecting property name enclosed in double quotes")
      end
  end
with elements (fuel : nat) (s : string) (acc : list json)
  : exn + (json * string) :=
  match fuel with
  | O => inl (JSONDecodeError "nesting too deep")
  | S fuel' =>
      match value fuel' s with
      | inl e => inl e
      | inr (v, r1) =>
          match skip_ws r1 with
          | String "," r2 => elements fuel' r2 (acc ++ [v])
          | String "]" r2 => inr (JList (acc ++ [v]), r2)
          | _ => inl (JSONDecodeError "Expecting ',' delimiter")
          end
      end
  end.

(** [json.loads(s)] *)
Definition loads (s : string) : exn + json :=
  match value (2 * String.length s + 2) s with
  | inl e => inl e
  | inr (v, rest) =>
      match skip_ws rest with
      | EmptyString => inr v
      | _ => inl (JSONDecodeError "Extra data")
      end
  end.

End Json.

(** ** Vocabulary of the properties *)

(** The session after the reset test of [rate_limit_check]. *)
Definition after_reset_test (now : Q) (s : session) : session :=
  if Py.gt (now - last_request_time s) 60
  then set_last_request_time now (set_request_count 0 s)
  else s.

(** [z] is a finite binary64 number: a significand below [2 ** 53] in
    magnitude times a power of two from [2 ** -1074] to [2 ** 971]. *)
Definition is_f64 (z : Q) : Prop :=
  exists m e : Z,
    -1074 <= e <= 971 /\ Z.abs m < 2 ^ 53 /\ (z == inject_Z m * Py.pow2 e)%Q.

(** [r] is a binary64 number and none is nearer to [x]: [r] is [x]
    correctly rounded. *)
Definition nearest_f64 (x r : Q) : Prop :=
  is_f64 r /\ forall z, is_f64 z -> (Qabs (r - x) <= Qabs (z - x))%Q.

(** The check made at [t1] is the first of a fresh window that starts at
    [w]: either more than 60 seconds have passed since the stored window
    start, and the check restarts the window at [t1] (so it is for the
    first check of a run, the stored start being 0); or nothing is
    counted yet and [t1] falls inside the stored window. *)
Definition fresh_window (s : session) (t1 w : Q) : Prop :=
  (60 < t1 - last_request_time s)%Q /\ w = t1
  \/ request_count s = 0 /\ (t1 - last_request_time s <= 60)%Q
     /\ w = last_request_time s.

(** The last character of a string. *)
Fixpoint last_char (s : string) : option ascii :=
  match s with
  | "" => None
  | String c "" => Some c
  | String _ r => last_char r
  end.

(** A run of permit checks at the given clock readings. *)
Fixpoint permits (times : list Q) : M (list bool) :=
  match times with
  | [] => ret []
  | now :: r =>
      b <- rate_limit_check now ;;
      bs <- permits r ;;
      ret (b :: bs)
  end.

(** A computation that returns on every session: it never raises. *)
Definition never_raises {A} (c : M A) : Prop :=
  forall s, exists a s', c s = (inr a, s').

(** The calls [s'] has made beyond those of [s] are all local. *)
Definition no_outbound_since (s s' : session) : Prop :=
  exists new, calls s' = calls s ++ new /\ forallb (fun c => negb (outbound c)) new = true.

(** The first three steps of a gated generator succeed: the credential
    is configured, the rate limiter permits, and a model named [m] is
    resolved, leaving the session [s3]. *)
Definition reaches_backend (E : environment) (now : Q) (s s3 : session)
    (m : string) : Prop :=
  exists s1 s2,
    configure_gemini E s = (inr true, s1)
    /\ rate_limit_check now s1 = (inr true, s2)
    /\ get_working_model E s2 = (inr (Some m), s3)
    /\ Py.truthy m = true.

(** The session once [e] is shown. *)
Definition shown (e : ui_event) (s : session) : session :=
  set_ui (ui s ++ [e]) s.

(** The session once model [m] was announced and asked [prompt]. *)
Definition asked (m prompt : string) (s : session) : session :=
  let s' := shown (InfoUsingModel m) s in
  set_calls (calls s' ++ [CallGenerateContent m prompt]) s'.

(** The three assignments of lines 246-248 on the decoded value. *)
Definition stamp_course (today topic level : string) (course_data : json)
  : exn + json :=
  match setitem course_data "created_date" (JStr today) with
  | inl e => inl e
  | inr c1 =>
      match setitem c1 "user_topic" (JStr topic) with
      | inl e => inl e
      | inr c2 => setitem c2 "level" (JStr level)
      end
  end.

(** The entries of a course with its generation metadata. *)
Definition stamped (today topic level : string) (d : list (string * json))
  : list (string * json) :=
  dict_set "level" (JStr level)
    (dict_set "user_topic" (JStr topic)
       (dict_set "created_date" (JStr today) d)).

(** A response wrapped in a fenced code block tagged [json]. *)
Definition fence_json (body : string) : string :=
  "```json
" +:+ body +:+ "
```".

(** A sequence of quiz submissions by the current user, each on its own
    topic. *)
Fixpoint record_attempts (attempts : list quiz_attempt) : M unit :=
  match attempts with
  | [] => ret tt
  | a :: r =>
      modify (set_quiz_topic (topic a)) ;;;
      record_quiz_attempt (score a) (date a) ;;;
      record_attempts r
  end.

Definition sum_scores (l : list Q) : Q := fold_right Qplus 0%Q l.

(** Question [idx] is answered with exactly the value of its [correct]
    field. *)
Definition is_match (answers : gmap nat string) (idx : nat) (q : json) : bool :=
  match getitem q "correct" with
  | inr c => eq_answer (answers !! idx) c
  | inl _ => false
  end.

(** The number of matching answers. *)
Definition matching (answers : gmap nat string) (questions : list json) : Z :=
  Z.of_nat (length (filter (fun b => b = true) (imap (is_match answers) questions))).

Definition has_key (k : string) (q : json) : bool :=
  match getitem q k with inr _ => true | inl _ => false end.

(** ** Concrete scenarios *)

Module Demo.

Definition models : list model_info :=
  [ {| name := "models/gemini-pro";
       supported_generation_methods := ["generateContent"; "countTokens"] |};
    {| name := "models/embedding-001";
       supported_generation_methods := ["embedContent"] |};
    {| name := "models/gemini-1.5-flash";
       supported_generation_methods := ["generateContent"] |} ].

(** [repr] of a list of strings without quotes or escapes in them. *)
Definition repr (l : list string) : string :=
  "[" +:+ Json.join ", " (map (fun s => "'" +:+ s +:+ "'") l) +:+ "]".

(** A backend that lists [models] and answers every prompt with
    [response]. *)
Definition env (response : string) : environment := {|
  json_loads := Json.loads;
  genai_configure := fun _ => None;
  genai_list_models := inr models;
  genai_generate_content := fun _ _ => inr response;
  repr_list := repr
|}.

(** A logged-in user with a key and an untouched rate window. *)
Definition session0 : session := {|
  api_key := Some "key";
  working_model := None;
  last_request_time := 0;
  request_count := 0;
  user_data := {[ "ada" := fresh_user_stats ]};
  current_user := Some "ada";
  current_quiz := None;
  quiz_answers := ∅;
  quiz_score := None;
  quiz_topic := "";
  ui := [];
  calls := []
|}.

(** Ten requests counted in the window opened at second 100. *)
Definition session_full : session :=
  set_request_count 10 (set_last_request_time 100 session0).

Definition question (text correct : string) : json :=
  JDict [ ("question", JStr text);
          ("options", JList [JStr "A) one"; JStr "B) two"; JStr "C) three"; JStr "D) four"]);
          ("correct", JStr correct);
          ("explanation", JStr "because") ].

Definition quiz3 : json :=
  JDict [ ("questions",
           JList [question "first?" "A"; question "second?" "B"; question "third?" "C"]) ].

Definition course : json :=
  JDict [ ("title", JStr "Python Basics");
          ("description", JStr "An introduction");
          ("modules",
           JList [ JDict [ ("name", JStr "Start");
                           ("topics", JList [JStr "Syntax"; JStr "Types"]);
                           ("duration", JStr "2 days") ] ]);
          ("learning_outcomes", JList [JStr "Write scripts"]);
          ("prerequisites", JList []) ].

(** The session while [quiz3] on Python Basics is being taken. *)
Definition session_quiz : session := {|
  api_key := Some "key";
  working_model := Some "gemini-1.5-flash";
  last_request_time := 100;
  request_count := 1;
  user_data := {[ "ada" := fresh_user_stats ]};
  current_user := Some "ada";
  current_quiz := Some quiz3;
  quiz_answers := ∅;
  quiz_score := None;
  quiz_topic := "Python Basics";
  ui := [];
  calls := []
|}.

(** Three questions whose [correct] values differ from the option tag
    [A] in case, in spacing, and not at all. *)
Definition quiz_tags : json :=
  JDict [ ("questions",
           JList [question "first?" "a"; question "second?" " A"; question "third?" "A"]) ].

(** The options picked: right, right, wrong. *)
Definition picks (idx : nat) : string :=
  match idx with
  | O => "A) one"
  | 1%nat => "B) two"
  | _ => "D) four"
  end.

End Demo.

(** * The pages

    The button handlers of [auth_page], [dashboard], [course_generator],
    [quiz_page] and [profile_page], over the whole application state: the
    accounts, the login flag, the session above and what the handler
    writes to the page.  [st.rerun()], which only restarts the script, is
    the end of a handler. *)

(** Truthiness of a decoded value. *)
Definition truthy_json (v : json) : bool :=
  match v with
  | JNull => false
  | JBool b => b
  | JInt n => negb (n =? 0)
  | JStr s => Py.truthy s
  | JList l => match l with [] => false | _ => true end
  | JDict d => match d with [] => false | _ => true end
  end.

Definition set_api_key (k : option string) (s : session) : session :=
  {| api_key := k; working_model := working_model s;
     last_request_time := last_request_time s;
     request_count := request_count s; user_data := user_data s;
     current_user := current_user s; current_quiz := current_quiz s;
     quiz_answers := quiz_answers s; quiz_score := quiz_score s;
     quiz_topic := quiz_topic s; ui := ui s; calls := calls s |}.

Definition set_current_user (u : option string) (s : session) : session :=
  {| api_key := api_key s; working_model := working_model s;
     last_request_time := last_request_time s;
     request_count := request_count s; user_data := user_data s;
     current_user := u; current_quiz := current_quiz s;
     quiz_answers := quiz_answers s; quiz_score := quiz_score s;
     quiz_topic := quiz_topic s; ui := ui s; calls := calls s |}.

(** What the handlers below write to the page. *)
Inductive widget : Type :=
| LoginSuccessful            (* st.success: Login successful! *)
| IncorrectPassword          (* st.error: Incorrect password *)
| UserNotFound               (* st.error: User not found *)
| AccountCreated             (* st.success: Account created! Please login. *)
| PasswordsDontMatch         (* st.error: Passwords don't match *)
| UsernameExists             (* st.error: Username already exists *)
| FillAllFields              (* st.error: Please fill all fields *)
| ApiKeySaved                (* st.success: API Key saved! *)
| CourseGenerated            (* the success-msg banner *)
| CourseTitle (title : json)
| CourseDescription (description : json)
| ModulesHeader
| ModuleExpander (idx : nat) (module_name : json)
| ModuleDuration (duration : json)
| TopicsLabel
| TopicItem (topic : json)
| OutcomesHeader
| OutcomeItem (outcome : json)
| ProfileCourse (title : json)
| ProfileLevel (level : json)
| ProfileCreated (created_date : json)
| ProfileModules (count : Z)
| NoCoursesYet.              (* st.info: No courses yet. ... *)

Record application : Type := {
  users : gmap string string;        (* username to password hash *)
  logged_in : bool;
  session_state : session;
  written : list widget                 (* newest last *)
}.

(** The application as the script's preamble leaves it. *)
Definition initial_application : application := {|
  users := ∅;
  logged_in := false;
  session_state := initial_session;
  written := []
|}.

Definition set_users (u : gmap string string) (a : application) : application :=
  {| users := u; logged_in := logged_in a; session_state := session_state a;
     written := written a |}.

Definition set_logged_in (b : bool) (a : application) : application :=
  {| users := users a; logged_in := b; session_state := session_state a;
     written := written a |}.

Definition set_state (s : session) (a : application) : application :=
  {| users := users a; logged_in := logged_in a; session_state := s;
     written := written a |}.

Definition set_page (p : list widget) (a : application) : application :=
  {| users := users a; logged_in := logged_in a; session_state := session_state a; written := p |}.

(** Handlers: application passing with exceptions. *)
Definition Handler (A : Type) : Type := application -> (exn + A) * application.

Definition hret {A} (x : A) : Handler A := fun a => (inr x, a).

Definition hbind {A B} (c : Handler A) (k : A -> Handler B) : Handler B :=
  fun a =>
    match c a with
    | (inr x, a') => k x a'
    | (inl e, a') => (inl e, a')
    end.

Definition hget : Handler application := fun a => (inr a, a).
Definition hmodify (f : application -> application) : Handler unit := fun a => (inr tt, f a).
Definition hlift {A} (r : exn + A) : Handler A := fun a => (r, a).

(** Run a session computation inside the application. *)
Definition in_session {A} (c : M A) : Handler A :=
  fun a =>
    match c (session_state a) with
    | (r, s') => (r, set_state s' a)
    end.

Definition write (w : widget) : Handler unit :=
  hmodify (fun a => set_page (written a ++ [w]) a).

Declare Scope page_scope.
Delimit Scope page_scope with page.
Notation "x <~ c ;; k" := (hbind c (fun x => k))
  (at level 100, c at next level, right associativity) : page_scope.
Notation "c ;;> k" := (hbind c (fun _ => k))
  (at level 100, right associativity) : page_scope.

(** ** Dashboard and quiz page, on the session *)

(** The list comprehension of line 471:
    [[c['user_topic'] for c in user_stats['courses']]]. *)
Fixpoint user_topics (courses : list json) : exn + list json :=
  match courses with
  | [] => inr []
  | c :: r =>
      match getitem c "user_topic" with
      | inl e => inl e
      | inr t =>
          match user_topics r with
          | inl e => inl e
          | inr ts => inr (t :: ts)
          end
      end
  end.

(** Lines 504-505: append the course to the current user's list and
    count it. *)
Definition record_course (course : json) : M unit :=
  s <- get ;;
  match current_user s with
  | None => raise (KeyError "None")
  | Some user =>
      match user_data s !! user with
      | None => raise (KeyError user)
      | Some u =>
          modify (set_user_data
                    (<[user := {| courses := courses u ++ [course];
                                  quiz_history := quiz_history u;
                                  learning_preferences := learning_preferences u;
                                  total_score := total_score u;
                                  courses_completed := courses_completed u + 1;
                                  quizzes_taken := quizzes_taken u;
                                  learning_streak := learning_streak u |}]>
                       (user_data s)))
      end
  end.

(** The New Quiz button (lines 611-615). *)
Definition new_quiz_click : M unit :=
  modify (fun s =>
    set_quiz_score None (set_quiz_answers ∅ (set_current_quiz None s))).

(** The two buttons under the questions. *)
Inductive quiz_button : Type :=
| SubmitQuiz
| NewQuiz.

(** One run of the quiz page while a quiz is stored (lines 568-615): the
    question loop first, then the button clicked, if any.  An exception
    in the loop ends the run before the buttons are drawn. *)
Definition quiz_view (selected : nat -> string) (stamp : string)
    (clicked : option quiz_button) : M unit :=
  render_questions selected ;;;
  match clicked with
  | Some SubmitQuiz => submit_quiz stamp
  | Some NewQuiz => new_quiz_click
  | None => ret tt
  end.

Section Pages.

Variable E : environment.

(** [hashlib.sha256(password.encode()).hexdigest()] as a function of the
    password. *)
Variable sha256_hexdigest : string -> string.

Definition hash_password (password : string) : string :=
  sha256_hexdigest password.

(** The Login button (lines 361-372). *)
Definition login_click (username password : string) : Handler unit :=
  (a <~ hget ;;
   match users a !! username with
   | Some stored =>
       if String.eqb stored (hash_password password) then
         hmodify (set_logged_in true) ;;>
         in_session (modify (set_current_user (Some username))) ;;>
         in_session (initialize_user_data username) ;;>
         write LoginSuccessful
       else write IncorrectPassword
   | None => write UserNotFound
   end)%page.

(** The Sign Up button (lines 381-392). *)
Definition sign_up_click (new_username new_password confirm_password email : string)
  : Handler unit :=
  (a <~ hget ;;
   if Py.truthy new_username && Py.truthy new_password && Py.truthy email then
     match users a !! new_username with
     | None =>
         if String.eqb new_password confirm_password then
           hmodify (set_users (<[new_username := hash_password new_password]> (users a))) ;;>
           write AccountCreated
         else write PasswordsDontMatch
     | Some _ => write UsernameExists
     end
   else write FillAllFields)%page.

(** The Logout button (lines 718-721). *)
Definition logout_click : Handler unit :=
  (hmodify (set_logged_in false) ;;>
   in_session (modify (set_current_user None)))%page.

(** Save API Key on the dashboard (lines 414-418). *)
Definition save_api_key_click (api_key_input : string) : Handler unit :=
  (in_session (modify (set_api_key (Some api_key_input))) ;;>
   in_session (modify (set_working_model None)) ;;>
   write ApiKeySaved)%page.

(** The Generate Quiz button (lines 551-558). *)
Definition generate_quiz_click (now : Q) (quiz_topic_input difficulty : string)
    (num_questions : Z) : M unit :=
  quiz <- generate_quiz E now quiz_topic_input difficulty num_questions ;;
  match quiz with
  | Some q =>
      if truthy_json q then
        modify (set_current_quiz (Some q)) ;;;
        modify (set_quiz_answers ∅) ;;;
        modify (set_quiz_topic quiz_topic_input)
      else ret tt
  | None => ret tt
  end.

(** [for topic in module['topics']: st.write(...)] *)
Fixpoint show_topics (topics : list json) : Handler unit :=
  match topics with
  | [] => hret tt
  | t :: r => (write (TopicItem t) ;;> show_topics r)%page
  end.

(** The module loop of lines 513-518; [idx] counts from 1. *)
Fixpoint show_modules (idx : nat) (modules : list json) : Handler unit :=
  match modules with
  | [] => hret tt
  | module :: r =>
      (module_name <~ hlift (getitem module "name") ;;
       write (ModuleExpander idx module_name) ;;>
       duration <~ hlift (getitem module "duration") ;;
       write (ModuleDuration duration) ;;>
       write TopicsLabel ;;>
       topics <~ hlift (getitem module "topics") ;;
       items <~ hlift (iter topics) ;;
       show_topics items ;;>
       show_modules (S idx) r)%page
  end.

Fixpoint show_outcomes (outcomes : list json) : Handler unit :=
  match outcomes with
  | [] => hret tt
  | o :: r => (write (OutcomeItem o) ;;> show_outcomes r)%page
  end.

(** Lines 507-522: the generated course on the page. *)
Definition show_course (course : json) : Handler unit :=
  (write CourseGenerated ;;>
   title <~ hlift (getitem course "title") ;;
   write (CourseTitle title) ;;>
   description <~ hlift (getitem course "description") ;;
   write (CourseDescription description) ;;>
   write ModulesHeader ;;>
   modules <~ hlift (getitem course "modules") ;;
   items <~ hlift (iter modules) ;;
   show_modules 1 items ;;>
   write OutcomesHeader ;;>
   outcomes <~ hlift (getitem course "learning_outcomes") ;;
   items <~ hlift (iter outcomes) ;;
   show_outcomes items)%page.

(** The Generate Course button (lines 499-522). *)
Definition course_generator_click (now : Q) (today topic level duration : string)
  : Handler unit :=
  (course <~ in_session (generate_course E now today topic level duration) ;;
   match course with
   | Some c =>
       if truthy_json c then
         in_session (record_course c) ;;> show_course c
       else hret tt
   | None => hret tt
   end)%page.

(** The course list of the profile page (lines 692-699). *)
Fixpoint show_profile_courses (courses : list json) : Handler unit :=
  match courses with
  | [] => hret tt
  | course :: r =>
      (title <~ hlift (getitem course "title") ;;
       write (ProfileCourse title) ;;>
       level <~ hlift (getitem course "level") ;;
       write (ProfileLevel level) ;;>
       created <~ hlift (getitem course "created_date") ;;
       write (ProfileCreated created) ;;>
       modules <~ hlift (getitem course "modules") ;;
       n <~ hlift (len modules) ;;
       write (ProfileModules n) ;;>
       show_profile_courses r)%page
  end.

Definition profile_courses : Handler unit :=
  (a <~ hget ;;
   match current_user (session_state a) with
   | None => hlift (inl (KeyError "None"))
   | Some user =>
       match user_data (session_state a) !! user with
       | None => hlift (inl (KeyError user))
       | Some u =>
           match courses u with
           | [] => write NoCoursesYet
           | cs => show_profile_courses cs
           end
       end
   end)%page.

End Pages.

(** What the user entered for one click on Generate Course, with the
    clock and the date of that run. *)
Record course_request : Type := {
  asked_at : Q;
  asked_on : string;
  asked_topic : string;
  asked_level : string;
  asked_duration : string
}.

Definition click_course (E : environment) (r : course_request) : Handler unit :=
  course_generator_click E (asked_at r) (asked_on r) (asked_topic r)
    (asked_level r) (asked_duration r).

(** The application after one run of the script per request.  A run that
    ends in an exception leaves the session as mutated so far, and the
    next run starts from there. *)
Fixpoint course_clicks (E : environment) (reqs : list course_request)
    (a : application) : application :=
  match reqs with
  | [] => a
  | r :: rest => course_clicks E rest (snd (click_course E r a))
  end.

(** The topics of the requests for which [generate_course] returned a
    course, in the order of the clicks. *)
Fixpoint generated_topics (E : environment) (reqs : list course_request)
    (a : application) : list json :=
  match reqs with
  | [] => []
  | r :: rest =>
      match fst (generate_course E (asked_at r) (asked_on r) (asked_topic r)
                   (asked_level r) (asked_duration r) (session_state a)) with
      | inr (Some _) => [JStr (asked_topic r)]
      | _ => []
      end ++ generated_topics E rest (snd (click_course E r a))
  end.

(** A step of a visitor on the login page or the sidebar. *)
Inductive auth_action : Type :=
| Login (username password : string)
| SignUp (new_username new_password confirm_password email : string)
| Logout.

Definition auth_step (sha256_hexdigest : string -> string) (act : auth_action)
  : Handler unit :=
  match act with
  | Login u p => login_click sha256_hexdigest u p
  | SignUp u p c e => sign_up_click sha256_hexdigest u p c e
  | Logout => logout_click
  end.

Fixpoint auth_run (sha256_hexdigest : string -> string) (acts : list auth_action)
  : Handler unit :=
  match acts with
  | [] => hret tt
  | act :: r =>
      (auth_step sha256_hexdigest act ;;> auth_run sha256_hexdigest r)%page
  end.

(** The part of a session that belongs to the browser session and not
    to an account: the key, the resolved model, the limiter and the quiz
    being taken. *)
Definition shared_of (s : session)
  : option string * option string * Q * Z * option json * gmap nat string
    * option Q * string :=
  (api_key s, working_model s, last_request_time s, request_count s,
   current_quiz s, quiz_answers s, quiz_score s, quiz_topic s).

(** [x] occurs in [s] as a contiguous piece. *)
Definition piece_of (x s : string) : Prop := exists a b, s = a +:+ x +:+ b.

(** The part of a session that holds the users' progress and the quiz
    being taken. *)
Definition progress_of (s : session)
  : gmap string user_stats * option string * option json
    * gmap nat string * option Q * string :=
  (user_data s, current_user s, current_quiz s, quiz_answers s, quiz_score s,
   quiz_topic s).

(** [a'] differs from [a] only by what was written to the page since. *)
Definition only_writes (a a' : application) : Prop :=
  users a' = users a /\ logged_in a' = logged_in a
  /\ session_state a' = session_state a
  /\ exists w, written a' = written a ++ w.

(** A handler that only writes to the page, however it ends. *)
Definition writer {A} (c : Handler A) : Prop :=
  forall a r a', c a = (r, a') -> only_writes a a'.

(** The backend answered [prompt] with a text that decodes to the
    object with entries [d]. *)
Definition parse_ok (E : environment) (prompt : string) (d : list (string * json))
  : Prop :=
  exists m raw,
    genai_generate_content E m prompt = inr raw
    /\ parse_response E raw = inr (JDict d).

(** The option picked for question [idx] starts with exactly the
    question's [correct] value. *)
Definition picked_right (selected : nat -> string) (idx : nat) (q : json) : bool :=
  match selected idx, getitem q "correct" with
  | String ch _, inr (JStr t) => String.eqb (String ch "") t
  | _, _ => false
  end.

(** The session once a quiz with [correct] right answers out of [n] was
    scored [sc] for user [u], whose record was [st], before the feedback
    is written. *)
Definition scored (stamp : string) (sc : Q) (correct n : Z) (u : string)
    (st : user_stats) (s : session) : session :=
  let s1 := set_quiz_score (Some sc) s in
  let s2 :=
    set_user_data
      (<[u := add_attempt {| topic := quiz_topic s; score := sc; date := stamp |} st]>
         (user_data s)) s1 in
  set_ui (ui s ++ [Balloons; SuccessScore (Py.round1 (score_float correct n)) correct n]) s2.

(** Whoever is logged in has a progress record. *)
Definition logged_in_ok (a : application) : Prop :=
  logged_in a = true ->
  exists u, current_user (session_state a) = Some u /\ is_Some (user_data (session_state a) !! u).

(** Every stored course of every user carries its three metadata
    entries, and the course counter equals the number of courses. *)
Definition courses_ok (u : user_stats) : Prop :=
  courses_completed u = Z.of_nat (length (courses u))
  /\ Forall (fun c => has_key "created_date" c = true
                      /\ has_key "user_topic" c = true
                      /\ has_key "level" c = true) (courses u).

(** * Properties *)

(** ** Comparisons and the computation monad *)

Lemma gt_true (x y : Q) : Py.gt x y = true <-> (y < x)%Q.
Proof.
  unfold Py.gt. rewrite negb_true_iff, <- not_true_iff_false, Qle_bool_iff.
  split; [apply Qnot_le_lt | apply Qlt_not_le].
Qed.

Lemma gt_false (x y : Q) : Py.gt x y = false <-> (x <= y)%Q.
Proof.
  unfold Py.gt. rewrite negb_false_iff. apply Qle_bool_iff.
Qed.

Lemma never_raises_ret {A} (a : A) : never_raises (ret a).
Proof. intros s. by exists a, s. Qed.

Lemma never_raises_get : never_raises get.
Proof. intros s. by exists s, s. Qed.

Lemma never_raises_modify (f : session -> session) : never_raises (modify f).
Proof. intros s. by exists tt, (f s). Qed.

Lemma never_raises_show (e : ui_event) : never_raises (show e).
Proof. apply never_raises_modify. Qed.

Lemma never_raises_bind {A B} (c : M A) (k : A -> M B) :
  never_raises c -> (forall a, never_raises (k a)) -> never_raises (bind c k).
Proof.
  intros Hc Hk s. destruct (Hc s) as (a & s1 & Ha).
  destruct (Hk a s1) as (b & s2 & Hb).
  exists b, s2. unfold bind. by rewrite Ha.
Qed.

Lemma never_raises_try_except {A} (c : M A) (h : exn -> M A) :
  (forall e, never_raises (h e)) -> never_raises (try_except c h).
Proof.
  intros Hh s. unfold try_except.
  destruct (c s) as [[e | a] s1]; [apply Hh | by exists a, s1].
Qed.

(** ** The rate limiter *)

Lemma rate_limit_check_eq (now : Q) (s : session) :
  rate_limit_check now s =
  let s1 := after_reset_test now s in
  let wait_time := (60 - (now - last_request_time s1))%Q in
  if (10 <=? request_count s1) && Py.gt wait_time 0
  then (inr false, set_ui (ui s1 ++ [WarnRateLimit (Py.int wait_time)]) s1)
  else (inr true, set_request_count (request_count s1 + 1) s1).
Proof.
  unfold rate_limit_check, after_reset_test, bind, get, modify, show, ret.
  destruct (Py.gt (now - last_request_time s) 60); cbv beta iota zeta;
    match goal with |- context [10 <=? ?c] => destruct (10 <=? c) end;
    cbv beta iota zeta; rewrite ?andb_true_l, ?andb_false_l; try reflexivity;
    match goal with |- context [Py.gt ?w 0] => destruct (Py.gt w 0) end;
    reflexivity.
Qed.

Lemma rate_limit_check_never_raises (now : Q) : never_raises (rate_limit_check now).
Proof.
  intros s. rewrite rate_limit_check_eq. cbv zeta.
  match goal with |- context [if ?b then _ else _] => destruct b end; eauto.
Qed.

(** More than 60 seconds after the window start: reset, then count this
    request. *)
Lemma rate_limit_check_reset (now : Q) (s : session) :
  (60 < now - last_request_time s)%Q ->
  rate_limit_check now s =
  (inr true, set_request_count 1 (set_last_request_time now (set_request_count 0 s))).
Proof.
  intros H. rewrite rate_limit_check_eq. unfold after_reset_test.
  apply gt_true in H. rewrite H. reflexivity.
Qed.

(** No reset and fewer than 10 requests counted: count this one. *)
Lemma rate_limit_check_count (now : Q) (s : session) :
  (now - last_request_time s <= 60)%Q -> request_count s < 10 ->
  rate_limit_check now s = (inr true, set_request_count (request_count s + 1) s).
Proof.
  intros H Hc. rewrite rate_limit_check_eq. unfold after_reset_test.
  apply gt_false in H. rewrite H. cbv zeta.
  replace (10 <=? request_count s) with false by (symmetry; apply Z.leb_gt; lia).
  reflexivity.
Qed.

(** Less than 60 seconds after the window start with 10 or more requests
    counted: deny and show the wait. *)
Lemma rate_limit_check_deny (now : Q) (s : session) :
  (now - last_request_time s < 60)%Q -> 10 <= request_count s ->
  rate_limit_check now s =
  (inr false,
   set_ui (ui s ++ [WarnRateLimit (Py.int (60 - (now - last_request_time s)))]) s).
Proof.
  intros H Hc. rewrite rate_limit_check_eq. unfold after_reset_test.
  replace (Py.gt (now - last_request_time s) 60) with false
    by (symmetry; apply gt_false; lra).
  cbv zeta.
  replace (10 <=? request_count s) with true by (symmetry; apply Z.leb_le; lia).
  replace (Py.gt (60 - (now - last_request_time s)) 0) with true
    by (symmetry; apply gt_true; lra).
  reflexivity.
Qed.

(** Exactly 60 seconds after the window start neither test fires: the
    request is counted whatever the counter holds. *)
Lemma rate_limit_check_boundary (now : Q) (s : session) :
  (now - last_request_time s == 60)%Q ->
  rate_limit_check now s = (inr true, set_request_count (request_count s + 1) s).
Proof.
  intros H. rewrite rate_limit_check_eq. unfold after_reset_test.
  replace (Py.gt (now - last_request_time s) 60) with false
    by (symmetry; apply gt_false; lra).
  cbv zeta.
  replace (Py.gt (60 - (now - last_request_time s)) 0) with false
    by (symmetry; apply gt_false; lra).
  by rewrite andb_false_r.
Qed.

(** The window is reset exactly when more than 60 seconds have passed. *)
Lemma reset_iff (now : Q) (s : session) :
  after_reset_test now s = set_last_request_time now (set_request_count 0 s)
  <-> (60 < now - last_request_time s)%Q
      \/ s = set_last_request_time now (set_request_count 0 s).
Proof.
  unfold after_reset_test.
  destruct (Py.gt (now - last_request_time s) 60) eqn:Hgt.
  - apply gt_true in Hgt. tauto.
  - apply gt_false in Hgt. split; [tauto |].
    intros [H | H]; [lra | exact H].
Qed.

(** Away from the 60-second boundary the counter stays within the quota. *)
Lemma quota_kept_off_boundary (now : Q) (s : session) :
  request_count s <= 10 ->
  ~ (now - last_request_time s == 60)%Q ->
  request_count (snd (rate_limit_check now s)) <= 10.
Proof.
  intros Hc Hne.
  destruct (Qlt_le_dec 60 (now - last_request_time s)) as [Hgt | Hle].
  - rewrite rate_limit_check_reset by exact Hgt. simpl. lia.
  - assert (now - last_request_time s < 60)%Q as Hlt.
    { apply Qle_lteq in Hle. tauto. }
    destruct (Z_lt_le_dec (request_count s) 10) as [Hsmall | Hfull].
    + rewrite rate_limit_check_count by assumption. simpl. lia.
    + rewrite rate_limit_check_deny by assumption. simpl. lia.
Qed.

(** Permit checks inside the window, while the quota lasts, all succeed
    and are all counted. *)
Lemma permits_within_window (times : list Q) : forall s : session,
  Forall (fun now => (now - last_request_time s <= 60)%Q) times ->
  request_count s + Z.of_nat (length times) <= 10 ->
  permits times s =
  (inr (repeat true (length times)),
   set_request_count (request_count s + Z.of_nat (length times)) s).
Proof.
  induction times as [| now times IH]; intros s Hwin Hquota.
  - simpl. rewrite Z.add_0_r. by destruct s.
  - inversion Hwin as [| ? ? Hnow Hrest]; subst.
    cbn [permits length repeat] in *. unfold bind at 1.
    rewrite rate_limit_check_count by (try assumption; lia).
    unfold bind at 1. rewrite IH; [| exact Hrest | simpl; lia].
    unfold ret, set_request_count. simpl.
    replace (request_count s + 1 + Z.of_nat (length times))
      with (request_count s + Z.of_nat (S (length times))) by lia.
    reflexivity.
Qed.

Lemma permits_app (a b : list Q) : forall s : session,
  permits (a ++ b) s =
  match permits a s with
  | (inr ra, s1) =>
      match permits b s1 with
      | (inr rb, s2) => (inr (ra ++ rb), s2)
      | (inl e, s2) => (inl e, s2)
      end
  | (inl e, s1) => (inl e, s1)
  end.
Proof.
  induction a as [| now a IH]; intros s.
  - simpl. unfold ret. by destruct (permits b s) as [[e | rb] s2].
  - cbn [app permits]. unfold bind, ret.
    destruct (rate_limit_check now s) as [[e | r] s1]; [done |].
    rewrite IH.
    destruct (permits a s1) as [[e | ra] s2]; [done |].
    destruct (permits b s2) as [[e | rb] s3]; done.
Qed.

(** [int] of a float that is not negative is its floor. *)
Lemma int_floor (x : Q) :
  (0 <= x)%Q -> (inject_Z (Py.int x) <= x /\ x < inject_Z (Py.int x) + 1)%Q.
Proof.
  intros H0. unfold Py.int.
  assert (0 <= Qnum x) as Hnum.
  { unfold Qle in H0. simpl in H0. lia. }
  rewrite Z.quot_div_nonneg by lia.
  assert (Qnum x / Z.pos (Qden x) = Qfloor x) as -> by (by destruct x).
  pose proof (Qfloor_le x). pose proof (Qlt_floor x) as Hlt.
  rewrite inject_Z_plus in Hlt. by split.
Qed.

(** The first check of a fresh window is granted and leaves one request
    counted in the window. *)
Lemma rate_limit_check_first (s : session) (t1 w : Q) :
  fresh_window s t1 w ->
  exists s1,
    rate_limit_check t1 s = (inr true, s1)
    /\ request_count s1 = 1 /\ last_request_time s1 = w /\ ui s1 = ui s.
Proof.
  intros [[Hold ->] | (Hzero & Hin & ->)].
  - rewrite rate_limit_check_reset by exact Hold. by eexists.
  - rewrite rate_limit_check_count by (first [exact Hin | lia]).
    eexists. split; [reflexivity |]. simpl. by rewrite Hzero.
Qed.

(** The limiter over one window [w .. w + 60] and past it.  The first
    check opens the window and nine more inside it are granted.  An
    eleventh check less than 60 seconds after the window start is denied
    and the wait shown is [60 - elapsed] in whole seconds; made at exactly
    60 seconds it is granted without a warning.  Either way a check more
    than 60 seconds after the window start is then granted, restarts the
    window there and leaves the counter at 1. *)
Lemma rate_limiter_scenario (s : session) (t1 w : Q) (rest : list Q) (t11 t12 : Q) :
  fresh_window s t1 w ->
  length rest = 9%nat ->
  Forall (fun now => (now - w <= 60)%Q) rest ->
  (t11 - w <= 60)%Q ->
  (60 < t12 - w)%Q ->
  exists eleventh s',
    permits (t1 :: rest ++ [t11; t12]) s
    = (inr (repeat true 10 ++ [eleventh; true]), s')
    /\ request_count s' = 1
    /\ last_request_time s' = t12
    /\ ((t11 - w < 60)%Q ->
        eleventh = false
        /\ exists wait,
             ui s' = ui s ++ [WarnRateLimit wait]
             /\ (inject_Z wait <= 60 - (t11 - w) < inject_Z wait + 1)%Q)
    /\ ((t11 - w == 60)%Q -> eleventh = true /\ ui s' = ui s).
Proof.
  intros Hfresh Hlen Hwin H11 H12.
  destruct (rate_limit_check_first s t1 w Hfresh) as (s1 & Hrun1 & Hc1 & Hw1 & Hui1).
  cbn [permits]. unfold bind at 1. rewrite Hrun1. unfold bind at 1.
  rewrite permits_app.
  rewrite permits_within_window by (rewrite ?Hw1, ?Hc1, ?Hlen; first [assumption | lia]).
  rewrite Hc1, Hlen. cbn [permits]. unfold bind, ret.
  destruct (Qlt_le_dec (t11 - w) 60) as [Hlt | Hge].
  - rewrite rate_limit_check_deny by (simpl; rewrite ?Hw1; first [assumption | lia]).
    rewrite rate_limit_check_reset by (simpl; rewrite ?Hw1; assumption).
    exists false. eexists. split; [reflexivity |]. simpl.
    split; [done |]. split; [done |]. split.
    + intros _. split; [done |]. eexists. rewrite Hui1, Hw1. split; [reflexivity |].
      apply int_floor. lra.
    + intros Heq. lra.
  - assert (t11 - w == 60)%Q as Heq by lra.
    rewrite rate_limit_check_boundary by (simpl; by rewrite Hw1).
    rewrite rate_limit_check_reset by (simpl; rewrite ?Hw1; assumption).
    exists true. eexists. split; [reflexivity |]. simpl.
    split; [done |]. split; [done |]. split; [intros ?; lra | done].
Qed.

(** The scenario run from the state the script's preamble sets up: the
    first check, at second 100, opens the window. *)
Example rate_limiter_from_preamble :
  exists eleventh s',
    permits ((100 # 1)%Q :: repeat (130 # 1)%Q 9 ++ [(459 # 4)%Q; (161 # 1)%Q])
      initial_session
    = (inr (repeat true 10 ++ [eleventh; true]), s')
    /\ request_count s' = 1
    /\ last_request_time s' = (161 # 1)%Q
    /\ (((459 # 4) - (100 # 1) < 60)%Q ->
        eleventh = false
        /\ exists wait,
             ui s' = ui initial_session ++ [WarnRateLimit wait]
             /\ (inject_Z wait <= 60 - ((459 # 4) - (100 # 1)) < inject_Z wait + 1)%Q)
    /\ (((459 # 4) - (100 # 1) == 60)%Q -> eleventh = true /\ ui s' = ui initial_session).
Proof.
  apply (rate_limiter_scenario initial_session (100 # 1) (100 # 1)
           (repeat (130 # 1)%Q 9)).
  - left. split; reflexivity.
  - reflexivity.
  - repeat constructor; vm_compute; discriminate.
  - vm_compute. discriminate.
  - reflexivity.
Qed.

(** C2.  From the state the preamble sets up, ten checks at second 100
    are all granted.  An eleventh at second 159, inside the window, is
    denied and the wait shown is 1 second, and a check at second 221 is
    then granted with the counter back at 1.  But an eleventh at second
    160, exactly 60 seconds after the window start and so still inside
    the window (no reset happens there), is granted too and no wait is
    shown: eleven checks of one window have passed. *)
Theorem eleventh_granted_at_boundary :
  let at_59 := permits (repeat (100 # 1)%Q 10 ++ [(159 # 1)%Q; (221 # 1)%Q]) initial_session in
  let at_60 := permits (repeat (100 # 1)%Q 10 ++ [(160 # 1)%Q; (221 # 1)%Q]) initial_session in
  fst at_59 = inr (repeat true 10 ++ [false; true])
  /\ ui (snd at_59) = [WarnRateLimit 1]
  /\ request_count (snd at_59) = 1
  /\ last_request_time (snd at_59) = (221 # 1)%Q
  /\ fst at_60 = inr (repeat true 10 ++ [true; true])
  /\ ui (snd at_60) = []
  /\ request_count (snd at_60) = 1
  /\ last_request_time (snd at_60) = (221 # 1)%Q
  /\ Py.gt ((160 # 1) - (100 # 1)) 60 = false.
Proof. vm_compute. repeat split; reflexivity. Qed.

(** C3.  Ten requests at second 100 fill the window opened there; a
    check at second 160, exactly 60 seconds after the window start, is
    neither a reset (160 - 100 > 60 is false) nor a denial (the wait is 0):
    it is granted and the counter reaches 11. *)
Theorem quota_exceeded_at_boundary :
  let run := permits (repeat (100 # 1)%Q 10 ++ [(160 # 1)%Q]) initial_session in
  fst run = inr (repeat true 11)
  /\ request_count (snd run) = 11
  /\ last_request_time (snd run) = (100 # 1)%Q
  /\ Py.gt ((160 # 1) - (100 # 1)) 60 = false.
Proof. vm_compute. repeat split; reflexivity. Qed.

(** ** Configuration and model resolution *)

(** Chains of steps that cannot raise. *)
Ltac no_raise :=
  repeat first
    [ apply never_raises_ret | apply never_raises_get
    | apply never_raises_modify | apply never_raises_show
    | apply never_raises_bind; [| intros ?]
    | apply never_raises_try_except; intros ? ].

Section Resolution.

Variable E : environment.

Lemma configure_gemini_eq (s : session) :
  configure_gemini E s =
  match api_key s with
  | Some k =>
      if Py.truthy k then
        let s1 := set_calls (calls s ++ [CallConfigure k]) s in
        match genai_configure E k with
        | None => (inr true, s1)
        | Some e => (inr false, set_ui (ui s1 ++ [ErrApiConfiguration (str_exn e)]) s1)
        end
      else (inr false, s)
  | None => (inr false, s)
  end.
Proof.
  unfold configure_gemini, configure, try_except, bind, get, log_call, modify,
    show, raise, ret.
  destruct (api_key s) as [k |]; [| done].
  destruct (Py.truthy k); [| done].
  destruct (genai_configure E k); done.
Qed.

Lemma configure_gemini_never_raises : never_raises (configure_gemini E).
Proof.
  intros s. rewrite configure_gemini_eq.
  destruct (api_key s) as [k |]; [| eauto].
  destruct (Py.truthy k); [| eauto].
  cbv zeta. destruct (genai_configure E k); eauto.
Qed.

(** [configure_gemini] touches neither the rate window nor the memoized
    model, and reaches no backend. *)
Lemma configure_gemini_frame (s s' : session) (b : bool) :
  configure_gemini E s = (inr b, s') ->
  request_count s' = request_count s
  /\ last_request_time s' = last_request_time s
  /\ working_model s' = working_model s
  /\ api_key s' = api_key s
  /\ no_outbound_since s s'.
Proof.
  rewrite configure_gemini_eq. unfold no_outbound_since.
  destruct (api_key s) as [k |] eqn:Hk.
  - destruct (Py.truthy k).
    + cbv zeta. destruct (genai_configure E k); intros [= <- <-]; simpl;
        repeat split; try done; by exists [CallConfigure k].
    + intros [= <- <-]. repeat split; try done. exists []. by rewrite app_nil_r.
  - intros [= <- <-]. repeat split; try done. exists []. by rewrite app_nil_r.
Qed.

Lemma test_api_key_and_list_models_eq (s : session) :
  test_api_key_and_list_models E s =
  match api_key s with
  | Some k =>
      if Py.truthy k then
        let s1 := set_calls (calls s ++ [CallConfigure k]) s in
        match genai_configure E k with
        | Some e => (inr (None, Some (str_exn e)), s1)
        | None =>
            let s2 := set_calls (calls s1 ++ [CallListModels]) s1 in
            match genai_list_models E with
            | inl e => (inr (None, Some (str_exn e)), s2)
            | inr ms => (inr (Some (collect_models ms []), None), s2)
            end
        end
      else (inr (None, Some "No API key provided"), s)
  | None => (inr (None, Some "No API key provided"), s)
  end.
Proof.
  unfold test_api_key_and_list_models, configure, list_models, try_except,
    bind, get, log_call, modify, lift, raise, ret.
  destruct (api_key s) as [k |]; [| done].
  destruct (Py.truthy k); [| done].
  destruct (genai_configure E k); [done |].
  cbv beta iota zeta. destruct (genai_list_models E); done.
Qed.

Lemma test_api_key_and_list_models_never_raises :
  never_raises (test_api_key_and_list_models E).
Proof.
  intros s. rewrite test_api_key_and_list_models_eq.
  destruct (api_key s) as [k |]; [| eauto].
  destruct (Py.truthy k); [| eauto].
  cbv zeta. destruct (genai_configure E k); [eauto |].
  destruct (genai_list_models E); eauto.
Qed.

Lemma get_working_model_never_raises : never_raises (get_working_model E).
Proof.
  unfold get_working_model.
  apply never_raises_bind; [apply never_raises_get |]. intros s.
  destruct (truthy_opt (working_model s)); [apply never_raises_ret |].
  apply never_raises_bind; [apply test_api_key_and_list_models_never_raises |].
  intros [available err]. cbn [fst].
  destruct available as [[| m0 l] |]; cbv beta iota.
  - apply never_raises_ret.
  - destruct (first_preferred preferred (m0 :: l)); no_raise.
  - apply never_raises_ret.
Qed.

(** The preference loop returns the first preference present in the
    catalog. *)
Lemma first_preferred_Some (prefs catalog : list string) (p : string) :
  first_preferred prefs catalog = Some p <->
  exists i, prefs !! i = Some p /\ p ∈ catalog
            /\ forall j q, (j < i)%nat -> prefs !! j = Some q -> q ∉ catalog.
Proof.
  induction prefs as [| p0 prefs IH]; simpl.
  - split; [done |]. intros (i & Hi & _). by rewrite lookup_nil in Hi.
  - case_bool_decide as Hin.
    + split.
      * intros [= <-]. exists O. repeat split; [done | intros; lia].
      * intros ([| i] & Hi & Hp & Hfirst).
        { simpl in Hi. congruence. }
        exfalso. apply (Hfirst O p0); [lia | done | done].
    + rewrite IH. split.
      * intros (i & Hi & Hp & Hfirst). exists (S i). repeat split; [done.. |].
        intros [| j] q Hj Hq; simpl in Hq.
        { by injection Hq as <-. }
        apply (Hfirst j); [lia | done].
      * intros ([| i] & Hi & Hp & Hfirst); simpl in Hi.
        { injection Hi as <-. done. }
        exists i. repeat split; [done.. |].
        intros j q Hj Hq. apply (Hfirst (S j)); [lia | done].
Qed.

Lemma first_preferred_None (prefs catalog : list string) :
  first_preferred prefs catalog = None <-> forall p, p ∈ prefs -> p ∉ catalog.
Proof.
  induction prefs as [| p0 prefs IH]; simpl.
  - split; [| done]. intros _ p Hp. by apply elem_of_nil in Hp.
  - case_bool_decide as Hin.
    + split; [done |]. intros H. exfalso. apply (H p0); [left | done].
    + rewrite IH. split.
      * intros H p Hp. apply elem_of_cons in Hp as [-> | Hp]; auto.
      * intros H p Hp. apply H. by right.
Qed.

End Resolution.

Lemma first_preferred_order_irrelevant (prefs catalog catalog' : list string) :
  catalog ≡ₚ catalog' ->
  first_preferred prefs catalog = first_preferred prefs catalog'.
Proof.
  intros Hperm. induction prefs as [| p prefs IH]; simpl; [done |].
  rewrite IH, (bool_decide_ext (p ∈ catalog) (p ∈ catalog')); [done |].
  by rewrite Hperm.
Qed.

Lemma get_working_model_fresh (E : environment) (s s1 : session)
    (catalog : list string) (err : option string) :
  truthy_opt (working_model s) = false ->
  test_api_key_and_list_models E s = (inr (Some catalog, err), s1) ->
  get_working_model E s =
  match catalog with
  | [] => (inr None, s1)
  | m0 :: _ =>
      let m := default m0 (first_preferred preferred catalog) in
      (inr (Some m), set_working_model (Some m) s1)
  end.
Proof.
  intros Hcold Hlist. unfold get_working_model, bind, get, modify, ret.
  rewrite Hcold, Hlist. cbn [fst].
  destruct catalog as [| m0 l]; [done |].
  by destruct (first_preferred preferred (m0 :: l)).
Qed.

(** C6.  With no model memoized and a listing that yields [catalog],
    [get_working_model] returns the first entry of the preference list
    present in the catalog, wherever it stands in the catalog; the first
    catalog entry when no preference is present; and nothing when the
    catalog is empty.  A model found is memoized. *)
Theorem model_resolution (E : environment) (s s1 : session)
    (catalog : list string) (err : option string) :
  truthy_opt (working_model s) = false ->
  test_api_key_and_list_models E s = (inr (Some catalog, err), s1) ->
  exists r,
    get_working_model E s =
      (inr r, match r with Some m => set_working_model (Some m) s1 | None => s1 end)
    /\ (forall i p, preferred !! i = Some p -> p ∈ catalog ->
          (forall j q, (j < i)%nat -> preferred !! j = Some q -> q ∉ catalog) ->
          r = Some p)
    /\ ((forall p, p ∈ preferred -> p ∉ catalog) -> r = head catalog)
    /\ (catalog = [] -> r = None)
    /\ (forall catalog', catalog' ≡ₚ catalog ->
          (exists p, p ∈ preferred /\ p ∈ catalog) ->
          first_preferred preferred catalog' = r).
Proof.
  intros Hcold Hlist.
  rewrite (get_working_model_fresh E s s1 catalog err Hcold Hlist).
  destruct catalog as [| m0 l].
  - exists None. repeat split; try done.
    + intros i p _ Hp. by apply elem_of_nil in Hp.
    + intros catalog' _ (p & _ & Hp). by apply elem_of_nil in Hp.
  - destruct (first_preferred preferred (m0 :: l)) as [m |] eqn:Hfirst.
    + exists (Some m). repeat split; try done.
      * intros i p Hi Hp Hbefore.
        assert (first_preferred preferred (m0 :: l) = Some p) as Hp'.
        { apply first_preferred_Some. eauto. }
        congruence.
      * intros Hnone. apply first_preferred_Some in Hfirst as (i & Hi & Hm & _).
        exfalso. apply (Hnone m); [| done].
        apply list_elem_of_lookup. eauto.
      * intros catalog' Hperm _. rewrite <- Hfirst.
        by apply first_preferred_order_irrelevant.
    + exists (Some m0). repeat split; try done.
      * intros i p Hi Hp _. exfalso.
        apply (proj1 (first_preferred_None _ _) Hfirst p); [| done].
        apply list_elem_of_lookup. eauto.
      * intros catalog' _ (p & Hpref & Hp). exfalso.
        by apply (proj1 (first_preferred_None _ _) Hfirst p).
Qed.

Lemma model_resolution_witness :
  exists r,
    get_working_model (Demo.env "") Demo.session0 =
      (inr r,
       match r with
       | Some m =>
           set_working_model (Some m)
             (snd (test_api_key_and_list_models (Demo.env "") Demo.session0))
       | None => snd (test_api_key_and_list_models (Demo.env "") Demo.session0)
       end)
    /\ (forall i p, preferred !! i = Some p -> p ∈ ["gemini-pro"; "gemini-1.5-flash"] ->
          (forall j q, (j < i)%nat -> preferred !! j = Some q ->
                       q ∉ ["gemini-pro"; "gemini-1.5-flash"]) ->
          r = Some p)
    /\ ((forall p, p ∈ preferred -> p ∉ ["gemini-pro"; "gemini-1.5-flash"]) ->
        r = head ["gemini-pro"; "gemini-1.5-flash"])
    /\ (["gemini-pro"; "gemini-1.5-flash"] = [] -> r = None)
    /\ (forall catalog', catalog' ≡ₚ ["gemini-pro"; "gemini-1.5-flash"] ->
          (exists p, p ∈ preferred /\ p ∈ ["gemini-pro"; "gemini-1.5-flash"]) ->
          first_preferred preferred catalog' = r).
Proof.
  apply (model_resolution (Demo.env "") Demo.session0 _ _ None).
  - reflexivity.
  - reflexivity.
Defined.

(** In the demo catalog the flash model wins over [gemini-pro], which the
    backend lists first. *)
Example model_resolution_demo :
  fst (get_working_model (Demo.env "") Demo.session0) = inr (Some "gemini-1.5-flash").
Proof. reflexivity. Qed.

(** A catalog with only a model outside the preference list. *)
Example first_preferred_unlisted :
  first_preferred preferred ["text-bison"] = None.
Proof. reflexivity. Qed.

(** ** Strings: strip, prefixes and suffixes *)

Section Strings.

Implicit Types (s a b p : string) (c : ascii).

Lemma app_String c a b : String c a +:+ b = String c (a +:+ b).
Proof. reflexivity. Qed.

Lemma app_Empty b : "" +:+ b = b.
Proof. reflexivity. Qed.

Lemma app_assoc' a b p : (a +:+ b) +:+ p = a +:+ (b +:+ p).
Proof. induction a as [| c a IH]; [done |]. by rewrite !app_String, IH. Qed.

Lemma length_app a b :
  String.length (a +:+ b) = (String.length a + String.length b)%nat.
Proof. induction a as [| c a IH]; [done |]. rewrite app_String. simpl. by rewrite IH. Qed.

Lemma app_not_Empty a b : b <> "" -> a +:+ b <> "".
Proof. destruct a; [done |]. by rewrite app_String. Qed.

Lemma take_drop (n : nat) : forall s, Py.take n s +:+ Py.drop n s = s.
Proof.
  induction n as [| n IH]; intros [| c s]; try done.
  simpl. by rewrite app_String, IH.
Qed.

Lemma drop_app_length a b : Py.drop (String.length a) (a +:+ b) = b.
Proof. induction a as [| c a IH]; [done |]. by rewrite app_String. Qed.

Lemma take_app_length a b : Py.take (String.length a) (a +:+ b) = a.
Proof.
  induction a as [| c a IH]; [by destruct b |].
  rewrite app_String. simpl. by rewrite IH.
Qed.

Lemma endswith_app a p : Py.endswith p (a +:+ p) = true.
Proof.
  unfold Py.endswith. rewrite length_app.
  replace (String.length a + String.length p - String.length p)%nat
    with (String.length a) by lia.
  rewrite drop_app_length, String.eqb_refl, andb_true_r.
  apply Nat.leb_le. lia.
Qed.

Lemma endswith_inv p s : Py.endswith p s = true -> exists a, s = a +:+ p.
Proof.
  unfold Py.endswith. intros [_ Heq%String.eqb_eq]%andb_true_iff.
  set (n := (String.length s - String.length p)%nat) in Heq.
  exists (Py.take n s).
  transitivity (Py.take n s +:+ Py.drop n s); [by rewrite take_drop | by rewrite Heq].
Qed.

Lemma drop_last_app a p : Py.drop_last (String.length p) (a +:+ p) = a.
Proof.
  unfold Py.drop_last. rewrite length_app.
  replace (String.length a + String.length p - String.length p)%nat
    with (String.length a) by lia.
  apply take_app_length.
Qed.

Lemma last_char_app a b : b <> "" -> last_char (a +:+ b) = last_char b.
Proof.
  intros Hb. induction a as [| c a IH]; [done |].
  rewrite app_String. simpl. rewrite IH.
  destruct (a +:+ b) eqn:Hab; [| done].
  by apply app_not_Empty in Hab.
Qed.

Lemma endswith_last p s c :
  last_char s = Some c -> last_char p <> Some c -> p <> "" ->
  Py.endswith p s = false.
Proof.
  intros Hs Hp Hne. apply not_true_is_false. intros [a ->]%endswith_inv.
  rewrite last_char_app in Hs by done. congruence.
Qed.

Lemma rstrip_app a b : Py.rstrip b <> "" -> Py.rstrip (a +:+ b) = a +:+ Py.rstrip b.
Proof.
  intros Hb. induction a as [| c a IH]; [done |].
  rewrite !app_String. simpl. rewrite IH.
  destruct (a +:+ Py.rstrip b) eqn:Hab; [| done].
  by apply app_not_Empty in Hab.
Qed.

Lemma rstrip_app_space a b : Py.rstrip b = "" -> Py.rstrip (a +:+ b) = Py.rstrip a.
Proof.
  intros Hb. induction a as [| c a IH]; [done |].
  rewrite app_String. simpl. by rewrite IH.
Qed.

Lemma strip_String_space c s : Py.isspace c = true -> Py.strip (String c s) = Py.strip s.
Proof.
  intros Hc. unfold Py.strip. simpl.
  destruct (Py.rstrip s); simpl; by rewrite Hc.
Qed.

(** A string that begins and ends with a character that is not white
    space is its own [strip]. *)
Lemma strip_trimmed c s c' :
  Py.isspace c = false -> last_char (String c s) = Some c' -> Py.isspace c' = false ->
  Py.strip (String c s) = String c s.
Proof.
  intros Hc Hlast Hc'.
  assert (forall t d, last_char t = Some d -> Py.isspace d = false -> Py.rstrip t = t)
    as Hr.
  { induction t as [| x t IH]; intros d Ht Hd; [done |].
    simpl in *. destruct t as [| y t].
    - injection Ht as ->. by rewrite Hd.
    - rewrite (IH d) by done. done. }
  unfold Py.strip. rewrite (Hr _ c') by done. simpl. by rewrite Hc.
Qed.

End Strings.

(** ** Cleaning a response *)

(** A fenced body is cleaned to the stripped body. *)
Lemma clean_response_fenced (body : string) :
  clean_response (fence_json body) = Py.strip body.
Proof.
  unfold clean_response, fence_json.
  assert (Py.strip ("```json
" +:+ body +:+ "
```") = "```json
" +:+ body +:+ "
```") as ->.
  { assert (Py.rstrip (body +:+ "
```") = body +:+ "
```") as Hbody by (by rewrite rstrip_app).
    unfold Py.strip. rewrite rstrip_app; rewrite Hbody; [done |].
    by apply app_not_Empty. }
  rewrite !app_String, app_Empty. cbn [Py.startswith String.prefix Py.drop].
  cbn -[Py.endswith Py.drop_last Py.strip String.append].
  change (String "010" (body +:+ "
```")) with (("
" +:+ body) +:+ "
```").
  replace (("
" +:+ body) +:+ "
```") with (("
" +:+ body +:+ "
") +:+ "```") by (by rewrite !app_assoc').
  rewrite endswith_app.
  change 3%nat with (String.length "```"). rewrite drop_last_app.
  rewrite app_String, app_Empty, strip_String_space by done.
  unfold Py.strip. by rewrite rstrip_app_space.
Qed.

Lemma prefix_app (a b : string) : forall s,
  String.prefix (a +:+ b) s = true -> String.prefix a s = true.
Proof.
  induction a as [| c a IH]; intros s; [by destruct s |].
  rewrite app_String. destruct s as [| c' s]; simpl; [done |].
  destruct (ascii_dec c c'); [apply IH | done].
Qed.

(** Without fence markers at either end the cleaning is [strip]. *)
Lemma clean_response_plain (text : string) :
  Py.startswith "```" (Py.strip text) = false ->
  Py.endswith "```" (Py.strip text) = false ->
  clean_response text = Py.strip (Py.strip text).
Proof.
  intros Hstart Hend. unfold clean_response.
  assert (Py.startswith "```json" (Py.strip text) = false) as ->.
  { apply not_true_is_false. intros Hjson.
    apply (prefix_app "```" "json") in Hjson.
    unfold Py.startswith in Hstart. congruence. }
  by rewrite Hstart, Hend.
Qed.

(** The serialisation of an object is delimited by braces. *)
Lemma dumps_dict_shape (d : list (string * json)) :
  exists inner, Json.dumps (JDict d) = String "{" (inner +:+ "}").
Proof. eexists. reflexivity. Qed.

(** A brace-delimited text goes to the decoder as it is, fenced or not. *)
Lemma clean_response_object_text (inner : string) :
  let text := String "{" (inner +:+ "}") in
  clean_response (fence_json text) = text /\ clean_response text = text.
Proof.
  intros text.
  assert (last_char text = Some "}"%char) as Hlast.
  { change text with ("{" +:+ inner +:+ "}").
    rewrite last_char_app by (by apply app_not_Empty).
    by rewrite last_char_app. }
  assert (Py.strip text = text) as Hstrip.
  { by apply (strip_trimmed _ _ "}"). }
  split.
  - by rewrite clean_response_fenced.
  - rewrite clean_response_plain; rewrite !Hstrip; try done.
    by apply (endswith_last _ _ "}").
Qed.

(** C4.  Whenever the JSON library reads back the serialisation of an
    object as that object, so does the response parser, both when the
    serialised text is wrapped in a [```json] fence and when it is sent
    bare. *)
Theorem parser_roundtrip (E : environment) (d : list (string * json)) :
  json_loads E (Json.dumps (JDict d)) = inr (JDict d) ->
  parse_response E (fence_json (Json.dumps (JDict d))) = inr (JDict d)
  /\ parse_response E (Json.dumps (JDict d)) = inr (JDict d).
Proof.
  intros Hlib. destruct (dumps_dict_shape d) as [inner Hshape].
  unfold parse_response. rewrite Hshape in *.
  destruct (clean_response_object_text inner) as [-> ->]. done.
Qed.

Lemma parser_roundtrip_witness :
  parse_response (Demo.env "") (fence_json (Json.dumps Demo.course)) = inr Demo.course
  /\ parse_response (Demo.env "") (Json.dumps Demo.course) = inr Demo.course.
Proof.
  apply (parser_roundtrip (Demo.env "")). vm_compute. reflexivity.
Defined.

(** The same for the demo quiz. *)
Example parser_roundtrip_quiz :
  parse_response (Demo.env "") (fence_json (Json.dumps Demo.quiz3)) = inr Demo.quiz3.
Proof. vm_compute. reflexivity. Qed.

(** A truncated object is reported by the decoder. *)
Example parser_truncated :
  parse_response (Demo.env "") (fence_json (Py.take 40 (Json.dumps Demo.quiz3)))
  = inl (JSONDecodeError "Unterminated string starting at").
Proof. vm_compute. reflexivity. Qed.

(** ** The generators *)

Section Generators.

Variable E : environment.

(** What [generate_quiz] does once the backend is reached. *)
Lemma generate_quiz_reached (now : Q) (topic difficulty : string) (n : Z)
    (s s3 : session) (m : string) :
  reaches_backend E now s s3 m ->
  generate_quiz E now topic difficulty n s =
  let prompt := quiz_prompt topic difficulty n in
  let s4 := asked m prompt s3 in
  match genai_generate_content E m prompt with
  | inl e => (inr None, shown (ErrGeneratingQuiz (str_exn e)) s4)
  | inr raw =>
      match parse_response E raw with
      | inl e => (inr None, shown (ErrGeneratingQuiz (str_exn e)) s4)
      | inr quiz => (inr (Some quiz), s4)
      end
  end.
Proof.
  intros (s1 & s2 & Hconf & Hpermit & Hmodel & Htruthy).
  unfold generate_quiz. unfold bind at 1. rewrite Hconf. cbn [negb].
  unfold bind at 1. rewrite Hpermit. cbn [negb].
  unfold bind at 1. rewrite Hmodel. cbn [truthy_opt default]. unfold id.
  rewrite Htruthy.
  cbn [negb]. unfold try_except, generate_content, bind, show, log_call,
    modify, lift, ret, asked, shown.
  cbv zeta. destruct (genai_generate_content E m _); [done |].
  destruct (parse_response E _); done.
Qed.

(** What [generate_course] does once the backend is reached. *)
Lemma generate_course_reached (now : Q) (today topic level duration : string)
    (s s3 : session) (m : string) :
  reaches_backend E now s s3 m ->
  generate_course E now today topic level duration s =
  let prompt := course_prompt topic level duration in
  let s4 := asked m prompt s3 in
  match genai_generate_content E m prompt with
  | inl e => (inr None, shown (ErrGeneratingCourse (str_exn e)) s4)
  | inr raw =>
      match parse_response E raw with
      | inl e => (inr None, shown (ErrGeneratingCourse (str_exn e)) s4)
      | inr v =>
          match stamp_course today topic level v with
          | inl e => (inr None, shown (ErrGeneratingCourse (str_exn e)) s4)
          | inr course_data => (inr (Some course_data), s4)
          end
      end
  end.
Proof.
  intros (s1 & s2 & Hconf & Hpermit & Hmodel & Htruthy).
  unfold generate_course. unfold bind at 1. rewrite Hconf. cbn [negb].
  unfold bind at 1. rewrite Hpermit. cbn [negb].
  unfold bind at 1. rewrite Hmodel. cbn [truthy_opt default]. unfold id.
  rewrite Htruthy.
  cbn [negb]. unfold try_except, generate_content, bind, show, log_call,
    modify, lift, ret, asked, shown, stamp_course.
  cbv zeta. destruct (genai_generate_content E m _); [done |].
  destruct (parse_response E _) as [e | v]; [done |].
  destruct (setitem v "created_date" (JStr today)) as [e | c1]; [done |].
  destruct (setitem c1 "user_topic" (JStr topic)) as [e | c2]; [done |].
  destruct (setitem c2 "level" (JStr level)); done.
Qed.

(** On an object the three assignments succeed. *)
Lemma stamp_course_dict (today topic level : string) (d : list (string * json)) :
  stamp_course today topic level (JDict d) = inr (JDict (stamped today topic level d)).
Proof. reflexivity. Qed.

(** On anything else the first one raises. *)
Lemma stamp_course_not_dict (today topic level : string) (v : json) :
  (forall d, v <> JDict d) ->
  exists msg, stamp_course today topic level v = inl (TypeError msg).
Proof.
  intros Hv. destruct v; unfold stamp_course; simpl; eauto.
  by destruct (Hv entries).
Qed.

Lemma generate_quiz_never_raises (now : Q) (topic difficulty : string) (n : Z) :
  never_raises (generate_quiz E now topic difficulty n).
Proof.
  unfold generate_quiz.
  apply never_raises_bind; [apply configure_gemini_never_raises |].
  intros [|]; cbn [negb]; [| apply never_raises_ret].
  apply never_raises_bind; [apply rate_limit_check_never_raises |].
  intros [|]; cbn [negb]; [| apply never_raises_ret].
  apply never_raises_bind; [apply get_working_model_never_raises |].
  intros model_name. destruct (negb (truthy_opt model_name)); no_raise.
Qed.

Lemma generate_course_never_raises (now : Q) (today topic level duration : string) :
  never_raises (generate_course E now today topic level duration).
Proof.
  unfold generate_course.
  apply never_raises_bind; [apply configure_gemini_never_raises |].
  intros [|]; cbn [negb]; [| apply never_raises_ret].
  apply never_raises_bind; [apply rate_limit_check_never_raises |].
  intros [|]; cbn [negb]; [| apply never_raises_ret].
  apply never_raises_bind; [apply get_working_model_never_raises |].
  intros model_name. destruct (negb (truthy_opt model_name)); no_raise.
Qed.

Lemma get_recommendations_never_raises (user_history preferences : list string) :
  never_raises (get_recommendations E user_history preferences).
Proof.
  unfold get_recommendations.
  apply never_raises_bind; [apply configure_gemini_never_raises |].
  intros configured.
  destruct (negb configured || bool_decide (user_history = []));
    [apply never_raises_ret |].
  apply never_raises_bind; [apply get_working_model_never_raises |].
  intros model_name. destruct (negb (truthy_opt model_name)); no_raise.
Qed.

End Generators.

(** C5 as stated fails: an object without a [questions] key is decoded
    and returned as a quiz; nothing checks the keys. *)
Lemma quiz_without_questions_accepted :
  ~ (forall raw v,
       parse_response (Demo.env raw) raw = inr v ->
       has_key "questions" v = false ->
       fst (generate_quiz (Demo.env raw) (100 # 1) "Python Basics" "Easy" 3
              Demo.session0) = inr None).
Proof.
  intros H. specialize (H "{}" (JDict []) eq_refl eq_refl).
  vm_compute in H. discriminate.
Qed.

(** C5, amended.  Neither generator ever raises.  Once the backend has
    answered, a response whose cleaned text the decoder rejects makes the
    generator return nothing and show an error carrying the cause
    [str(e)]; the raw text is not kept.  No key is checked: the quiz
    generator returns whatever value was decoded, and the course generator
    returns any decoded object with its three metadata entries set. *)
Theorem decode_failure_reported (E : environment) (now : Q)
    (today topic level duration difficulty : string) (n : Z)
    (s s3 : session) (m raw_course raw_quiz : string) :
  reaches_backend E now s s3 m ->
  genai_generate_content E m (course_prompt topic level duration) = inr raw_course ->
  genai_generate_content E m (quiz_prompt topic difficulty n) = inr raw_quiz ->
  let course_run := generate_course E now today topic level duration in
  let quiz_run := generate_quiz E now topic difficulty n in
  let s_course := asked m (course_prompt topic level duration) s3 in
  let s_quiz := asked m (quiz_prompt topic difficulty n) s3 in
  (forall s0, exists r s', course_run s0 = (inr r, s'))
  /\ (forall s0, exists r s', quiz_run s0 = (inr r, s'))
  /\ (forall e, json_loads E (clean_response raw_course) = inl e ->
        course_run s = (inr None, shown (ErrGeneratingCourse (str_exn e)) s_course))
  /\ (forall e, json_loads E (clean_response raw_quiz) = inl e ->
        quiz_run s = (inr None, shown (ErrGeneratingQuiz (str_exn e)) s_quiz))
  /\ (forall v, json_loads E (clean_response raw_quiz) = inr v ->
        quiz_run s = (inr (Some v), s_quiz))
  /\ (forall d, json_loads E (clean_response raw_course) = inr (JDict d) ->
        course_run s = (inr (Some (JDict (stamped today topic level d))), s_course)).
Proof.
  intros Hreach Hcourse Hquiz course_run quiz_run s_course s_quiz.
  split; [apply generate_course_never_raises |].
  split; [apply generate_quiz_never_raises |].
  subst course_run quiz_run s_course s_quiz.
  repeat split.
  - intros e He. rewrite (generate_course_reached E _ _ _ _ _ _ _ _ Hreach).
    cbv zeta. rewrite Hcourse. unfold parse_response. by rewrite He.
  - intros e He. rewrite (generate_quiz_reached E _ _ _ _ _ _ _ Hreach).
    cbv zeta. rewrite Hquiz. unfold parse_response. by rewrite He.
  - intros v Hv. rewrite (generate_quiz_reached E _ _ _ _ _ _ _ Hreach).
    cbv zeta. rewrite Hquiz. unfold parse_response. by rewrite Hv.
  - intros d Hd. rewrite (generate_course_reached E _ _ _ _ _ _ _ _ Hreach).
    cbv zeta. rewrite Hcourse. unfold parse_response.
    by rewrite Hd, stamp_course_dict.
Qed.

Lemma decode_failure_reported_witness :
  let E := Demo.env "```json
{
```" in
  let s := Demo.session0 in
  let s3 := snd (get_working_model E
                   (snd (rate_limit_check (100 # 1) (snd (configure_gemini E s))))) in
  generate_quiz E (100 # 1) "Python Basics" "Easy" 3 s
  = (inr None,
     shown (ErrGeneratingQuiz "Expecting property name enclosed in double quotes")
       (asked "gemini-1.5-flash" (quiz_prompt "Python Basics" "Easy" 3) s3)).
Proof.
  intros E s s3.
  assert (reaches_backend E (100 # 1) s s3 "gemini-1.5-flash") as Hreach.
  { exists (snd (configure_gemini E s)),
      (snd (rate_limit_check (100 # 1) (snd (configure_gemini E s)))).
    repeat split; vm_compute; reflexivity. }
  destruct (decode_failure_reported E (100 # 1) "2026-01-01" "Python Basics"
              "Beginner" "1 week" "Easy" 3 s s3 "gemini-1.5-flash" _ _
              Hreach eq_refl eq_refl) as (_ & _ & _ & Hquiz & _).
  exact (Hquiz _ eq_refl).
Defined.

(** ** Gating by the rate limiter *)

Lemma rate_limit_check_calls (now : Q) (s s' : session) (b : bool) :
  rate_limit_check now s = (inr b, s') -> calls s' = calls s.
Proof.
  rewrite rate_limit_check_eq. unfold after_reset_test. cbv zeta.
  destruct (Py.gt (now - last_request_time s) 60);
    match goal with |- context [if ?c then _ else _] => destruct c end;
    intros [= <- <-]; reflexivity.
Qed.

(** A denied course request stops before any backend call. *)
Lemma generate_course_denied (E : environment) (now : Q)
    (today topic level duration : string) (s s1 s2 : session) :
  configure_gemini E s = (inr true, s1) ->
  rate_limit_check now s1 = (inr false, s2) ->
  generate_course E now today topic level duration s = (inr None, s2)
  /\ no_outbound_since s s2.
Proof.
  intros Hconf Hdeny. split.
  - unfold generate_course. unfold bind at 1. rewrite Hconf. cbn [negb].
    unfold bind at 1. by rewrite Hdeny.
  - apply configure_gemini_frame in Hconf as (_ & _ & _ & _ & new & Hnew & Hlocal).
    exists new. by rewrite (rate_limit_check_calls _ _ _ _ Hdeny).
Qed.

(** A denied quiz request stops before any backend call. *)
Lemma generate_quiz_denied (E : environment) (now : Q)
    (topic difficulty : string) (n : Z) (s s1 s2 : session) :
  configure_gemini E s = (inr true, s1) ->
  rate_limit_check now s1 = (inr false, s2) ->
  generate_quiz E now topic difficulty n s = (inr None, s2)
  /\ no_outbound_since s s2.
Proof.
  intros Hconf Hdeny. split.
  - unfold generate_quiz. unfold bind at 1. rewrite Hconf. cbn [negb].
    unfold bind at 1. by rewrite Hdeny.
  - apply configure_gemini_frame in Hconf as (_ & _ & _ & _ & new & Hnew & Hlocal).
    exists new. by rewrite (rate_limit_check_calls _ _ _ _ Hdeny).
Qed.

(** A course request that goes out to the backend was permitted first. *)
Lemma generate_course_gated (E : environment) (now : Q)
    (today topic level duration : string) (s : session) :
  let s' := snd (generate_course E now today topic level duration s) in
  no_outbound_since s s'
  \/ exists s1 s2, configure_gemini E s = (inr true, s1)
                   /\ rate_limit_check now s1 = (inr true, s2).
Proof.
  intros s'. subst s'.
  destruct (configure_gemini_never_raises E s) as ([|] & s1 & Hconf).
  - destruct (rate_limit_check_never_raises now s1) as ([|] & s2 & Hpermit).
    + right. eauto.
    + left. destruct (generate_course_denied E now today topic level duration
                        s s1 s2 Hconf Hpermit) as [-> Hno]. done.
  - left. unfold generate_course. unfold bind at 1. rewrite Hconf. cbn.
    by apply configure_gemini_frame in Hconf as (_ & _ & _ & _ & Hno).
Qed.

(** A quiz request that goes out to the backend was permitted first. *)
Lemma generate_quiz_gated (E : environment) (now : Q)
    (topic difficulty : string) (n : Z) (s : session) :
  let s' := snd (generate_quiz E now topic difficulty n s) in
  no_outbound_since s s'
  \/ exists s1 s2, configure_gemini E s = (inr true, s1)
                   /\ rate_limit_check now s1 = (inr true, s2).
Proof.
  intros s'. subst s'.
  destruct (configure_gemini_never_raises E s) as ([|] & s1 & Hconf).
  - destruct (rate_limit_check_never_raises now s1) as ([|] & s2 & Hpermit).
    + right. eauto.
    + left. destruct (generate_quiz_denied E now topic difficulty n
                        s s1 s2 Hconf Hpermit) as [-> Hno]. done.
  - left. unfold generate_quiz. unfold bind at 1. rewrite Hconf. cbn.
    by apply configure_gemini_frame in Hconf as (_ & _ & _ & _ & Hno).
Qed.

(** C1.  With ten requests counted 30 seconds into the window the rate
    limiter denies, and a course request stops there; a recommendation
    request in the same session lists the models and asks the backend
    without consulting the limiter: no warning, the counter still at 10. *)
Theorem recommendations_bypass_rate_limiter :
  let E := Demo.env "[]" in
  let s := Demo.session_full in
  let rec_run := get_recommendations E ["Python Basics"] [] s in
  fst (rate_limit_check (130 # 1) s) = inr false
  /\ fst (generate_course E (130 # 1) "2026-01-01" "Python Basics" "Beginner" "1 week" s)
     = inr None
  /\ filter (fun c => outbound c = true)
       (calls (snd (generate_course E (130 # 1) "2026-01-01" "Python Basics"
                      "Beginner" "1 week" s))) = []
  /\ filter (fun c => outbound c = true) (calls (snd rec_run))
     = [ CallListModels;
         CallGenerateContent "gemini-1.5-flash"
           (recommendations_prompt E ["Python Basics"] []) ]
  /\ request_count (snd rec_run) = 10
  /\ ui (snd rec_run) = [].
Proof. vm_compute. repeat split; reflexivity. Qed.

(** ** Recommendations *)

(** C8.  [get_recommendations] always returns a value and never raises.
    With an empty history it returns the four-item list and reaches no
    backend: no model listing, no generation.  When a step fails it
    returns one of the two fixed lists: the four-item list when the
    client cannot be configured; the five-item list when no model is
    resolved, when the resolved model's call raises, and when its answer
    does not decode.  Only an answer of the resolved model that decodes
    is returned as decoded. *)
Theorem recommendations_never_fail (E : environment)
    (user_history preferences : list string) (s : session) :
  let prompt := recommendations_prompt E user_history preferences in
  exists v s',
    get_recommendations E user_history preferences s = (inr v, s')
    /\ (user_history = [] -> v = fallback_no_history /\ no_outbound_since s s')
    /\ (fst (configure_gemini E s) = inr false ->
        v = fallback_no_history /\ no_outbound_since s s')
    /\ (user_history <> [] ->
        forall s1, configure_gemini E s = (inr true, s1) ->
        exists o s2,
          get_working_model E s1 = (inr o, s2)
          /\ (truthy_opt o = false -> v = fallback_on_failure)
          /\ (forall m, o = Some m -> Py.truthy m = true ->
                (forall e, genai_generate_content E m prompt = inl e ->
                   v = fallback_on_failure)
                /\ (forall raw e, genai_generate_content E m prompt = inr raw ->
                      parse_response E raw = inl e -> v = fallback_on_failure)
                /\ (forall raw decoded, genai_generate_content E m prompt = inr raw ->
                      parse_response E raw = inr decoded -> v = decoded))).
Proof.
  intros prompt. unfold get_recommendations, bind.
  destruct (configure_gemini_never_raises E s) as (configured & s1 & Hconf).
  rewrite Hconf.
  pose proof (configure_gemini_frame E s s1 configured Hconf)
    as (_ & _ & _ & _ & Hlocal).
  destruct (negb configured || bool_decide (user_history = [])) eqn:Hskip.
  - exists fallback_no_history, s1. unfold ret.
    split; [done |]. split; [done |]. split; [done |].
    intros Hhist s1' [= -> <-].
    by rewrite (bool_decide_eq_false_2 _ Hhist) in Hskip.
  - apply orb_false_iff in Hskip as [Hc%negb_false_iff Hhist%bool_decide_eq_false].
    subst configured.
    destruct (get_working_model_never_raises E s1) as (model_name & s2 & Hmodel).
    rewrite Hmodel.
    destruct (negb (truthy_opt model_name)) eqn:Hm.
    + exists fallback_on_failure, s2. unfold ret.
      split; [done |]. split; [by intros ? |]. split; [by intros [=] |].
      intros _ s1' [= <-]. exists model_name, s2.
      split; [done |]. split; [done |].
      intros m -> Ht. cbn [truthy_opt] in Hm. by rewrite Ht in Hm.
    + apply negb_false_iff in Hm.
      destruct model_name as [m |]; [| done]. cbn [truthy_opt] in Hm.
      unfold try_except, generate_content, bind, log_call, modify, lift, ret.
      cbn [default]. unfold id. fold prompt.
      destruct (genai_generate_content E m prompt) as [e | raw] eqn:Hgen;
        [| destruct (parse_response E raw) as [e | v] eqn:Hparse];
        (eexists _, _; split; [done |]; split; [by intros ? |];
         split; [by intros [=] |];
         intros _ s1' [= <-]; exists (Some m), s2;
         split; [done |]; split; [cbn [truthy_opt]; by rewrite Hm |];
         intros m' [= <-] _; repeat split; intros; congruence).
Qed.

Lemma recommendations_never_fail_witness :
  let E := Demo.env "not a list" in
  let prompt := recommendations_prompt E ["Python Basics"] ["Programming"] in
  exists v s',
    get_recommendations E ["Python Basics"] ["Programming"] Demo.session0 = (inr v, s')
    /\ (["Python Basics"] = [] -> v = fallback_no_history /\ no_outbound_since Demo.session0 s')
    /\ (fst (configure_gemini E Demo.session0) = inr false ->
        v = fallback_no_history /\ no_outbound_since Demo.session0 s')
    /\ (["Python Basics"] <> [] ->
        forall s1, configure_gemini E Demo.session0 = (inr true, s1) ->
        exists o s2,
          get_working_model E s1 = (inr o, s2)
          /\ (truthy_opt o = false -> v = fallback_on_failure)
          /\ (forall m, o = Some m -> Py.truthy m = true ->
                (forall e, genai_generate_content E m prompt = inl e ->
                   v = fallback_on_failure)
                /\ (forall raw e, genai_generate_content E m prompt = inr raw ->
                      parse_response E raw = inl e -> v = fallback_on_failure)
                /\ (forall raw decoded, genai_generate_content E m prompt = inr raw ->
                      parse_response E raw = inr decoded -> v = decoded))).
Proof.
  intros E.
  apply (recommendations_never_fail E ["Python Basics"] ["Programming"] Demo.session0).
Defined.

(** Empty history and empty preferences: the four names, and the only
    call made is the local [configure]. *)
Example recommendations_empty_history :
  get_recommendations (Demo.env "[]") [] [] Demo.session0
  = (inr fallback_no_history, set_calls [CallConfigure "key"] Demo.session0).
Proof. vm_compute. reflexivity. Qed.

(** A response that is not JSON: the five names. *)
Example recommendations_bad_response :
  fst (get_recommendations (Demo.env "Sure! Here are five courses") ["Python Basics"] []
         Demo.session0) = inr fallback_on_failure.
Proof. vm_compute. reflexivity. Qed.

(** ** The progress record *)

Lemma record_quiz_attempt_eq (sc : Q) (stamp : string) (s : session)
    (u : string) (st : user_stats) :
  current_user s = Some u ->
  user_data s !! u = Some st ->
  record_quiz_attempt sc stamp s =
  (inr tt,
   set_user_data
     (<[u := add_attempt {| topic := quiz_topic s; score := sc; date := stamp |} st]>
        (user_data s)) s).
Proof.
  intros Hu Hst. unfold record_quiz_attempt, bind, get, modify.
  by rewrite Hu, Hst.
Qed.

(** Recording a sequence of attempts extends the history by exactly
    them, and moves the two totals along. *)
Lemma record_attempts_from (attempts : list quiz_attempt) :
  forall (s : session) (u : string) (st : user_stats),
  current_user s = Some u ->
  user_data s !! u = Some st ->
  exists s' st',
    record_attempts attempts s = (inr tt, s')
    /\ current_user s' = Some u
    /\ user_data s' !! u = Some st'
    /\ quiz_history st' = quiz_history st ++ attempts
    /\ quizzes_taken st' = quizzes_taken st + Z.of_nat (length attempts)
    /\ (total_score st' == total_score st + sum_scores (map score attempts))%Q.
Proof.
  induction attempts as [| a attempts IH]; intros s u st Hu Hst.
  - exists s, st. simpl. rewrite app_nil_r, Z.add_0_r.
    repeat split; try done. unfold sum_scores. simpl. lra.
  - cbn [record_attempts]. unfold bind at 1. unfold modify at 1.
    unfold bind at 1.
    rewrite (record_quiz_attempt_eq _ _ _ u st) by done.
    set (st1 := add_attempt _ st).
    set (s1 := set_user_data _ _).
    destruct (IH s1 u st1) as (s' & st' & Hrun & Hu' & Hst' & Hhist & Hn & Htot).
    { done. }
    { subst s1. simpl. apply lookup_insert_eq. }
    exists s', st'. rewrite Hrun. repeat split; try done.
    + rewrite Hhist. subst st1. simpl. destruct a. by rewrite <- app_assoc.
    + rewrite Hn. subst st1. simpl. lia.
    + rewrite Htot. subst st1. unfold sum_scores. simpl. lra.
Qed.

(** C7.  From the record [initialize_user_data] creates for a new user,
    any sequence of recorded attempts leaves [total_score] equal to the
    sum of their scores, [quizzes_taken] equal to their number, and
    [quiz_history] equal to the sequence itself. *)
Theorem progress_totals (s : session) (username : string)
    (attempts : list quiz_attempt) :
  user_data s !! username = None ->
  current_user s = Some username ->
  exists s' st,
    (initialize_user_data username ;;; record_attempts attempts) s = (inr tt, s')
    /\ user_data s' !! username = Some st
    /\ (total_score st == sum_scores (map score attempts))%Q
    /\ quizzes_taken st = Z.of_nat (length attempts)
    /\ quiz_history st = attempts.
Proof.
  intros Hnew Hu. unfold bind, initialize_user_data, modify. rewrite Hnew.
  set (s0 := set_user_data _ s).
  destruct (record_attempts_from attempts s0 username fresh_user_stats)
    as (s' & st & Hrun & _ & Hst & Hhist & Hn & Htot).
  { done. }
  { subst s0. simpl. apply lookup_insert_eq. }
  exists s', st. rewrite Hrun. repeat split; try done.
  rewrite Htot. simpl. lra.
Qed.

Lemma progress_totals_witness :
  let attempts :=
    [ {| topic := "Python Basics"; score := (200 # 3)%Q; date := "2026-01-01 10:00" |};
      {| topic := "World History"; score := (100 # 1)%Q; date := "2026-01-02 11:30" |} ] in
  exists s' st,
    (initialize_user_data "ada" ;;; record_attempts attempts)
      (set_user_data ∅ (set_quiz_topic "" Demo.session0)) = (inr tt, s')
    /\ user_data s' !! "ada" = Some st
    /\ (total_score st == sum_scores (map score attempts))%Q
    /\ quizzes_taken st = Z.of_nat (length attempts)
    /\ quiz_history st = attempts.
Proof.
  intros attempts.
  apply (progress_totals (set_user_data ∅ (set_quiz_topic "" Demo.session0)) "ada").
  - reflexivity.
  - reflexivity.
Defined.

(** ** Quiz submission *)

Lemma answer_matches_is_match (answers : gmap nat string) (idx : nat) (q : json) :
  has_key "correct" q = true ->
  answer_matches answers idx q = inr (is_match answers idx q).
Proof.
  unfold has_key, answer_matches, is_match.
  by destruct (getitem q "correct").
Qed.

(** The counting loop counts the matching answers. *)
Lemma count_correct_matching (answers : gmap nat string) (questions : list json) :
  forallb (has_key "correct") questions = true ->
  forall (idx : nat) (correct : Z),
  count_correct answers idx questions correct =
  inr (correct
       + Z.of_nat (length (filter (fun b => b = true)
                             (imap (fun i => is_match answers (idx + i)) questions)))).
Proof.
  induction questions as [| q r IH]; intros Hkeys idx correct.
  - simpl. f_equal. lia.
  - cbn [forallb] in Hkeys. apply andb_true_iff in Hkeys as [Hq Hr].
    cbn [count_correct imap]. rewrite answer_matches_is_match by done.
    rewrite Nat.add_0_r.
    rewrite (imap_ext _ (fun i => is_match answers (S idx + i)) r)
      by (intros i x _; simpl; f_equal; lia).
    destruct (is_match answers idx q) eqn:Hm.
    + rewrite IH by done. rewrite filter_cons_True by done.
      cbn [length]. f_equal. lia.
    + rewrite IH by done. rewrite filter_cons_False by (by intros [=]).
      done.
Qed.

Lemma matching_bounds (answers : gmap nat string) (questions : list json) :
  0 <= matching answers questions <= Z.of_nat (length questions).
Proof.
  unfold matching. split; [lia |].
  apply inj_le. etrans; [apply length_filter |]. by rewrite length_imap.
Qed.

(** A share of [n] scaled to 100 lies between 0 and 100. *)
Lemma score_range (k n : Z) :
  0 <= k <= n -> 0 < n ->
  (0 <= inject_Z k / inject_Z n * 100 <= 100)%Q.
Proof.
  intros [Hk Hkn] Hn.
  assert (0 < inject_Z n)%Q as Hn' by (by rewrite (Zlt_Qlt 0 n) in Hn).
  assert (0 <= inject_Z k / inject_Z n)%Q as Hlo.
  { apply Qle_shift_div_l; [done |]. rewrite Qmult_0_l.
    by rewrite (Zle_Qle 0 k) in Hk. }
  assert (inject_Z k / inject_Z n <= 1)%Q as Hhi.
  { apply Qle_shift_div_r; [done |]. rewrite Qmult_1_l.
    by rewrite Zle_Qle in Hkn. }
  split; lra.
Qed.

Lemma set_ui_same (s : session) : set_ui (ui s ++ []) s = s.
Proof. destruct s. unfold set_ui. simpl. by rewrite app_nil_r. Qed.

(** The feedback loop only writes to the page, and completes when every
    question carries the two keys it reads. *)
Lemma show_feedback_frame (answers : gmap nat string) (questions : list json) :
  forall (idx : nat) (s : session),
  exists r extra,
    show_feedback answers idx questions s = (r, set_ui (ui s ++ extra) s)
    /\ (forallb (has_key "correct") questions = true ->
        forallb (has_key "explanation") questions = true -> r = inr tt).
Proof.
  induction questions as [| q rest IH]; intros idx s.
  - exists (inr tt), []. by rewrite set_ui_same.
  - cbn [show_feedback forallb]. unfold bind, lift, show, modify.
    unfold answer_matches, has_key.
    destruct (getitem q "correct") as [e | c].
    { exists (inl e), []. by rewrite set_ui_same. }
    destruct (eq_answer (answers !! idx) c).
    + destruct (IH (S idx) (set_ui (ui s ++ [SuccessQuestion idx]) s))
        as (r & extra & -> & Hok).
      exists r, (SuccessQuestion idx :: extra). simpl. split.
      * by rewrite <- app_assoc.
      * intros Hc He. apply andb_true_iff in He as [_ He]. auto.
    + destruct (getitem q "explanation") as [e | ex].
      { exists (inl e), [ErrQuestion idx c]. split; [done |].
        intros _ He. done. }
      destruct (IH (S idx)
                  (set_ui (ui (set_ui (ui s ++ [ErrQuestion idx c]) s)
                           ++ [InfoExplanation ex])
                     (set_ui (ui s ++ [ErrQuestion idx c]) s)))
        as (r & extra & -> & Hok).
      exists r, (ErrQuestion idx c :: InfoExplanation ex :: extra). simpl. split.
      * by rewrite <- !app_assoc.
      * intros Hc He. auto.
Qed.

(** ** The binary64 score and its one-decimal display *)

(** [round_half_even] gives a nearest integer. *)
Lemma round_half_even_near (t : Q) :
  (inject_Z (Py.round_half_even t) - (1 # 2) <= t
   /\ t <= inject_Z (Py.round_half_even t) + (1 # 2))%Q.
Proof.
  unfold Py.round_half_even.
  pose proof (Qfloor_le t) as Hlo. pose proof (Qlt_floor t) as Hhi.
  rewrite inject_Z_plus in Hhi. change (inject_Z 1) with 1%Q in Hhi.
  destruct (Qle_bool _ _) eqn:Hle.
  - apply Qle_bool_iff in Hle.
    destruct (Qeq_bool _ _) eqn:Heq.
    + apply Qeq_bool_iff in Heq.
      destruct (Z.even _); rewrite ?inject_Z_plus; change (inject_Z 1) with 1%Q;
        split; lra.
    + split; lra.
  - assert (~ (t - inject_Z (Qfloor t) <= 1 # 2)%Q) as Hgt.
    { intros H%Qle_bool_iff. congruence. }
    apply Qnot_le_lt in Hgt. rewrite inject_Z_plus. change (inject_Z 1) with 1%Q.
    split; lra.
Qed.

(** It does not cross an integer. *)
Lemma round_half_even_le (t : Q) (M : Z) :
  (t <= inject_Z M)%Q -> Py.round_half_even t <= M.
Proof.
  intros Ht. unfold Py.round_half_even.
  pose proof (Qfloor_le t) as Hlo.
  assert (Qfloor t <= M) as Hf.
  { rewrite <- (Qfloor_Z M). by apply Qfloor_resp_le. }
  assert ((1 # 2 <= t - inject_Z (Qfloor t))%Q -> Qfloor t + 1 <= M) as Hup.
  { intros Hr. assert (inject_Z (Qfloor t) < inject_Z M)%Q as Hlt by lra.
    rewrite <- Zlt_Qlt in Hlt. lia. }
  destruct (Qle_bool _ _) eqn:Hle.
  - destruct (Qeq_bool _ _) eqn:Heq; [| done].
    apply Qeq_bool_iff in Heq. destruct (Z.even _); [done |].
    apply Hup. lra.
  - apply Hup.
    assert (~ (t - inject_Z (Qfloor t) <= 1 # 2)%Q) as Hgt.
    { intros H%Qle_bool_iff. congruence. }
    apply Qnot_le_lt in Hgt. lra.
Qed.

Lemma round_half_even_ge (t : Q) (M : Z) :
  (inject_Z M <= t)%Q -> M <= Py.round_half_even t.
Proof.
  intros Ht. unfold Py.round_half_even.
  assert (M <= Qfloor t) as Hf.
  { rewrite <- (Qfloor_Z M). by apply Qfloor_resp_le. }
  repeat match goal with |- context [if ?b then _ else _] => destruct b end; lia.
Qed.

Lemma pow2_pos (e : Z) : (0 < Py.pow2 e)%Q.
Proof. unfold Py.pow2. by apply Qpower_0_lt. Qed.

Lemma pow2_le (e e' : Z) : e <= e' -> (Py.pow2 e <= Py.pow2 e')%Q.
Proof. intros He. unfold Py.pow2. by apply Qpower_le_compat_l. Qed.

Lemma pow2_inject (e : Z) : 0 <= e -> (Py.pow2 e == inject_Z (2 ^ e))%Q.
Proof. intros He. unfold Py.pow2. by rewrite Zpower_Qpower. Qed.

Lemma pow2_inv (e : Z) : (Py.pow2 (- e) * Py.pow2 e == 1)%Q.
Proof.
  unfold Py.pow2. rewrite <- Qpower_plus by done.
  by replace (- e + e) with 0 by lia.
Qed.

Lemma ilog2_lt (x : Q) (j : Z) :
  (0 < x)%Q -> (x < inject_Z (2 ^ j))%Q -> 1 <= j -> Py.ilog2 x < j.
Proof.
  destruct x as [p q]. unfold Qlt, Py.ilog2. cbn [Qnum Qden inject_Z].
  intros Hp Hx Hj. rewrite Z.mul_1_r in *. change (0 * _) with 0 in Hp.
  destruct (Z.leb_spec (Z.pos q) p) as [Hqp | Hqp].
  - apply Z.log2_lt_pow2.
    + apply Z.div_str_pos. lia.
    + apply Z.div_lt_upper_bound; lia.
  - pose proof (Z.log2_up_nonneg ((Z.pos q + p - 1) / p)). lia.
Qed.

Lemma pow2_succ (e : Z) : (Py.pow2 (e + 1) == 2 * Py.pow2 e)%Q.
Proof. unfold Py.pow2. rewrite Qpower_plus by done. ring. Qed.

(** Rounding a positive number below [2 ** j] moves it by at most half a
    unit in the last place, [2 ** (j - 54)]. *)
Lemma round_f64_near (x : Q) (j : Z) :
  (0 < x)%Q -> (x < inject_Z (2 ^ j))%Q -> 1 <= j ->
  (x - Py.pow2 (j - 54) <= Py.round_f64 x
   /\ Py.round_f64 x <= x + Py.pow2 (j - 54))%Q.
Proof.
  intros Hx Hj Hj1. pose proof (ilog2_lt x j Hx Hj Hj1) as Hlog.
  unfold Py.round_f64. destruct x as [[| p | p] q]; [done | | done].
  cbn [Qnum]. cbv zeta.
  set (x := Z.pos p # q) in *.
  set (e := Z.max (Py.ilog2 x - 52) (-1074)).
  assert (e <= j - 53) as He by lia.
  pose proof (pow2_pos e) as HP. pose proof (pow2_le _ _ He) as HB.
  replace (j - 53) with (j - 54 + 1) in HB by lia. rewrite pow2_succ in HB.
  pose proof (round_half_even_near (x / Py.pow2 e)) as [Hlo Hhi].
  assert (x / Py.pow2 e * Py.pow2 e == x)%Q as Ht.
  { field. lra. }
  set (t := (x / Py.pow2 e)%Q) in *.
  set (m := inject_Z (Py.round_half_even t)) in *.
  set (P := Py.pow2 e) in *. set (B := Py.pow2 (j - 54)) in *.
  clearbody t m P B x.
  assert (0 <= (m + (1 # 2) - t) * P)%Q as H1 by (apply Qmult_le_0_compat; lra).
  assert (0 <= (t - m + (1 # 2)) * P)%Q as H2 by (apply Qmult_le_0_compat; lra).
  split; nra.
Qed.

(** Rounding stays inside an interval of integers [0 .. N] when the unit
    in the last place divides 1. *)
Lemma round_f64_range (x : Q) (N j : Z) :
  (0 <= x)%Q -> (x <= inject_Z N)%Q -> (x < inject_Z (2 ^ j))%Q -> 1 <= j <= 53 ->
  (0 <= Py.round_f64 x /\ Py.round_f64 x <= inject_Z N)%Q.
Proof.
  intros Hx HN Hj Hj1. unfold Py.round_f64.
  destruct x as [[| p | p] q]; [cbn [Qnum]; lra | | done].
  assert (0 < Z.pos p # q)%Q as Hpos by done.
  pose proof (ilog2_lt _ j Hpos Hj (proj1 Hj1)) as Hlog.
  cbn [Qnum]. cbv zeta.
  set (x := Z.pos p # q) in *.
  set (e := Z.max (Py.ilog2 x - 52) (-1074)).
  assert (e <= 0) as He by lia.
  pose proof (pow2_pos e) as HP. pose proof (pow2_inv e) as Hinv.
  rewrite (pow2_inject (- e)) in Hinv by lia.
  assert (x / Py.pow2 e == x * inject_Z (2 ^ (- e)))%Q as Ht.
  { rewrite <- (Qmult_1_r (x / Py.pow2 e)), <- Hinv. field. lra. }
  assert (0 <= inject_Z (2 ^ (- e)))%Q as Hpow.
  { change (inject_Z 0 <= inject_Z (2 ^ (- e)))%Q.
    rewrite <- Zle_Qle. apply Z.pow_nonneg. lia. }
  split.
  - apply Qmult_le_0_compat; [| lra].
    change (inject_Z 0 <= inject_Z (Py.round_half_even (x / Py.pow2 e)))%Q.
    rewrite <- Zle_Qle. apply round_half_even_ge.
    rewrite Ht. by apply Qmult_le_0_compat.
  - assert (Py.round_half_even (x / Py.pow2 e) <= N * 2 ^ (- e)) as Hm.
    { apply round_half_even_le. rewrite Ht, inject_Z_mult.
      by apply Qmult_le_compat_r. }
    rewrite Zle_Qle, inject_Z_mult in Hm.
    apply (Qmult_le_compat_r _ _ (Py.pow2 e)) in Hm; [| lra].
    rewrite <- Qmult_assoc, Hinv, Qmult_1_r in Hm. exact Hm.
Qed.

(** The same for a number that may be zero. *)
Lemma round_f64_near0 (x : Q) (j : Z) :
  (0 <= x)%Q -> (x < inject_Z (2 ^ j))%Q -> 1 <= j ->
  (x - Py.pow2 (j - 54) <= Py.round_f64 x
   /\ Py.round_f64 x <= x + Py.pow2 (j - 54))%Q.
Proof.
  intros Hx Hj Hj1. destruct (Qlt_le_dec 0 x) as [Hpos | Hzero].
  - by apply round_f64_near.
  - pose proof (pow2_pos (j - 54)) as HB.
    destruct x as [[| p | p] q]; [| done | done].
    unfold Py.round_f64. cbn [Qnum]. split; lra.
Qed.

(** [ilog2] is the exponent of the leading bit. *)
Lemma ilog2_spec (x : Q) :
  (0 < x)%Q ->
  (Py.pow2 (Py.ilog2 x) <= x /\ x < Py.pow2 (Py.ilog2 x + 1))%Q.
Proof.
  destruct x as [p q]. intros Hx.
  assert (0 < p) as Hp.
  { unfold Qlt in Hx. cbn [Qnum Qden] in Hx. lia. }
  unfold Py.ilog2. cbn [Qnum Qden].
  destruct (Z.leb_spec (Z.pos q) p) as [Hqp | Hqp].
  - set (a := p / Z.pos q).
    assert (0 < a) as Ha by (apply Z.div_str_pos; lia).
    pose proof (Z.log2_spec a Ha) as [Hlo Hhi].
    pose proof (Z.log2_nonneg a) as Hl.
    pose proof (Z.mul_div_le p (Z.pos q) eq_refl) as Hdiv.
    pose proof (Z.mul_succ_div_gt p (Z.pos q) eq_refl) as Hdiv'.
    fold a in Hdiv, Hdiv'.
    rewrite !pow2_inject by lia. unfold Qle, Qlt. cbn [Qnum Qden inject_Z].
    replace (Z.log2 a + 1) with (Z.succ (Z.log2 a)) by lia. split; nia.
  - set (c := (Z.pos q + p - 1) / p).
    assert (1 < c) as Hc.
    { assert (2 <= c) by (apply Z.div_le_lower_bound; lia). lia. }
    pose proof (Z.log2_up_spec c Hc) as [Hlo Hhi].
    pose proof (Z.log2_up_pos c Hc) as Hu.
    pose proof (Z.mul_div_le (Z.pos q + p - 1) p Hp) as Hdiv.
    pose proof (Z.mul_succ_div_gt (Z.pos q + p - 1) p Hp) as Hdiv'.
    fold c in Hdiv, Hdiv'.
    set (u := Z.log2_up c) in *.
    pose proof (pow2_inv u) as Hinv. pose proof (pow2_pos (- u)) as HS.
    assert (Py.pow2 (- u + 1) == 2 * Py.pow2 (- u))%Q as -> by apply pow2_succ.
    rewrite (pow2_inject u) in Hinv by lia.
    assert (0 < 2 ^ Z.pred u) as Hpow by (apply Z.pow_pos_nonneg; lia).
    assert (2 ^ u = 2 * 2 ^ Z.pred u) as Hpu.
    { replace u with (Z.succ (Z.pred u)) at 1 by lia.
      rewrite Z.pow_succ_r; lia. }
    assert (1 <= (p # q) * inject_Z (2 ^ u))%Q as H1.
    { unfold Qle. cbn. nia. }
    assert ((p # q) * inject_Z (2 ^ u) < 2)%Q as H2.
    { unfold Qlt. cbn. nia. }
    set (x := p # q) in *. set (T := inject_Z (2 ^ u)) in *.
    set (S := Py.pow2 (- u)) in *. clearbody x T S.
    assert (0 <= (x * T - 1) * S)%Q by (apply Qmult_le_0_compat; lra).
    assert (0 < (2 - x * T) * S)%Q by (apply Qmult_lt_0_compat; lra).
    split; nra.
Qed.

(** The result of rounding has at most 53 significant bits, and exactly
    53 above the subnormal range. *)
Lemma round_f64_mantissa (x : Q) :
  (0 < x)%Q ->
  let e := Z.max (Py.ilog2 x - 52) (-1074) in
  exists m : Z,
    Py.round_f64 x = (inject_Z m * Py.pow2 e)%Q
    /\ 0 <= m <= 2 ^ 53
    /\ (-1074 < e -> 2 ^ 52 <= m).
Proof.
  intros Hx e. pose proof (ilog2_spec x Hx) as [Hlo Hhi].
  exists (Py.round_half_even (x / Py.pow2 e)).
  pose proof (pow2_pos e) as HP.
  assert (forall a : Z, 0 <= a ->
            (Py.pow2 (e + a) == Py.pow2 e * inject_Z (2 ^ a))%Q) as Hadd.
  { intros a Ha. unfold Py.pow2. rewrite Qpower_plus by done.
    by rewrite <- (Zpower_Qpower 2 a). }
  split; [| split; [split |]].
  - unfold Py.round_f64. by destruct x as [[| p | p] q].
  - apply (round_half_even_ge _ 0). apply Qle_shift_div_l; [done |].
    change (inject_Z 0) with 0%Q. rewrite Qmult_0_l. lra.
  - apply round_half_even_le. apply Qle_shift_div_r; [done |].
    rewrite Qmult_comm, <- Hadd by lia.
    apply Qlt_le_weak, (Qlt_le_trans _ _ _ Hhi), pow2_le. lia.
  - intros He. apply round_half_even_ge. apply Qle_shift_div_l; [done |].
    rewrite Qmult_comm, <- Hadd by lia.
    apply (Qle_trans _ (Py.pow2 (Py.ilog2 x))); [apply pow2_le; lia | done].
Qed.

(** No integer is nearer to [t] than [round_half_even t]. *)
Lemma round_half_even_nearest (t : Q) (k : Z) :
  (Qabs (inject_Z (Py.round_half_even t) - t) <= Qabs (inject_Z k - t))%Q.
Proof.
  destruct (round_half_even_near t) as [Hlo Hhi].
  set (m := Py.round_half_even t) in *.
  destruct (Z.eq_dec k m) as [-> | Hne]; [apply Qle_refl |].
  apply Qabs_Qle_condition.
  destruct (Z_lt_le_dec k m) as [Hlt | Hge].
  - assert (inject_Z k + 1 <= inject_Z m)%Q as Hstep.
    { change 1%Q with (inject_Z 1). rewrite <- inject_Z_plus, <- Zle_Qle. lia. }
    assert (inject_Z k - t <= 0)%Q as Hneg by lra.
    rewrite (Qabs_neg _ Hneg). split; lra.
  - assert (inject_Z m + 1 <= inject_Z k)%Q as Hstep.
    { change 1%Q with (inject_Z 1). rewrite <- inject_Z_plus, <- Zle_Qle. lia. }
    assert (0 <= inject_Z k - t)%Q as Hpos by lra.
    rewrite (Qabs_pos _ Hpos). split; lra.
Qed.

Lemma pow2_add (e a : Z) :
  0 <= a -> (Py.pow2 (e + a) == Py.pow2 e * inject_Z (2 ^ a))%Q.
Proof.
  intros Ha. unfold Py.pow2. rewrite Qpower_plus by done.
  by rewrite <- (Zpower_Qpower 2 a).
Qed.

(** Below the overflow range the result of rounding is a binary64
    number. *)
Lemma round_f64_is_f64 (x : Q) :
  (0 < x)%Q -> (x < Py.pow2 1023)%Q -> is_f64 (Py.round_f64 x).
Proof.
  intros Hx Hmax. destruct (round_f64_mantissa x Hx) as (m & -> & [Hm0 Hm] & _).
  pose proof (ilog2_spec x Hx) as [Hlo _].
  assert (Py.ilog2 x < 1023) as Hl.
  { destruct (Z_lt_le_dec (Py.ilog2 x) 1023) as [? | Hge]; [done |].
    pose proof (pow2_le _ _ Hge). lra. }
  set (e := Z.max (Py.ilog2 x - 52) (-1074)).
  destruct (Z.eq_dec m (2 ^ 53)) as [-> | Hne].
  - exists (2 ^ 52), (e + 1). split; [lia |]. split; [done |].
    rewrite pow2_succ. change (inject_Z (2 ^ 53)) with (2 * inject_Z (2 ^ 52))%Q. ring.
  - exists m, e. split; [lia |]. split; [lia | reflexivity].
Qed.

(** No binary64 number is nearer to [x] than [round_f64 x]. *)
Lemma round_f64_nearest (x z : Q) :
  (0 < x)%Q -> is_f64 z ->
  (Qabs (Py.round_f64 x - x) <= Qabs (z - x))%Q.
Proof.
  intros Hx (m' & e' & [He' _] & Hm' & Hz).
  pose proof (ilog2_spec x Hx) as [Hlo Hhi].
  assert (Py.round_f64 x
          = (inject_Z (Py.round_half_even
                         (x / Py.pow2 (Z.max (Py.ilog2 x - 52) (-1074))))
             * Py.pow2 (Z.max (Py.ilog2 x - 52) (-1074)))%Q) as ->.
  { unfold Py.round_f64. by destruct x as [[| p | p] q]. }
  set (e := Z.max (Py.ilog2 x - 52) (-1074)) in *.
  pose proof (pow2_pos e) as HP.
  assert (x / Py.pow2 e * Py.pow2 e == x)%Q as Ht by (field; lra).
  set (t := (x / Py.pow2 e)%Q) in *.
  assert (forall k : Z,
            Qabs (inject_Z (Py.round_half_even t) * Py.pow2 e - x)
            <= Qabs (inject_Z k * Py.pow2 e - x))%Q as Hgrid.
  { intros k. pose proof (round_half_even_nearest t k) as Hnear.
    assert (forall a : Q, Qabs (a * Py.pow2 e - x)
                          == Qabs (a - t) * Py.pow2 e)%Q as Habs.
    { intros a. rewrite <- (Qabs_pos (Py.pow2 e)) at 2 by lra.
      rewrite <- Qabs_Qmult. apply Qabs_wd. rewrite <- Ht. ring. }
    rewrite !Habs. apply Qmult_le_compat_r; [exact Hnear | lra]. }
  destruct (Z_le_gt_dec e e') as [Hle | Hgt].
  - rewrite Hz. replace e' with (e + (e' - e)) by lia.
    rewrite pow2_add by lia.
    assert (inject_Z m' * (Py.pow2 e * inject_Z (2 ^ (e' - e)))
            == inject_Z (m' * 2 ^ (e' - e)) * Py.pow2 e)%Q as ->.
    { rewrite inject_Z_mult. ring. }
    apply Hgrid.
  - assert (e = Py.ilog2 x - 52) as Hnormal by lia.
    assert (Py.pow2 (Py.ilog2 x) == inject_Z (2 ^ 52) * Py.pow2 e)%Q as Hl.
    { replace (Py.ilog2 x) with (e + 52) at 1 by lia.
      rewrite pow2_add by lia. ring. }
    assert (z < Py.pow2 (Py.ilog2 x))%Q as Hbelow.
    { rewrite Hz.
      apply (Qle_lt_trans _ (inject_Z (Z.abs m') * Py.pow2 e')).
      - apply Qmult_le_compat_r; [| pose proof (pow2_pos e'); lra].
        rewrite <- Zle_Qle. lia.
      - replace (Py.ilog2 x) with ((e - 1) + 53) by lia.
        rewrite pow2_add by lia.
        pose proof (pow2_le e' (e - 1) ltac:(lia)) as Hee.
        pose proof (pow2_pos e') as HP'.
        assert (inject_Z (Z.abs m') + 1 <= inject_Z (2 ^ 53))%Q as Hm1.
        { change 1%Q with (inject_Z 1). rewrite <- inject_Z_plus, <- Zle_Qle. lia. }
        assert (0 <= inject_Z (Z.abs m'))%Q as Hm0.
        { change 0%Q with (inject_Z 0). rewrite <- Zle_Qle. lia. }
        set (A := inject_Z (Z.abs m')) in *. set (B := inject_Z (2 ^ 53)) in *.
        set (P' := Py.pow2 e') in *. set (P1 := Py.pow2 (e - 1)) in *.
        clearbody A B P' P1.
        assert (0 <= A * (P1 - P'))%Q by (apply Qmult_le_0_compat; lra).
        assert (0 < (B - A) * P1)%Q by (apply Qmult_lt_0_compat; lra).
        nra. }
    apply (Qle_trans _ _ _ (Hgrid (2 ^ 52))).
    rewrite <- Hl.
    assert (Py.pow2 (Py.ilog2 x) - x <= 0)%Q as Hneg by lra.
    rewrite (Qabs_neg _ Hneg).
    assert (z - x <= 0)%Q as Hneg' by lra.
    rewrite (Qabs_neg _ Hneg'). lra.
Qed.

(** Rounding a number that is not negative, below the overflow range,
    is correct rounding. *)
Lemma round_f64_correct (x : Q) :
  (0 <= x)%Q -> (x < Py.pow2 1023)%Q -> nearest_f64 x (Py.round_f64 x).
Proof.
  intros Hx Hmax. destruct (Qlt_le_dec 0 x) as [Hpos | Hzero].
  - split; [by apply round_f64_is_f64 |]. intros z Hz. by apply round_f64_nearest.
  - assert (Py.round_f64 x = 0%Q) as ->.
    { unfold Py.round_f64. destruct x as [[| p | p] q]; done. }
    split.
    + exists 0, 0. split; [lia |]. split; [done | reflexivity].
    + intros z _. assert (0 - x == 0)%Q as -> by lra. apply Qabs_nonneg.
Qed.

(** Halfway between two integers the even one is taken. *)
Lemma round_half_even_tie (t : Q) :
  (t - inject_Z (Qfloor t) == 1 # 2)%Q -> Z.even (Py.round_half_even t) = true.
Proof.
  intros Hhalf. unfold Py.round_half_even.
  assert (Qle_bool (t - inject_Z (Qfloor t)) (1 # 2) = true) as ->.
  { apply Qle_bool_iff. lra. }
  assert (Qeq_bool (t - inject_Z (Qfloor t)) (1 # 2) = true) as ->.
  { by apply Qeq_bool_iff. }
  destruct (Z.even (Qfloor t)) eqn:Heven; [done |].
  rewrite Z.even_add, Heven. reflexivity.
Qed.

(** The binary64 score lies in [0, 100] and differs from [k / n * 100]
    by less than [2 ** -45]. *)
Lemma score_float_near (k n : Z) :
  0 <= k <= n -> 0 < n ->
  let sc := (inject_Z k / inject_Z n * 100)%Q in
  (0 <= score_float k n /\ score_float k n <= 100
   /\ sc - (1 # 2 ^ 45) <= score_float k n
   /\ score_float k n <= sc + (1 # 2 ^ 45))%Q.
Proof.
  intros Hk Hn sc. unfold score_float, Py.fmul, Py.true_div.
  set (x := (inject_Z k / inject_Z n)%Q).
  assert (0 <= x /\ x <= 1)%Q as [Hx0 Hx1].
  { subst x. assert (0 < inject_Z n)%Q as Hn'.
    { change 0%Q with (inject_Z 0). by rewrite <- Zlt_Qlt. }
    split.
    - apply Qle_shift_div_l; [done |]. rewrite Qmult_0_l.
      change 0%Q with (inject_Z 0). rewrite <- Zle_Qle. lia.
    - apply Qle_shift_div_r; [done |]. rewrite Qmult_1_l.
      rewrite <- Zle_Qle. lia. }
  destruct (round_f64_range x 1 1) as [Hy0 Hy1]; [done | done | | lia |].
  { change (inject_Z (2 ^ 1)) with 2%Q. lra. }
  destruct (round_f64_near0 x 1) as [Hylo Hyhi]; [done | | lia |].
  { change (inject_Z (2 ^ 1)) with 2%Q. lra. }
  set (y := Py.round_f64 x) in *. change (inject_Z 1) with 1%Q in Hy1.
  destruct (round_f64_range (y * 100) 100 7) as [Hz0 Hz1]; [lra | | | lia |].
  { change (inject_Z 100) with 100%Q. lra. }
  { change (inject_Z (2 ^ 7)) with 128%Q. lra. }
  destruct (round_f64_near0 (y * 100) 7) as [Hzlo Hzhi]; [lra | | lia |].
  { change (inject_Z (2 ^ 7)) with 128%Q. lra. }
  set (z := Py.round_f64 (y * 100)) in *. change (inject_Z 100) with 100%Q in Hz1.
  assert (Py.pow2 (1 - 54) == 1 # 9007199254740992)%Q as H53 by reflexivity.
  assert (Py.pow2 (7 - 54) == 1 # 140737488355328)%Q as H47 by reflexivity.
  rewrite H53 in Hylo, Hyhi. rewrite H47 in Hzlo, Hzhi.
  subst sc. fold x. change (1 # 2 ^ 45)%Q with (1 # 35184372088832)%Q.
  clearbody x y z. repeat split; lra.
Qed.

(** The binary64 score is the result of two correctly rounded
    operations: the quotient, then its product with 100. *)
Lemma score_float_rounded (k n : Z) :
  0 <= k <= n -> 0 < n ->
  nearest_f64 (inject_Z k / inject_Z n) (Py.true_div k n)
  /\ nearest_f64 (Py.true_div k n * 100) (score_float k n).
Proof.
  intros Hk Hn. unfold score_float, Py.fmul, Py.true_div.
  set (x := (inject_Z k / inject_Z n)%Q).
  assert (0 <= x /\ x <= 1)%Q as [Hx0 Hx1].
  { subst x. assert (0 < inject_Z n)%Q as Hn'.
    { change 0%Q with (inject_Z 0). by rewrite <- Zlt_Qlt. }
    split.
    - apply Qle_shift_div_l; [done |]. rewrite Qmult_0_l.
      change 0%Q with (inject_Z 0). rewrite <- Zle_Qle. lia.
    - apply Qle_shift_div_r; [done |]. rewrite Qmult_1_l.
      rewrite <- Zle_Qle. lia. }
  destruct (round_f64_range x 1 1) as [Hy0 Hy1]; [done | done | | lia |].
  { change (inject_Z (2 ^ 1)) with 2%Q. lra. }
  change (inject_Z 1) with 1%Q in Hy1.
  assert (128 <= Py.pow2 1023)%Q as Hbig.
  { change 128%Q with (inject_Z (2 ^ 7)). rewrite <- pow2_inject by lia.
    apply pow2_le. lia. }
  split; apply round_f64_correct; lra.
Qed.

(** The format [.1f] shows a tenth nearest to the number formatted. *)
Lemma round1_near (x : Q) :
  (inject_Z (Py.round1 x) - (1 # 2) <= 10 * x
   /\ 10 * x <= inject_Z (Py.round1 x) + (1 # 2))%Q.
Proof.
  unfold Py.round1. destruct (round_half_even_near (x * 10)) as [Hlo Hhi].
  split; lra.
Qed.

(** For a quiz of at most [2 ** 40] questions the error of the binary64
    score is too small to carry the display past a nearest tenth of the
    exact score. *)
Lemma shown_tenths_nearest (k n d : Z) (fs : Q) :
  0 < n <= 2 ^ 40 ->
  let sc := (inject_Z k / inject_Z n * 100)%Q in
  (sc - (1 # 2 ^ 45) <= fs)%Q -> (fs <= sc + (1 # 2 ^ 45))%Q ->
  (inject_Z d - (1 # 2) <= 10 * fs)%Q -> (10 * fs <= inject_Z d + (1 # 2))%Q ->
  (inject_Z d - (1 # 2) <= 10 * sc /\ 10 * sc <= inject_Z d + (1 # 2))%Q.
Proof.
  intros Hn sc Hlo Hhi Hdlo Hdhi.
  assert (0 < inject_Z n)%Q as HN.
  { change 0%Q with (inject_Z 0). rewrite <- Zlt_Qlt. lia. }
  assert (inject_Z n <= inject_Z (2 ^ 40))%Q as HN40 by (rewrite <- Zle_Qle; lia).
  assert (10 * sc * inject_Z n == inject_Z (1000 * k))%Q as Hsc.
  { subst sc. rewrite inject_Z_mult. field. lra. }
  assert (forall a b : Z, (inject_Z a < inject_Z b)%Q ->
            (inject_Z a + 1 <= inject_Z b)%Q) as Hstep.
  { intros a b Hab. rewrite <- Zlt_Qlt in Hab.
    change 1%Q with (inject_Z 1). rewrite <- inject_Z_plus, <- Zle_Qle. lia. }
  change (inject_Z (2 ^ 40)) with (1099511627776 # 1)%Q in HN40.
  change (1 # 2 ^ 45)%Q with (1 # 35184372088832)%Q in Hlo, Hhi.
  set (D := inject_Z d) in *. set (N := inject_Z n) in *.
  split.
  - destruct (Qlt_le_dec (10 * sc) (D - (1 # 2))) as [Hbad | Hok]; [| exact Hok].
    exfalso.
    assert (inject_Z (2000 * k + n) < inject_Z (2 * d * n))%Q as Hz.
    { rewrite inject_Z_plus, !inject_Z_mult. fold D N.
      change (inject_Z 2000) with (2 * inject_Z 1000)%Q.
      rewrite inject_Z_mult in Hsc.
      assert (0 < (D - (1 # 2) - 10 * sc) * N)%Q as Hp
        by (apply Qmult_lt_0_compat; lra).
      change (inject_Z 2) with 2%Q. nra. }
    apply Hstep in Hz. rewrite inject_Z_plus, !inject_Z_mult in Hz. fold D N in Hz.
    rewrite inject_Z_mult in Hsc.
    change (inject_Z 2000) with (2 * inject_Z 1000)%Q in Hz.
    change (inject_Z 2) with 2%Q in Hz.
    assert (0 <= (10 * sc + (10 # 35184372088832) - (D - (1 # 2))) * N)%Q as Hp
      by (apply Qmult_le_0_compat; lra).
    nra.
  - destruct (Qlt_le_dec (D + (1 # 2)) (10 * sc)) as [Hbad | Hok]; [| exact Hok].
    exfalso.
    assert (inject_Z ((2 * d + 1) * n) < inject_Z (2000 * k))%Q as Hz.
    { rewrite !inject_Z_mult, inject_Z_plus, !inject_Z_mult. fold D N.
      change (inject_Z 2000) with (2 * inject_Z 1000)%Q.
      rewrite inject_Z_mult in Hsc.
      assert (0 < (10 * sc - (D + (1 # 2))) * N)%Q as Hp
        by (apply Qmult_lt_0_compat; lra).
      change (inject_Z 2) with 2%Q. change (inject_Z 1) with 1%Q. nra. }
    apply Hstep in Hz. rewrite !inject_Z_mult, inject_Z_plus, !inject_Z_mult in Hz.
    fold D N in Hz.
    rewrite inject_Z_mult in Hsc.
    change (inject_Z 2000) with (2 * inject_Z 1000)%Q in Hz.
    change (inject_Z 2) with 2%Q in Hz. change (inject_Z 1) with 1%Q in Hz.
    assert (0 <= (D + (1 # 2) - (10 * sc - (10 # 35184372088832))) * N)%Q as Hp
      by (apply Qmult_le_0_compat; lra).
    nra.
Qed.

(** C9.  Submitting a quiz of [n >= 1] questions of which [k] are
    answered with their [correct] value records the score [k / n * 100],
    between 0 and 100, and appends exactly one attempt with that score
    and the quiz topic to the user's history.  The score is shown rounded
    to one decimal: the tenths shown are a nearest integer to ten times
    the binary64 score.  That float is [k / n] correctly rounded, times
    100, correctly rounded; it lies in [0, 100] within [2 ** -45] of
    [k / n * 100], and up to [2 ** 40] questions the tenths shown are a
    nearest integer to ten times [k / n * 100] itself. *)
Theorem quiz_submission (stamp : string) (s : session) (quiz : json)
    (questions : list json) (u : string) (st : user_stats) :
  current_quiz s = Some quiz ->
  getitem quiz "questions" = inr (JList questions) ->
  questions <> [] ->
  forallb (has_key "correct") questions = true ->
  current_user s = Some u ->
  user_data s !! u = Some st ->
  let k := matching (quiz_answers s) questions in
  let n := Z.of_nat (length questions) in
  let sc := (inject_Z k / inject_Z n * 100)%Q in
  exists r s' st' tenths feedback,
    submit_quiz stamp s = (r, s')
    /\ (0 <= sc <= 100)%Q
    /\ quiz_score s' = Some sc
    /\ user_data s' !! u = Some st'
    /\ quiz_history st' =
       quiz_history st ++ [ {| topic := quiz_topic s; score := sc; date := stamp |} ]
    /\ quizzes_taken st' = quizzes_taken st + 1
    /\ total_score st' = (total_score st + sc)%Q
    /\ ui s' = ui s ++ Balloons :: SuccessScore tenths k n :: feedback
    /\ (inject_Z tenths - (1 # 2) <= 10 * score_float k n <= inject_Z tenths + (1 # 2))%Q
    /\ (exists quotient,
          nearest_f64 (inject_Z k / inject_Z n) quotient
          /\ nearest_f64 (quotient * 100) (score_float k n))
    /\ (0 <= score_float k n <= 100)%Q
    /\ (sc - (1 # 2 ^ 45) <= score_float k n <= sc + (1 # 2 ^ 45))%Q
    /\ (n <= 2 ^ 40 ->
        (inject_Z tenths - (1 # 2) <= 10 * sc <= inject_Z tenths + (1 # 2))%Q)
    /\ (forallb (has_key "explanation") questions = true -> r = inr tt).
Proof.
  intros Hquiz Hqs Hne Hkeys Hu Hst k n sc.
  assert (0 < n) as Hn.
  { subst n. destruct questions; [done | simpl; lia]. }
  assert (0 <= k <= n) as Hk by apply matching_bounds.
  unfold submit_quiz. unfold bind at 1. unfold get at 1. rewrite Hquiz.
  unfold bind at 1. unfold lift at 1. rewrite Hqs.
  unfold bind at 1. unfold lift at 1. cbn [iter].
  unfold bind at 1. unfold lift at 1.
  rewrite count_correct_matching by done. rewrite Z.add_0_l.
  change (Z.of_nat (length (filter _ _))) with k.
  unfold bind at 1. unfold lift at 1. cbn [len]. fold n.
  unfold bind at 1. unfold lift at 1. unfold compute_score.
  replace (n =? 0) with false by (symmetry; apply Z.eqb_neq; lia).
  fold sc.
  unfold bind at 1. unfold modify at 1.
  unfold bind at 1.
  rewrite (record_quiz_attempt_eq sc stamp _ u st) by done.
  unfold bind at 1. unfold show at 1, modify at 1.
  unfold bind at 1. unfold show at 1, modify at 1.
  match goal with
  | |- context [show_feedback ?a ?i ?q ?s0] =>
      destruct (show_feedback_frame a q i s0) as (r & extra & -> & Hok)
  end.
  destruct (score_float_near k n Hk Hn) as (Hf0 & Hf100 & Hflo & Hfhi).
  fold sc in Hflo, Hfhi.
  destruct (round1_near (score_float k n)) as [Hdlo Hdhi].
  eexists r, _, _, (Py.round1 (score_float k n)), extra.
  split; [reflexivity |].
  split; [apply score_range; [exact Hk | done] |].
  simpl. rewrite lookup_insert_eq.
  split; [done |]. split; [done |]. split; [done |]. split; [done |].
  split; [done |]. split; [by rewrite <- !app_assoc |].
  split; [done |].
  split; [exists (Py.true_div k n); by apply score_float_rounded |].
  split; [done |]. split; [done |]. split.
  - intros Hsmall. by apply (shown_tenths_nearest k n _ (score_float k n)).
  - intros He. by apply Hok.
Qed.

Lemma quiz_submission_witness :
  let s := snd (render_questions Demo.picks Demo.session_quiz) in
  let questions :=
    [ Demo.question "first?" "A"; Demo.question "second?" "B";
      Demo.question "third?" "C" ] in
  let k := matching (quiz_answers s) questions in
  let n := Z.of_nat (length questions) in
  let sc := (inject_Z k / inject_Z n * 100)%Q in
  exists r s' st' tenths feedback,
    submit_quiz "2026-01-01 10:00" s = (r, s')
    /\ (0 <= sc <= 100)%Q
    /\ quiz_score s' = Some sc
    /\ user_data s' !! "ada" = Some st'
    /\ quiz_history st' =
       quiz_history fresh_user_stats
       ++ [ {| topic := quiz_topic s; score := sc; date := "2026-01-01 10:00" |} ]
    /\ quizzes_taken st' = quizzes_taken fresh_user_stats + 1
    /\ total_score st' = (total_score fresh_user_stats + sc)%Q
    /\ ui s' = ui s ++ Balloons :: SuccessScore tenths k n :: feedback
    /\ (inject_Z tenths - (1 # 2) <= 10 * score_float k n <= inject_Z tenths + (1 # 2))%Q
    /\ (exists quotient,
          nearest_f64 (inject_Z k / inject_Z n) quotient
          /\ nearest_f64 (quotient * 100) (score_float k n))
    /\ (0 <= score_float k n <= 100)%Q
    /\ (sc - (1 # 2 ^ 45) <= score_float k n <= sc + (1 # 2 ^ 45))%Q
    /\ (n <= 2 ^ 40 ->
        (inject_Z tenths - (1 # 2) <= 10 * sc <= inject_Z tenths + (1 # 2))%Q)
    /\ (forallb (has_key "explanation") questions = true -> r = inr tt).
Proof.
  intros s questions.
  apply (quiz_submission "2026-01-01 10:00" s Demo.quiz3 questions "ada"
           fresh_user_stats).
  - reflexivity.
  - reflexivity.
  - discriminate.
  - reflexivity.
  - reflexivity.
  - reflexivity.
Defined.

(** Two answers of three match: the score is 200/3, shown as 66.7, and
    one attempt on the quiz topic is in the history. *)
Example two_of_three :
  let s := snd (render_questions Demo.picks Demo.session_quiz) in
  let run := submit_quiz "2026-01-01 10:00" s in
  fst run = inr tt
  /\ quiz_score (snd run) = Some (200 # 3)%Q
  /\ ui (snd run) =
     [ Balloons; SuccessScore 667 2 3; SuccessQuestion 0; SuccessQuestion 1;
       ErrQuestion 2 (JStr "C"); InfoExplanation (JStr "because") ]
  /\ (quiz_history <$> user_data (snd run) !! "ada") =
     Some [ {| topic := "Python Basics"; score := (200 # 3)%Q;
               date := "2026-01-01 10:00" |} ].
Proof. vm_compute. repeat split; reflexivity. Qed.

(** The digit shown follows the binary64 score, not the exact ratio:
    2 of 3 is shown as 66.7; 23 of 80 is exactly 28.75, which would round
    to the even 28.8, but the float below it is shown as 28.7; 49 of 80,
    exactly 61.25, is a float above it and is shown as 61.3. *)
Example shown_scores :
  Py.round1 (score_float 2 3) = 667
  /\ Py.round1 (score_float 23 80) = 287
  /\ Py.round1 ((23 # 80) * 100) = 288
  /\ Py.round1 (score_float 49 80) = 613
  /\ Py.round1 ((49 # 80) * 100) = 612.
Proof. vm_compute. repeat split; reflexivity. Qed.

(** Rounding to binary64: one tenth, one third, 200/3 in one step and
    as [(2 / 3) * 100] in two, and a number that is a float already. *)
Example round_f64_values :
  (Py.round_f64 (1 # 10) == 3602879701896397 # 36028797018963968)%Q
  /\ (Py.round_f64 (1 # 3) == 6004799503160661 # 18014398509481984)%Q
  /\ (Py.round_f64 (200 # 3) == 4691249611844267 # 70368744177664)%Q
  /\ (score_float 2 3 == 2345624805922133 # 35184372088832)%Q
  /\ (Py.round_f64 (3 # 4) == 3 # 4)%Q.
Proof. vm_compute. repeat split; reflexivity. Qed.

(** An empty question list divides by zero and records nothing. *)
Example submit_empty_quiz :
  let s := set_current_quiz (Some (JDict [("questions", JList [])])) Demo.session_quiz in
  submit_quiz "2026-01-01 10:00" s = (inl (ZeroDivisionError "division by zero"), s).
Proof. vm_compute. reflexivity. Qed.

(** ** Which answers count *)

(** The question loop stores the first character of each selection. *)
Lemma store_answers_spec (selected : nat -> string) (questions : list json) :
  forallb (has_key "question") questions = true ->
  forallb (has_key "options") questions = true ->
  forall (idx : nat) (s : session),
  (forall i, (i < length questions)%nat -> selected (idx + i)%nat <> "") ->
  exists answers,
    store_answers selected idx questions s = (inr tt, set_quiz_answers answers s)
    /\ (forall i, (i < length questions)%nat ->
          answers !! (idx + i)%nat = Some (Py.take 1 (selected (idx + i)%nat)))
    /\ (forall j, (j < idx)%nat -> answers !! j = quiz_answers s !! j).
Proof.
  induction questions as [| q r IH]; intros Hq Ho idx s Hsel.
  - exists (quiz_answers s). simpl. unfold ret.
    split; [by destruct s |]. split; [intros i Hi; simpl in Hi; lia | done].
  - cbn [forallb] in Hq, Ho.
    apply andb_true_iff in Hq as [Hq Hqr]. apply andb_true_iff in Ho as [Ho Hor].
    cbn [store_answers]. unfold bind at 1. unfold lift at 1.
    unfold has_key in Hq, Ho.
    destruct (getitem q "question"); [done |].
    unfold bind at 1. unfold lift at 1.
    destruct (getitem q "options"); [done |].
    pose proof (Hsel O ltac:(simpl; lia)) as H0. rewrite Nat.add_0_r in H0.
    destruct (selected idx) as [| ch rest] eqn:Hch; [done |].
    unfold bind at 1. unfold modify at 1.
    set (s1 := set_quiz_answers _ s).
    destruct (IH Hqr Hor (S idx) s1) as (answers & Hrun & Hnew & Hold).
    { intros i Hi. replace (S idx + i)%nat with (idx + S i)%nat by lia.
      apply Hsel. simpl. lia. }
    exists answers. rewrite Hrun. split; [done |]. split.
    + intros [| i] Hi.
      * rewrite Nat.add_0_r, Hold by lia. subst s1. simpl.
        rewrite lookup_insert_eq, Hch. done.
      * replace (idx + S i)%nat with (S idx + i)%nat by lia.
        apply Hnew. simpl in Hi. lia.
    + intros j' Hj'. rewrite Hold by lia. subst s1. simpl.
      apply lookup_insert_ne. lia.
Qed.



(** Every question answered with an option tagged [A]: a [correct]
    value of [a] or of [A] after a space does not match, only [A] does,
    and the submission counts one answer of three. *)
Example tags_compared_exactly :
  let s := snd (render_questions (fun _ => "A) one")
                  (set_current_quiz (Some Demo.quiz_tags) Demo.session_quiz)) in
  answer_matches (quiz_answers s) 0 (Demo.question "first?" "a") = inr false
  /\ answer_matches (quiz_answers s) 1 (Demo.question "second?" " A") = inr false
  /\ answer_matches (quiz_answers s) 2 (Demo.question "third?" "A") = inr true
  /\ quiz_score (snd (submit_quiz "2026-01-01 10:00" s)) = Some (100 # 3)%Q.
Proof. vm_compute. repeat split; reflexivity. Qed.

(** ** End-to-end scenarios *)

(** A fenced block with three well-formed questions comes back as the
    quiz, after one permit, one model listing and one generation call. *)
Example quiz_from_fenced_response :
  let E := Demo.env (fence_json (Json.dumps Demo.quiz3)) in
  let run := generate_quiz E (100 # 1) "Python Basics" "Easy" 3 Demo.session0 in
  fst run = inr (Some Demo.quiz3)
  /\ request_count (snd run) = 1
  /\ working_model (snd run) = Some "gemini-1.5-flash"
  /\ ui (snd run) = [InfoUsingModel "gemini-1.5-flash"]
  /\ filter (fun c => outbound c = true) (calls (snd run))
     = [ CallListModels;
         CallGenerateContent "gemini-1.5-flash" (quiz_prompt "Python Basics" "Easy" 3) ].
Proof. vm_compute. repeat split; reflexivity. Qed.

(** A course comes back with its three metadata entries. *)
Example course_from_bare_response :
  let E := Demo.env (Json.dumps Demo.course) in
  fst (generate_course E (100 # 1) "2026-01-01" "Python" "Beginner" "1 week"
         Demo.session0)
  = inr (Some (JDict (stamped "2026-01-01" "Python" "Beginner"
                        [ ("title", JStr "Python Basics");
                          ("description", JStr "An introduction");
                          ("modules",
                           JList [ JDict [ ("name", JStr "Start");
                                           ("topics", JList [JStr "Syntax"; JStr "Types"]);
                                           ("duration", JStr "2 days") ] ]);
                          ("learning_outcomes", JList [JStr "Write scripts"]);
                          ("prerequisites", JList []) ]))).
Proof. vm_compute. reflexivity. Qed.

(** Ten requests counted 30 seconds ago: the course request is refused
    with a wait of 30 seconds and only the local [configure] call made. *)
Example course_rate_limited :
  generate_course (Demo.env "{}") (130 # 1) "2026-01-01" "Python" "Beginner" "1 week"
    Demo.session_full
  = (inr None,
     shown (WarnRateLimit 30) (set_calls [CallConfigure "key"] Demo.session_full)).
Proof. vm_compute. reflexivity. Qed.

(** A decoded list is not a course: the first assignment raises and the
    request fails as a decoding error does. *)
Example course_from_list_response :
  let run := generate_course (Demo.env "[1, 2]") (100 # 1) "2026-01-01" "Python"
               "Beginner" "1 week" Demo.session0 in
  fst run = inr None
  /\ ui (snd run) =
     [ InfoUsingModel "gemini-1.5-flash";
       ErrGeneratingCourse "list indices must be integers or slices, not str" ].
Proof. vm_compute. repeat split; reflexivity. Qed.


(** * More of the script *)

(** ** The rate limiter, further *)

(** The four ways a permit check can go. *)
Lemma rate_limit_check_cases (now : Q) (s : session) :
  ((60 < now - last_request_time s)%Q
   /\ rate_limit_check now s =
      (inr true,
       set_request_count 1 (set_last_request_time now (set_request_count 0 s))))
  \/ ((now - last_request_time s < 60)%Q /\ request_count s < 10
      /\ rate_limit_check now s =
         (inr true, set_request_count (request_count s + 1) s))
  \/ ((now - last_request_time s < 60)%Q /\ 10 <= request_count s
      /\ rate_limit_check now s =
         (inr false,
          set_ui (ui s ++ [WarnRateLimit (Py.int (60 - (now - last_request_time s)))]) s))
  \/ ((now - last_request_time s == 60)%Q
      /\ rate_limit_check now s =
         (inr true, set_request_count (request_count s + 1) s)).
Proof.
  destruct (Qlt_le_dec 60 (now - last_request_time s)) as [Hgt | Hle].
  { left. split; [done |]. by apply rate_limit_check_reset. }
  destruct (Qlt_le_dec (now - last_request_time s) 60) as [Hlt | Hge].
  - destruct (Z_lt_le_dec (request_count s) 10) as [Hsmall | Hfull].
    + right. left. repeat split; try done. apply rate_limit_check_count; [lra | done].
    + right. right. left. repeat split; try done. by apply rate_limit_check_deny.
  - right. right. right. assert (now - last_request_time s == 60)%Q as Heq by lra.
    split; [done |]. by apply rate_limit_check_boundary.
Qed.

(** X1.  A permit check is refused exactly when ten or more requests
    are counted and less than 60 seconds have passed since the window
    start; in every other case it is granted. *)
Theorem rate_limit_denied_iff (now : Q) (s : session) :
  (fst (rate_limit_check now s) = inr false
   <-> 10 <= request_count s /\ (now - last_request_time s < 60)%Q)
  /\ (fst (rate_limit_check now s) = inr true
      <-> request_count s < 10 \/ (60 <= now - last_request_time s)%Q).
Proof.
  destruct (rate_limit_check_cases now s)
    as [[He ->] | [(He & Hc & ->) | [(He & Hc & ->) | [He ->]]]]; simpl.
  - split; split; try done; [intros [_ H]; lra | intros _; right; lra].
  - split; split; try done; [intros [H _]; lia | auto].
  - split; split; try done. intros [H | H]; [lia | lra].
  - split; split; try done; [intros [_ H]; lra | intros _; right; lra].
Qed.

Lemma int_bounds (x : Q) : (0 <= x)%Q -> (x <= 60)%Q -> 0 <= Py.int x <= 60.
Proof.
  intros H0 H60. unfold Py.int.
  assert (0 <= Qnum x) as Hnum.
  { unfold Qle in H0. simpl in H0. lia. }
  rewrite Z.quot_div_nonneg by lia.
  assert (Qnum x / Z.pos (Qden x) = Qfloor x) as -> by (by destruct x).
  split.
  - change 0 with (Qfloor 0). by apply Qfloor_resp_le.
  - change 60 with (Qfloor 60). by apply Qfloor_resp_le.
Qed.

(** X2.  A refused check leaves the counter and the window start as
    they were and writes one warning; when the clock is not behind the
    window start, the wait it shows is between 0 and 60 whole seconds. *)
Theorem rate_limit_denial_effect (now : Q) (s s' : session) :
  rate_limit_check now s = (inr false, s') ->
  s' = shown (WarnRateLimit (Py.int (60 - (now - last_request_time s)))) s
  /\ request_count s' = request_count s
  /\ last_request_time s' = last_request_time s
  /\ ((last_request_time s <= now)%Q ->
      0 <= Py.int (60 - (now - last_request_time s)) <= 60).
Proof.
  intros Hrun.
  destruct (rate_limit_check_cases now s)
    as [[He Heq] | [(He & Hc & Heq) | [(He & Hc & Heq) | [He Heq]]]];
    rewrite Heq in Hrun; try done.
  injection Hrun as <-. do 3 (split; [done |]).
  intros Hclock. apply int_bounds; lra.
Qed.

Lemma rate_limit_denial_effect_witness :
  let s' := shown (WarnRateLimit 30) Demo.session_full in
  s' = shown (WarnRateLimit (Py.int (60 - ((130 # 1) - last_request_time Demo.session_full))))
         Demo.session_full
  /\ request_count s' = request_count Demo.session_full
  /\ last_request_time s' = last_request_time Demo.session_full
  /\ ((last_request_time Demo.session_full <= (130 # 1))%Q ->
      0 <= Py.int (60 - ((130 # 1) - last_request_time Demo.session_full)) <= 60).
Proof.
  intros s'. apply (rate_limit_denial_effect (130 # 1) Demo.session_full s').
  vm_compute. reflexivity.
Defined.

(** X3.  The window is fixed, not sliding: ten checks inside one window
    and ten more starting just after it ends are all granted, however
    close together the twenty are. *)
Theorem burst_across_windows (s : session) (before after : list Q) (t : Q) :
  request_count s = 0 ->
  length before = 10%nat ->
  Forall (fun now => (now - last_request_time s <= 60)%Q) before ->
  (60 < t - last_request_time s)%Q ->
  length after = 9%nat ->
  Forall (fun now => (now - t <= 60)%Q) after ->
  exists s',
    permits (before ++ t :: after) s = (inr (repeat true 20), s')
    /\ request_count s' = 10
    /\ last_request_time s' = t.
Proof.
  intros Hfresh Hb Hwin Ht Ha Hwin'.
  eexists. rewrite permits_app.
  rewrite permits_within_window by (try done; rewrite Hfresh, Hb; lia).
  rewrite Hfresh, Hb. cbn [permits]. unfold bind at 1.
  rewrite rate_limit_check_reset by (simpl; done).
  unfold bind at 1.
  rewrite permits_within_window by (simpl; try done; rewrite Ha; lia).
  rewrite Ha. unfold ret. simpl. done.
Qed.

Lemma burst_across_windows_witness :
  exists s',
    permits (repeat (320 # 2)%Q 10 ++ (321 # 2)%Q :: repeat (322 # 2)%Q 9)
      (set_last_request_time (100 # 1) Demo.session0)
    = (inr (repeat true 20), s')
    /\ request_count s' = 10
    /\ last_request_time s' = (321 # 2)%Q.
Proof.
  apply (burst_across_windows (set_last_request_time (100 # 1) Demo.session0)
           (repeat (320 # 2)%Q 10) (repeat (322 # 2)%Q 9) (321 # 2)%Q).
  - reflexivity.
  - reflexivity.
  - repeat constructor; vm_compute; discriminate.
  - reflexivity.
  - reflexivity.
  - repeat constructor; vm_compute; discriminate.
Defined.

(** ** Cleaning a response, further *)

Lemma rstrip_last (t : string) (d : ascii) :
  last_char t = Some d -> Py.isspace d = false -> Py.rstrip t = t.
Proof.
  revert d. induction t as [| x t IH]; intros d Ht Hd; [done |].
  simpl in *. destruct t as [| y t].
  - injection Ht as ->. by rewrite Hd.
  - by rewrite (IH d).
Qed.

Lemma lstrip_prefix (s : string) : exists a, s = a +:+ Py.lstrip s.
Proof.
  induction s as [| c s [a IH]]; [by exists "" |].
  simpl. destruct (Py.isspace c).
  - exists (String c a). by rewrite app_String, <- IH.
  - by exists "".
Qed.

Lemma rstrip_suffix (s : string) : exists b, s = Py.rstrip s +:+ b.
Proof.
  induction s as [| c s [b IH]]; [by exists "" |].
  simpl. destruct (Py.rstrip s) as [| c' r] eqn:Hr.
  - destruct (Py.isspace c).
    + exists (String c b). by rewrite IH.
    + exists b. by rewrite IH.
  - exists b. by rewrite app_String, <- IH.
Qed.

Lemma append_Empty_r (a : string) : a +:+ "" = a.
Proof. induction a as [| c a IH]; [done |]. by rewrite app_String, IH. Qed.

Lemma piece_of_refl (s : string) : piece_of s s.
Proof. exists "", "". by rewrite app_Empty, append_Empty_r. Qed.

Lemma piece_of_trans (x y z : string) : piece_of x y -> piece_of y z -> piece_of x z.
Proof.
  intros (a & b & ->) (a' & b' & ->).
  exists (a' +:+ a), (b +:+ b'). by rewrite !app_assoc'.
Qed.

Lemma piece_of_strip (s : string) : piece_of (Py.strip s) s.
Proof.
  unfold Py.strip. destruct (rstrip_suffix s) as [b Hb].
  destruct (lstrip_prefix (Py.rstrip s)) as [a Ha].
  exists a, b. by rewrite <- app_assoc', <- Ha.
Qed.

Lemma piece_of_drop (n : nat) (s : string) : piece_of (Py.drop n s) s.
Proof.
  exists (Py.take n s), "". by rewrite append_Empty_r, take_drop.
Qed.

Lemma piece_of_take (n : nat) (s : string) : piece_of (Py.take n s) s.
Proof. exists "", (Py.drop n s). by rewrite app_Empty, take_drop. Qed.

(** X4.  Cleaning only cuts at the two ends: the cleaned text is a
    contiguous piece of the response, never rearranged or invented. *)
Theorem clean_response_piece (response_text : string) :
  piece_of (clean_response response_text) response_text.
Proof.
  unfold clean_response.
  set (t0 := Py.strip response_text).
  set (t1 := if Py.startswith "```json" t0 then Py.drop 7 t0 else t0).
  set (t2 := if Py.startswith "```" t1 then Py.drop 3 t1 else t1).
  set (t3 := if Py.endswith "```" t2 then Py.drop_last 3 t2 else t2).
  assert (piece_of t0 response_text) as H0 by apply piece_of_strip.
  assert (piece_of t1 t0) as H1.
  { subst t1. destruct (Py.startswith _ t0);
      [apply piece_of_drop | apply piece_of_refl]. }
  assert (piece_of t2 t1) as H2.
  { subst t2. destruct (Py.startswith _ t1);
      [apply piece_of_drop | apply piece_of_refl]. }
  assert (piece_of t3 t2) as H3.
  { subst t3. destruct (Py.endswith _ t2);
      [apply piece_of_take | apply piece_of_refl]. }
  eapply piece_of_trans; [apply piece_of_strip |].
  eapply piece_of_trans; [exact H3 |].
  eapply piece_of_trans; [exact H2 |].
  eapply piece_of_trans; [exact H1 | exact H0].
Qed.

(** X5.  A fence without a language tag is removed like a [json] one. *)
Theorem clean_response_untagged (body : string) :
  clean_response ("```
" +:+ body +:+ "
```") = Py.strip body.
Proof.
  unfold clean_response.
  assert (Py.strip ("```
" +:+ body +:+ "
```") = "```
" +:+ body +:+ "
```") as ->.
  { assert (Py.rstrip (body +:+ "
```") = body +:+ "
```") as Hbody by (by rewrite rstrip_app).
    unfold Py.strip. rewrite rstrip_app; rewrite Hbody; [done |].
    by apply app_not_Empty. }
  rewrite !app_String, app_Empty. cbn [Py.startswith String.prefix Py.drop].
  cbn -[Py.endswith Py.drop_last Py.strip String.append].
  change (String "010" (body +:+ "
```")) with (("
" +:+ body) +:+ "
```").
  replace (("
" +:+ body) +:+ "
```") with (("
" +:+ body +:+ "
") +:+ "```") by (by rewrite !app_assoc').
  rewrite endswith_app.
  change 3%nat with (String.length "```"). rewrite drop_last_app.
  rewrite app_String, app_Empty, strip_String_space by done.
  unfold Py.strip. by rewrite rstrip_app_space.
Qed.

(** X6.  Each fence marker is optional on its own: an object text with
    only the opening [```json] line, or with only the closing [```]
    line, is cleaned to the object text. *)
Theorem clean_response_unbalanced (inner : string) :
  let text := String "{" (inner +:+ "}") in
  clean_response ("```json
" +:+ text) = text
  /\ clean_response (text +:+ "
```") = text.
Proof.
  intros text.
  assert (last_char text = Some "}"%char) as Hlast.
  { change text with ("{" +:+ inner +:+ "}").
    rewrite last_char_app by (by apply app_not_Empty).
    by rewrite last_char_app. }
  assert (Py.rstrip text = text) as Hr by (by apply (rstrip_last _ "}")).
  assert (Py.strip text = text) as Hstrip by (by apply (strip_trimmed _ _ "}")).
  split.
  - unfold clean_response.
    assert (Py.strip ("```json
" +:+ text) = "```json
" +:+ text) as ->.
    { unfold Py.strip. rewrite rstrip_app by (rewrite Hr; done). by rewrite Hr. }
    rewrite !app_String, app_Empty.
    cbn [Py.startswith String.prefix Py.drop].
    cbn -[Py.endswith Py.drop_last Py.strip String.append text].
    rewrite (endswith_last "```" _ "}"); try done.
    by rewrite strip_String_space.
  - unfold clean_response.
    assert (Py.strip (text +:+ "
```") = text +:+ "
```") as ->.
    { unfold Py.strip. rewrite rstrip_app by done. done. }
    subst text. rewrite !app_String.
    cbn [Py.startswith String.prefix].
    cbn -[Py.endswith Py.drop_last Py.strip String.append].
    replace (String "{" ((inner +:+ "}") +:+ "
```")) with ((String "{" (inner +:+ "}") +:+ "
") +:+ "```") by (by rewrite !app_String, !app_assoc').
    rewrite endswith_app.
    change 3%nat with (String.length "```"). rewrite drop_last_app.
    unfold Py.strip. rewrite rstrip_app_space by done. exact Hstrip.
Qed.

Lemma prefix_cons_eq (a : ascii) (p s : string) :
  String.prefix (String a p) (String a s) = String.prefix p s.
Proof. simpl. by destruct (ascii_dec a a). Qed.

Lemma prefix_cons_ne (a b : ascii) (p s : string) :
  a <> b -> String.prefix (String a p) (String b s) = false.
Proof. intros Hne. simpl. by destruct (ascii_dec a b). Qed.

(** X7.  Only the tag [json] is known: under any other tag (one not
    beginning with [j]) the fence markers go but the tag line stays in
    front of the object text. *)
Theorem clean_response_other_tag (c : ascii) (tag inner : string) :
  c <> "j"%char -> c <> "`"%char -> Py.isspace c = false ->
  let text := String "{" (inner +:+ "}") in
  clean_response ("```" +:+ String c tag +:+ "
" +:+ text +:+ "
```") = String c tag +:+ "
" +:+ text.
Proof.
  intros Hj Htick Hspace text.
  assert (last_char text = Some "}"%char) as Hlast.
  { change text with ("{" +:+ inner +:+ "}").
    rewrite last_char_app by (by apply app_not_Empty).
    by rewrite last_char_app. }
  assert (last_char (String c tag +:+ "
" +:+ text) = Some "}"%char) as Hlast'.
  { rewrite last_char_app; [| by apply app_not_Empty].
    by rewrite last_char_app. }
  unfold clean_response.
  assert (Py.strip ("```" +:+ String c tag +:+ "
" +:+ text +:+ "
```") = "```" +:+ String c tag +:+ "
" +:+ text +:+ "
```") as ->.
  { unfold Py.strip.
    rewrite (rstrip_last _ "`"); [done | | done].
    rewrite last_char_app; [| by do 3 apply app_not_Empty].
    rewrite last_char_app; [| by do 2 apply app_not_Empty].
    rewrite last_char_app; [| by apply app_not_Empty].
    by rewrite last_char_app. }
  set (rest := "
" +:+ text +:+ "
```").
  change ("```" +:+ String c tag +:+ rest)
    with (String "`" (String "`" (String "`" (String c (tag +:+ rest))))).
  unfold Py.startswith.
  rewrite !prefix_cons_eq, prefix_cons_ne by done.
  rewrite !prefix_cons_eq. cbn [String.prefix Py.drop].
  destruct (ascii_dec "`" c) as [Heq | _]; [by destruct Htick |].
  assert (String c (tag +:+ rest) = (String c tag +:+ "
" +:+ text +:+ "
") +:+ "```") as -> by (subst rest; by rewrite !app_assoc').
  rewrite endswith_app.
  change 3%nat with (String.length "```"). rewrite drop_last_app.
  assert (String c tag +:+ "
" +:+ text +:+ "
" = (String c tag +:+ "
" +:+ text) +:+ "
") as -> by (by rewrite !app_assoc').
  unfold Py.strip. rewrite rstrip_app_space by done.
  rewrite (rstrip_last _ "}") by done.
  rewrite app_String. simpl. by rewrite Hspace.
Qed.

Lemma clean_response_other_tag_witness :
  clean_response ("```" +:+ String "p" "ython" +:+ "
" +:+ String "{" ("" +:+ "}") +:+ "
```") = String "p" "ython" +:+ "
" +:+ String "{" ("" +:+ "}").
Proof.
  apply (clean_response_other_tag "p" "ython" ""); [discriminate | discriminate | reflexivity].
Defined.

(** ** The generators, further *)

(** X8.  Without an API key (none, or the empty string) the three
    generators touch nothing: no client call, no message, no permit
    spent; the course and quiz generators return nothing and the
    recommendations are the four-item list. *)
Theorem no_key_no_effect (E : environment) (now : Q)
    (today topic level duration difficulty : string) (n : Z)
    (user_history preferences : list string) (s : session) :
  truthy_opt (api_key s) = false ->
  generate_course E now today topic level duration s = (inr None, s)
  /\ generate_quiz E now topic difficulty n s = (inr None, s)
  /\ get_recommendations E user_history preferences s = (inr fallback_no_history, s).
Proof.
  intros Hkey.
  assert (configure_gemini E s = (inr false, s)) as Hconf.
  { rewrite configure_gemini_eq. unfold truthy_opt in Hkey.
    destruct (api_key s) as [k |]; [by rewrite Hkey | done]. }
  unfold generate_course, generate_quiz, get_recommendations, bind.
  by rewrite Hconf.
Qed.

Lemma no_key_no_effect_witness :
  let s := set_api_key (Some "") Demo.session0 in
  generate_course (Demo.env "{}") (100 # 1) "2026-01-01" "Python" "Beginner" "1 week" s
  = (inr None, s)
  /\ generate_quiz (Demo.env "{}") (100 # 1) "Python" "Easy" 3 s = (inr None, s)
  /\ get_recommendations (Demo.env "{}") ["Python"] [] s = (inr fallback_no_history, s).
Proof.
  intros s. apply (no_key_no_effect (Demo.env "{}")). reflexivity.
Defined.

(** Resolving a model leaves the rate window alone. *)
Lemma get_working_model_window (E : environment) (s s' : session)
    (r : option string) :
  get_working_model E s = (inr r, s') ->
  request_count s' = request_count s
  /\ last_request_time s' = last_request_time s.
Proof.
  unfold get_working_model, bind, get, modify, ret.
  destruct (truthy_opt (working_model s)); [by intros [= <- <-] |].
  rewrite test_api_key_and_list_models_eq.
  destruct (api_key s) as [k |]; [| by intros [= <- <-]].
  destruct (Py.truthy k); [| by intros [= <- <-]].
  cbv zeta. destruct (genai_configure E k); [by intros [= <- <-] |].
  destruct (genai_list_models E) as [e | ms]; [by intros [= <- <-] |].
  cbn [fst]. destruct (collect_models ms []) as [| m0 l]; [by intros [= <- <-] |].
  destruct (first_preferred preferred (m0 :: l)); by intros [= <- <-].
Qed.

(** X9.  A course or quiz request that the limiter lets through is
    counted exactly once, whether or not a model is found, the backend
    answers or the answer decodes: afterwards the counter and the window
    start are those the permit check left. *)
Theorem permitted_request_counted_once (E : environment) (now : Q)
    (today topic level duration difficulty : string) (n : Z)
    (s s1 s2 : session) :
  configure_gemini E s = (inr true, s1) ->
  rate_limit_check now s1 = (inr true, s2) ->
  let after_course := snd (generate_course E now today topic level duration s) in
  let after_quiz := snd (generate_quiz E now topic difficulty n s) in
  request_count s2 = request_count (after_reset_test now s) + 1
  /\ request_count after_course = request_count s2
  /\ last_request_time after_course = last_request_time s2
  /\ request_count after_quiz = request_count s2
  /\ last_request_time after_quiz = last_request_time s2.
Proof.
  intros Hconf Hpermit after_course after_quiz.
  destruct (configure_gemini_frame E s s1 true Hconf) as (Hc1 & Hl1 & _).
  split.
  { rewrite rate_limit_check_eq in Hpermit. cbv zeta in Hpermit.
    destruct (_ && _) in Hpermit; [done |].
    injection Hpermit as <-. simpl. unfold after_reset_test.
    rewrite Hl1. destruct (Py.gt _ _); simpl; [done | by rewrite Hc1]. }
  destruct (get_working_model_never_raises E s2) as (model_name & s3 & Hmodel).
  destruct (get_working_model_window E s2 s3 model_name Hmodel) as [Hc3 Hl3].
  destruct (truthy_opt model_name) eqn:Htruthy.
  - destruct model_name as [m |]; [| done].
    assert (reaches_backend E now s s3 m) as Hreach by (by exists s1, s2).
    subst after_course after_quiz.
    rewrite (generate_course_reached E now today topic level duration s s3 m Hreach).
    rewrite (generate_quiz_reached E now topic difficulty n s s3 m Hreach).
    cbv zeta.
    destruct (genai_generate_content E m (course_prompt _ _ _)) as [e | raw];
      destruct (genai_generate_content E m (quiz_prompt _ _ _)) as [e' | raw'];
      repeat match goal with
             | |- context [parse_response E ?r] => destruct (parse_response E r)
             | |- context [stamp_course ?a ?b ?c ?v] => destruct (stamp_course a b c v)
             end; simpl; rewrite Hc3, Hl3; done.
  - subst after_course after_quiz.
    unfold generate_course, generate_quiz, bind.
    rewrite Hconf. cbn [negb]. rewrite Hpermit. cbn [negb].
    rewrite Hmodel, Htruthy. cbn [negb].
    unfold show, modify, ret. simpl. done.
Qed.

Lemma permitted_request_counted_once_witness :
  let E := Demo.env "not json" in
  let s := Demo.session0 in
  let s1 := snd (configure_gemini E s) in
  let s2 := snd (rate_limit_check (100 # 1) s1) in
  let after_course :=
    snd (generate_course E (100 # 1) "2026-01-01" "Python" "Beginner" "1 week" s) in
  let after_quiz := snd (generate_quiz E (100 # 1) "Python" "Easy" 3 s) in
  request_count s2 = request_count (after_reset_test (100 # 1) s) + 1
  /\ request_count after_course = request_count s2
  /\ last_request_time after_course = last_request_time s2
  /\ request_count after_quiz = request_count s2
  /\ last_request_time after_quiz = last_request_time s2.
Proof.
  intros E s s1 s2.
  apply (permitted_request_counted_once E (100 # 1) "2026-01-01" "Python" "Beginner"
           "1 week" "Easy" 3 s s1 s2).
  - vm_compute. reflexivity.
  - vm_compute. reflexivity.
Defined.

Lemma dict_get_set_eq (k : string) (v : json) (d : list (string * json)) :
  dict_get k (dict_set k v d) = Some v.
Proof.
  induction d as [| [k' v'] d IH]; simpl.
  - by rewrite String.eqb_refl.
  - destruct (String.eqb k k') eqn:Hk; simpl; by rewrite ?String.eqb_refl, ?Hk.
Qed.

Lemma dict_get_set_ne (k k' : string) (v : json) (d : list (string * json)) :
  k <> k' -> dict_get k' (dict_set k v d) = dict_get k' d.
Proof.
  intros Hne.
  assert (String.eqb k' k = false) as Hf by (apply String.eqb_neq; congruence).
  induction d as [| [k0 v0] d IH]; simpl.
  - by rewrite Hf.
  - destruct (String.eqb k k0) eqn:Hk; simpl.
    + apply String.eqb_eq in Hk as <-. by rewrite Hf.
    + by rewrite IH.
Qed.

Lemma dict_set_not_nil (k : string) (v : json) (d : list (string * json)) :
  dict_set k v d <> [].
Proof. destruct d as [| [k' v'] d]; simpl; [done |]. by destruct (String.eqb k k'). Qed.

(** A generator that returns a course has been through configuration,
    the limiter and model resolution. *)
Lemma generate_course_Some_inv (E : environment) (now : Q)
    (today topic level duration : string) (s : session) (c : json) :
  fst (generate_course E now today topic level duration s) = inr (Some c) ->
  exists s3 m, reaches_backend E now s s3 m.
Proof.
  intros Hrun.
  destruct (configure_gemini_never_raises E s) as (configured & s1 & Hconf).
  destruct (rate_limit_check_never_raises now s1) as (permitted & s2 & Hpermit).
  destruct (get_working_model_never_raises E s2) as (model_name & s3 & Hmodel).
  unfold generate_course, bind in Hrun. rewrite Hconf in Hrun.
  destruct configured; [| done]. cbn [negb] in Hrun. rewrite Hpermit in Hrun.
  destruct permitted; [| done]. cbn [negb] in Hrun. rewrite Hmodel in Hrun.
  destruct model_name as [m |]; [| done]. cbn [truthy_opt] in Hrun.
  destruct (Py.truthy m) eqn:Hm; [| done].
  exists s3, m, s1, s2. done.
Qed.

(** X10.  A course that [generate_course] returns is the decoded object
    with [created_date], [user_topic] and [level] set to the request's
    values, whatever the backend sent under those names; every other
    entry is as decoded; and it is never an empty object. *)
Theorem generated_course_metadata (E : environment) (now : Q)
    (today topic level duration : string) (s : session) (c : json) :
  fst (generate_course E now today topic level duration s) = inr (Some c) ->
  exists m raw d,
    genai_generate_content E m (course_prompt topic level duration) = inr raw
    /\ parse_response E raw = inr (JDict d)
    /\ c = JDict (stamped today topic level d)
    /\ getitem c "created_date" = inr (JStr today)
    /\ getitem c "user_topic" = inr (JStr topic)
    /\ getitem c "level" = inr (JStr level)
    /\ (forall k, k <> "created_date" -> k <> "user_topic" -> k <> "level" ->
          getitem c k = getitem (JDict d) k)
    /\ truthy_json c = true.
Proof.
  intros Hrun.
  destruct (generate_course_Some_inv E _ _ _ _ _ _ _ Hrun) as (s3 & m & Hreach).
  rewrite (generate_course_reached E now today topic level duration s s3 m Hreach)
    in Hrun.
  cbv zeta in Hrun.
  destruct (genai_generate_content E m _) as [e | raw] eqn:Hgen; [done |].
  destruct (parse_response E raw) as [e | v] eqn:Hparse; [done |].
  destruct v as [| | | | | d]; try done.
  rewrite stamp_course_dict in Hrun. injection Hrun as <-.
  exists m, raw, d. unfold stamped, getitem.
  repeat split; try done.
  - rewrite !dict_get_set_ne by done. by rewrite dict_get_set_eq.
  - rewrite dict_get_set_ne by done. by rewrite dict_get_set_eq.
  - by rewrite dict_get_set_eq.
  - intros k H1 H2 H3. by rewrite !dict_get_set_ne.
  - cbn [truthy_json].
    destruct (dict_set "level" _ _) eqn:Hset; [| done].
    by apply dict_set_not_nil in Hset.
Qed.

Lemma generated_course_metadata_witness :
  let c := JDict (stamped "2026-01-01" "Python" "Beginner"
                    [("title", JStr "T"); ("level", JStr "Expert")]) in
  exists m raw d,
    genai_generate_content
      (Demo.env (Json.dumps (JDict [("title", JStr "T"); ("level", JStr "Expert")])))
      m (course_prompt "Python" "Beginner" "1 week") = inr raw
    /\ parse_response
         (Demo.env (Json.dumps (JDict [("title", JStr "T"); ("level", JStr "Expert")])))
         raw = inr (JDict d)
    /\ c = JDict (stamped "2026-01-01" "Python" "Beginner" d)
    /\ getitem c "created_date" = inr (JStr "2026-01-01")
    /\ getitem c "user_topic" = inr (JStr "Python")
    /\ getitem c "level" = inr (JStr "Beginner")
    /\ (forall k, k <> "created_date" -> k <> "user_topic" -> k <> "level" ->
          getitem c k = getitem (JDict d) k)
    /\ truthy_json c = true.
Proof.
  intros c.
  apply (generated_course_metadata
           (Demo.env (Json.dumps (JDict [("title", JStr "T"); ("level", JStr "Expert")])))
           (100 # 1) "2026-01-01" "Python" "Beginner" "1 week" Demo.session0 c).
  vm_compute. reflexivity.
Defined.

(** X11.  When the backend call raises, the generator returns nothing,
    shows the exception's message, and has asked the backend exactly
    once: nothing is retried. *)
Theorem backend_failure_reported (E : environment) (now : Q)
    (today topic level duration difficulty : string) (n : Z)
    (s s3 : session) (m : string) (e_course e_quiz : exn) :
  reaches_backend E now s s3 m ->
  genai_generate_content E m (course_prompt topic level duration) = inl e_course ->
  genai_generate_content E m (quiz_prompt topic difficulty n) = inl e_quiz ->
  exists s_course s_quiz,
    generate_course E now today topic level duration s = (inr None, s_course)
    /\ ui s_course = ui s3 ++ [InfoUsingModel m; ErrGeneratingCourse (str_exn e_course)]
    /\ calls s_course = calls s3 ++ [CallGenerateContent m (course_prompt topic level duration)]
    /\ generate_quiz E now topic difficulty n s = (inr None, s_quiz)
    /\ ui s_quiz = ui s3 ++ [InfoUsingModel m; ErrGeneratingQuiz (str_exn e_quiz)]
    /\ calls s_quiz = calls s3 ++ [CallGenerateContent m (quiz_prompt topic difficulty n)].
Proof.
  intros Hreach Hcourse Hquiz.
  rewrite (generate_course_reached E now today topic level duration s s3 m Hreach).
  rewrite (generate_quiz_reached E now topic difficulty n s s3 m Hreach).
  cbv zeta. rewrite Hcourse, Hquiz.
  eexists _, _. repeat split; simpl; by rewrite <- ?app_assoc.
Qed.

Lemma backend_failure_reported_witness :
  let E := {| json_loads := Json.loads;
              genai_configure := fun _ => None;
              genai_list_models := inr Demo.models;
              genai_generate_content := fun _ _ => inl (ClientError "429 quota exceeded");
              repr_list := Demo.repr |} in
  let s := Demo.session0 in
  let s3 := snd (get_working_model E
                   (snd (rate_limit_check (100 # 1) (snd (configure_gemini E s))))) in
  exists s_course s_quiz,
    generate_course E (100 # 1) "2026-01-01" "Python" "Beginner" "1 week" s
    = (inr None, s_course)
    /\ ui s_course = ui s3 ++ [InfoUsingModel "gemini-1.5-flash";
                               ErrGeneratingCourse "429 quota exceeded"]
    /\ calls s_course = calls s3
         ++ [CallGenerateContent "gemini-1.5-flash" (course_prompt "Python" "Beginner" "1 week")]
    /\ generate_quiz E (100 # 1) "Python" "Easy" 3 s = (inr None, s_quiz)
    /\ ui s_quiz = ui s3 ++ [InfoUsingModel "gemini-1.5-flash";
                             ErrGeneratingQuiz "429 quota exceeded"]
    /\ calls s_quiz = calls s3
         ++ [CallGenerateContent "gemini-1.5-flash" (quiz_prompt "Python" "Easy" 3)].
Proof.
  intros E s s3.
  apply (backend_failure_reported E (100 # 1) "2026-01-01" "Python" "Beginner" "1 week"
           "Easy" 3 s s3 "gemini-1.5-flash"
           (ClientError "429 quota exceeded") (ClientError "429 quota exceeded")).
  - exists (snd (configure_gemini E s)),
      (snd (rate_limit_check (100 # 1) (snd (configure_gemini E s)))).
    repeat split; vm_compute; reflexivity.
  - reflexivity.
  - reflexivity.
Defined.

(** ** Model resolution, further *)

(** A model returned is the one memoized afterwards. *)
Lemma get_working_model_memo (E : environment) (s s1 : session) (m : string) :
  get_working_model E s = (inr (Some m), s1) -> working_model s1 = Some m.
Proof.
  unfold get_working_model, bind, get, modify, ret.
  destruct (truthy_opt (working_model s)); [by intros [= Hm <-] |].
  destruct (test_api_key_and_list_models E s) as [[e | [available err]] s0];
    [done |].
  cbn [fst]. destruct available as [[| m0 l] |]; [done | | done].
  destruct (first_preferred preferred (m0 :: l)); by intros [= <- <-].
Qed.

(** X12.  Once a model with a non-empty name has been returned, every
    later resolution returns it again without any client call and
    without changing the session, whatever the backend would now list. *)
Theorem resolved_model_sticks (E E' : environment) (s s1 : session) (m : string) :
  get_working_model E s = (inr (Some m), s1) ->
  Py.truthy m = true ->
  get_working_model E' s1 = (inr (Some m), s1).
Proof.
  intros Hfirst Hm. apply get_working_model_memo in Hfirst.
  unfold get_working_model, bind, get, ret.
  by rewrite Hfirst; cbn [truthy_opt]; rewrite Hm.
Qed.

Lemma resolved_model_sticks_witness :
  let s1 := snd (get_working_model (Demo.env "") Demo.session0) in
  get_working_model
    {| json_loads := Json.loads;
       genai_configure := fun _ => Some (ClientError "invalid key");
       genai_list_models := inl (ClientError "unreachable");
       genai_generate_content := fun _ _ => inl (ClientError "unreachable");
       repr_list := Demo.repr |} s1
  = (inr (Some "gemini-1.5-flash"), s1).
Proof.
  intros s1.
  apply (resolved_model_sticks (Demo.env "") _ Demo.session0 s1 "gemini-1.5-flash").
  - vm_compute. reflexivity.
  - reflexivity.
Defined.

Lemma get_working_model_listed (E : environment) (s s' : session) (m : string) :
  get_working_model E s = (inr (Some m), s') ->
  working_model s = Some m
  \/ exists ms, genai_list_models E = inr ms /\ m ∈ collect_models ms [].
Proof.
  unfold get_working_model, bind, get, modify, ret.
  destruct (truthy_opt (working_model s)); [intros [= Hm _]; by left |].
  rewrite test_api_key_and_list_models_eq.
  destruct (api_key s) as [k |]; [| done].
  destruct (Py.truthy k); [| done].
  cbv zeta. destruct (genai_configure E k); [done |].
  destruct (genai_list_models E) as [e | ms]; [done |].
  cbn [fst]. destruct (collect_models ms []) as [| m0 l] eqn:Hcat; [done |].
  destruct (first_preferred preferred (m0 :: l)) as [p |] eqn:Hfirst.
  - intros [= <- _]. right. exists ms. split; [done |].
    apply first_preferred_Some in Hfirst as (_ & _ & Hin & _). by rewrite Hcat.
  - intros [= <- _]. right. exists ms. split; [done |]. rewrite Hcat. left.
Qed.

(** X13.  A model returned was either memoized before the call or is in
    the catalog built from the backend's listing: a preferred name that
    the backend does not list is never returned. *)
Theorem resolved_model_is_listed (E : environment) (s s' : session) (m : string) :
  get_working_model E s = (inr (Some m), s') ->
  working_model s = Some m
  \/ exists ms, genai_list_models E = inr ms /\ m ∈ collect_models ms [].
Proof. apply get_working_model_listed. Qed.

Lemma resolved_model_is_listed_witness :
  working_model Demo.session0 = Some "gemini-1.5-flash"
  \/ exists ms, genai_list_models (Demo.env "") = inr ms
                /\ "gemini-1.5-flash" ∈ collect_models ms [].
Proof.
  apply (resolved_model_is_listed (Demo.env "") Demo.session0
           (snd (get_working_model (Demo.env "") Demo.session0))).
  vm_compute. reflexivity.
Defined.

Lemma replace_from_skip (old new : string) (a : string) : forall rest,
  Py.replace_from old new (String.length a) (a +:+ rest)
  = Py.replace_from old new O rest.
Proof.
  induction a as [| c a IH]; intros rest; [done |].
  rewrite app_String. simpl. apply IH.
Qed.

Lemma prefix_app_self (a b : string) : String.prefix a (a +:+ b) = true.
Proof.
  induction a as [| c a IH]; [by destruct b |].
  by rewrite app_String, prefix_cons_eq.
Qed.

(** A name with the [models/] prefix is catalogued without it. *)
Lemma replace_models_prefix (id : string) :
  Py.replace "models/" "" id = id ->
  Py.replace "models/" "" ("models/" +:+ id) = id.
Proof.
  intros Hid. unfold Py.replace in *.
  change ("models/" +:+ id) with (String "m" ("odels/" +:+ id)).
  cbn [Py.replace_from].
  change (String "m" ("odels/" +:+ id)) with ("models/" +:+ id).
  rewrite prefix_app_self.
  rewrite app_Empty.
  change (String.length "models/" - 1)%nat with (String.length "odels/").
  by rewrite replace_from_skip.
Qed.

(** The collecting loop keeps the listing order. *)
Lemma collect_models_spec (ms : list model_info) : forall acc : list string,
  collect_models ms acc =
  acc ++ map (fun m => Py.replace "models/" "" (name m))
           (filter (fun m => "generateContent" ∈ supported_generation_methods m) ms).
Proof.
  induction ms as [| m ms IH]; intros acc; simpl.
  - by rewrite app_nil_r.
  - case_bool_decide as Hcap.
    + rewrite IH, filter_cons_True by done. simpl. by rewrite <- app_assoc.
    + rewrite IH, filter_cons_False by done. done.
Qed.

(** X14.  The catalog is the listing restricted to the models that
    support [generateContent], in the backend's order, each name without
    its [models/] prefix. *)
Theorem catalog_of_listing (ms : list model_info) :
  Forall (fun m => exists id, name m = "models/" +:+ id
                              /\ Py.replace "models/" "" id = id) ms ->
  collect_models ms [] =
  map (fun m => Py.drop 7 (name m))
    (filter (fun m => "generateContent" ∈ supported_generation_methods m) ms).
Proof.
  intros Hnames. rewrite collect_models_spec. simpl.
  apply map_ext_in. intros m Hm.
  apply list_elem_of_In, list_elem_of_filter in Hm as [_ Hm].
  rewrite Forall_forall in Hnames.
  destruct (Hnames m Hm) as (id & -> & Hid).
  rewrite replace_models_prefix by done.
  symmetry. exact (drop_app_length "models/" id).
Qed.

Lemma catalog_of_listing_witness :
  collect_models Demo.models [] =
  map (fun m => Py.drop 7 (name m))
    (filter (fun m => "generateContent" ∈ supported_generation_methods m) Demo.models).
Proof.
  apply catalog_of_listing.
  repeat constructor.
  - by exists "gemini-pro".
  - by exists "embedding-001".
  - by exists "gemini-1.5-flash".
Defined.

Lemma save_api_key_click_eq (api_key_input : string) (a : application) :
  save_api_key_click api_key_input a =
  (inr tt,
   set_page (written a ++ [ApiKeySaved])
     (set_state (set_working_model None
                   (set_api_key (Some api_key_input) (session_state a))) a)).
Proof. reflexivity. Qed.

(** X15.  Saving an API key stores it and forgets the memoized model,
    so the next resolution goes back to the backend: with a non-empty
    key it configures and lists again, and a model it returns comes from
    that listing. *)
Theorem saved_key_relists (E : environment) (api_key_input : string)
    (a : application) :
  let a' := snd (save_api_key_click api_key_input a) in
  let s' := session_state a' in
  fst (save_api_key_click api_key_input a) = inr tt
  /\ api_key s' = Some api_key_input
  /\ working_model s' = None
  /\ written a' = written a ++ [ApiKeySaved]
  /\ (Py.truthy api_key_input = true ->
      genai_configure E api_key_input = None ->
      calls (snd (get_working_model E s'))
      = calls (session_state a) ++ [CallConfigure api_key_input; CallListModels])
  /\ (forall m, fst (get_working_model E s') = inr (Some m) ->
        exists ms, genai_list_models E = inr ms /\ m ∈ collect_models ms []).
Proof.
  intros a' s'. subst s' a'. rewrite save_api_key_click_eq.
  cbn [fst snd session_state written set_page set_state].
  do 4 (split; [done |]). split.
  - intros Hkey Hconf.
    unfold get_working_model, bind, get, modify, ret.
    cbn [working_model truthy_opt set_working_model set_api_key].
    rewrite test_api_key_and_list_models_eq.
    cbn [api_key set_working_model set_api_key]. rewrite Hkey.
    cbv zeta. rewrite Hconf.
    destruct (genai_list_models E) as [e | ms]; cbn [fst].
    + simpl. by rewrite <- app_assoc.
    + destruct (collect_models ms []) as [| m0 l].
      * simpl. by rewrite <- app_assoc.
      * destruct (first_preferred preferred (m0 :: l)); simpl; by rewrite <- app_assoc.
  - intros m Hm.
    destruct (get_working_model E _) as [r s1] eqn:Hrun. simpl in Hm. subst r.
    apply get_working_model_listed in Hrun as [Hmemo | Hlisted]; [done | done].
Qed.

Lemma saved_key_relists_witness :
  let a := {| users := ∅; logged_in := true;
              session_state := set_working_model (Some "stale-model") Demo.session0;
              written := [] |} in
  let a' := snd (save_api_key_click "new-key" a) in
  let s' := session_state a' in
  fst (save_api_key_click "new-key" a) = inr tt
  /\ api_key s' = Some "new-key"
  /\ working_model s' = None
  /\ written a' = written a ++ [ApiKeySaved]
  /\ (Py.truthy "new-key" = true ->
      genai_configure (Demo.env "") "new-key" = None ->
      calls (snd (get_working_model (Demo.env "") s'))
      = calls (session_state a) ++ [CallConfigure "new-key"; CallListModels])
  /\ (forall m, fst (get_working_model (Demo.env "") s') = inr (Some m) ->
        exists ms, genai_list_models (Demo.env "") = inr ms /\ m ∈ collect_models ms []).
Proof.
  intros a. apply (saved_key_relists (Demo.env "") "new-key" a).
Defined.

(** ** What the generators leave alone *)

(** The parts of the session that hold the user's progress and the quiz
    being taken. *)
Lemma configure_gemini_progress (E : environment) (s s' : session) (b : bool) :
  configure_gemini E s = (inr b, s') -> progress_of s' = progress_of s.
Proof.
  rewrite configure_gemini_eq.
  destruct (api_key s) as [k |]; [| by intros [= <- <-]].
  destruct (Py.truthy k); [| by intros [= <- <-]].
  cbv zeta. destruct (genai_configure E k); by intros [= <- <-].
Qed.

Lemma rate_limit_check_progress (now : Q) (s s' : session) (b : bool) :
  rate_limit_check now s = (inr b, s') -> progress_of s' = progress_of s.
Proof.
  rewrite rate_limit_check_eq. unfold after_reset_test. cbv zeta.
  destruct (Py.gt (now - last_request_time s) 60);
    match goal with |- context [if ?c then _ else _] => destruct c end;
    by intros [= <- <-].
Qed.

Lemma get_working_model_progress (E : environment) (s s' : session)
    (r : option string) :
  get_working_model E s = (inr r, s') -> progress_of s' = progress_of s.
Proof.
  unfold get_working_model, bind, get, modify, ret.
  destruct (truthy_opt (working_model s)); [by intros [= <- <-] |].
  rewrite test_api_key_and_list_models_eq.
  destruct (api_key s) as [k |]; [| by intros [= <- <-]].
  destruct (Py.truthy k); [| by intros [= <- <-]].
  cbv zeta. destruct (genai_configure E k); [by intros [= <- <-] |].
  destruct (genai_list_models E) as [e | ms]; [by intros [= <- <-] |].
  cbn [fst]. destruct (collect_models ms []) as [| m0 l]; [by intros [= <- <-] |].
  destruct (first_preferred preferred (m0 :: l)); by intros [= <- <-].
Qed.

Lemma generators_progress (E : environment) (now : Q)
    (today topic level duration difficulty : string) (n : Z)
    (user_history preferences : list string) (s : session) :
  progress_of (snd (generate_course E now today topic level duration s)) = progress_of s
  /\ progress_of (snd (generate_quiz E now topic difficulty n s)) = progress_of s
  /\ progress_of (snd (get_recommendations E user_history preferences s)) = progress_of s.
Proof.
  destruct (configure_gemini_never_raises E s) as (configured & s1 & Hconf).
  pose proof (configure_gemini_progress E s s1 configured Hconf) as H1.
  destruct (rate_limit_check_never_raises now s1) as (permitted & s2 & Hpermit).
  pose proof (rate_limit_check_progress now s1 s2 permitted Hpermit) as H2.
  destruct (get_working_model_never_raises E s2) as (model_name & s3 & Hmodel).
  pose proof (get_working_model_progress E s2 s3 model_name Hmodel) as H3.
  destruct (get_working_model_never_raises E s1) as (model_name' & s3' & Hmodel').
  pose proof (get_working_model_progress E s1 s3' model_name' Hmodel') as H3'.
  unfold progress_of in *.
  split; [| split].
  - destruct configured, permitted;
      try (unfold generate_course, bind; rewrite Hconf; cbn [negb];
           rewrite ?Hpermit; cbn [negb]; simpl; congruence).
    destruct (truthy_opt model_name) eqn:Htruthy.
    + destruct model_name as [m |]; [| done].
      rewrite (generate_course_reached E now today topic level duration s s3 m)
        by (by exists s1, s2).
      cbv zeta. destruct (genai_generate_content E m _); [simpl; congruence |].
      destruct (parse_response E _); [simpl; congruence |].
      destruct (stamp_course _ _ _ _); simpl; congruence.
    + unfold generate_course, bind. rewrite Hconf. cbn [negb].
      rewrite Hpermit. cbn [negb]. rewrite Hmodel, Htruthy. simpl. congruence.
  - destruct configured, permitted;
      try (unfold generate_quiz, bind; rewrite Hconf; cbn [negb];
           rewrite ?Hpermit; cbn [negb]; simpl; congruence).
    destruct (truthy_opt model_name) eqn:Htruthy.
    + destruct model_name as [m |]; [| done].
      rewrite (generate_quiz_reached E now topic difficulty n s s3 m)
        by (by exists s1, s2).
      cbv zeta. destruct (genai_generate_content E m _); [simpl; congruence |].
      destruct (parse_response E _); simpl; congruence.
    + unfold generate_quiz, bind. rewrite Hconf. cbn [negb].
      rewrite Hpermit. cbn [negb]. rewrite Hmodel, Htruthy. simpl. congruence.
  - unfold get_recommendations, bind. rewrite Hconf.
    destruct (negb configured || _); [simpl; congruence |].
    rewrite Hmodel'. destruct (negb (truthy_opt model_name')); [simpl; congruence |].
    unfold try_except, generate_content, bind, log_call, modify, lift, ret.
    destruct (genai_generate_content E _ _); [simpl; congruence |].
    destruct (parse_response E _); simpl; congruence.
Qed.

(** X16.  No generator touches the progress store or the quiz being
    taken: whatever happens, the users' records, the current user, the
    current quiz, its answers, its score and its topic are as before. *)
Theorem generators_leave_progress (E : environment) (now : Q)
    (today topic level duration difficulty : string) (n : Z)
    (user_history preferences : list string) (s : session) :
  progress_of (snd (generate_course E now today topic level duration s)) = progress_of s
  /\ progress_of (snd (generate_quiz E now topic difficulty n s)) = progress_of s
  /\ progress_of (snd (get_recommendations E user_history preferences s)) = progress_of s.
Proof. apply generators_progress. Qed.

(** ** The course page *)

Lemma only_writes_refl (a : application) : only_writes a a.
Proof. repeat split. exists []. by rewrite app_nil_r. Qed.

Lemma only_writes_trans (a b c : application) :
  only_writes a b -> only_writes b c -> only_writes a c.
Proof.
  intros (Hu & Hl & Hs & w & Hw) (Hu' & Hl' & Hs' & w' & Hw').
  repeat split; try congruence.
  exists (w ++ w'). by rewrite Hw', Hw, <- app_assoc.
Qed.

Lemma writer_hret {A} (x : A) : writer (hret x).
Proof. intros a r a' [= <- <-]. apply only_writes_refl. Qed.

Lemma writer_hlift {A} (x : exn + A) : writer (hlift x).
Proof. intros a r a' [= <- <-]. apply only_writes_refl. Qed.

Lemma writer_write (w : widget) : writer (write w).
Proof. intros a r a' [= <- <-]. repeat split. by exists [w]. Qed.

Lemma writer_hbind {A B} (c : Handler A) (k : A -> Handler B) :
  writer c -> (forall x, writer (k x)) -> writer (hbind c k).
Proof.
  intros Hc Hk a r a'. unfold hbind.
  destruct (c a) as [[e | x] a1] eqn:Hca.
  - intros [= <- <-]. by eapply Hc.
  - intros Hrun. eapply only_writes_trans; [by eapply Hc | by eapply Hk].
Qed.

(** Chains of steps that only write. *)
Ltac writes :=
  repeat first
    [ apply writer_hret | apply writer_hlift | apply writer_write
    | apply writer_hbind; [| intros ?] ].

Lemma writer_show_topics (topics : list json) : writer (show_topics topics).
Proof. induction topics; simpl; writes. done. Qed.

Lemma writer_show_outcomes (outcomes : list json) : writer (show_outcomes outcomes).
Proof. induction outcomes; simpl; writes. done. Qed.

Lemma writer_show_modules (modules : list json) :
  forall idx, writer (show_modules idx modules).
Proof.
  induction modules as [| m r IH]; intros idx; simpl; writes.
  - apply writer_show_topics.
  - apply IH.
Qed.

Lemma writer_show_course (course : json) : writer (show_course course).
Proof.
  unfold show_course. writes.
  - apply writer_show_modules.
  - apply writer_show_outcomes.
Qed.

Lemma writer_show_profile_courses (courses : list json) :
  writer (show_profile_courses courses).
Proof. induction courses; simpl; writes. done. Qed.

Lemma record_course_eq (course : json) (s : session) (u : string) (st : user_stats) :
  current_user s = Some u ->
  user_data s !! u = Some st ->
  record_course course s =
  (inr tt,
   set_user_data
     (<[u := {| courses := courses st ++ [course];
                quiz_history := quiz_history st;
                learning_preferences := learning_preferences st;
                total_score := total_score st;
                courses_completed := courses_completed st + 1;
                quizzes_taken := quizzes_taken st;
                learning_streak := learning_streak st |}]> (user_data s)) s).
Proof.
  intros Hu Hst. unfold record_course, bind, get, modify. by rewrite Hu, Hst.
Qed.

Lemma user_topics_app (cs : list json) (c : json) (ts : list json) (t : json) :
  user_topics cs = inr ts -> getitem c "user_topic" = inr t ->
  user_topics (cs ++ [c]) = inr (ts ++ [t]).
Proof.
  revert ts. induction cs as [| c0 cs IH]; intros ts Hts Hc; simpl in *.
  - injection Hts as <-. by rewrite Hc.
  - destruct (getitem c0 "user_topic") as [e | t0]; [done |].
    destruct (user_topics cs) as [e | ts0]; [done |].
    injection Hts as <-. by rewrite (IH ts0).
Qed.

Lemma hbind_write {B} (w : widget) (k : unit -> Handler B) (a : application) :
  hbind (write w) k a = k tt (set_page (written a ++ [w]) a).
Proof. reflexivity. Qed.

(** The course display starts with the banner and only writes; on an
    object without a title it stops there with [KeyError]. *)
Lemma show_course_run (c : json) (a : application) :
  exists r a' more,
    show_course c a = (r, a')
    /\ users a' = users a /\ logged_in a' = logged_in a
    /\ session_state a' = session_state a
    /\ written a' = written a ++ CourseGenerated :: more
    /\ (forall d, c = JDict d -> dict_get "title" d = None ->
          r = inl (KeyError "title") /\ more = []).
Proof.
  unfold show_course. rewrite hbind_write.
  set (a1 := set_page (written a ++ [CourseGenerated]) a).
  match goal with
  | |- context [hbind ?c0 ?k a1] =>
      assert (writer (hbind c0 k)) as Hwr
        by (writes; [apply writer_show_modules | apply writer_show_outcomes]);
      destruct (hbind c0 k a1) as [r a'] eqn:Hrest
  end.
  destruct (Hwr _ _ _ Hrest) as (Hu & Hl & Hs & w & Hw).
  exists r, a', w. split; [done |]. repeat split; try done.
  - rewrite Hw. subst a1. simpl. by rewrite <- app_assoc.
  - unfold hbind, hlift in Hrest. subst c. simpl in Hrest. rewrite H0 in Hrest.
    by injection Hrest as <- _.
  - unfold hbind, hlift in Hrest. subst c. simpl in Hrest. rewrite H0 in Hrest.
    injection Hrest as _ <-. subst a1. simpl in Hw.
    rewrite <- (app_nil_r (written a ++ [CourseGenerated])) in Hw at 1.
    by apply app_inv_head in Hw.
Qed.

(** A course the generator returns is a non-empty object. *)
Lemma generated_course_dict (E : environment) (now : Q)
    (today topic level duration : string) (s : session) (c : json) :
  fst (generate_course E now today topic level duration s) = inr (Some c) ->
  exists d, c = JDict (stamped today topic level d)
            /\ parse_ok E (course_prompt topic level duration) d.
Proof.
  intros Hfst.
  destruct (generate_course_Some_inv E _ _ _ _ _ _ _ Hfst) as (s3 & m & Hreach).
  rewrite (generate_course_reached E now today topic level duration _ s3 m Hreach)
    in Hfst. cbv zeta in Hfst.
  destruct (genai_generate_content E m _) as [e | raw] eqn:Hgen; [done |].
  destruct (parse_response E raw) as [e | v] eqn:Hparse; [done |].
  destruct v as [| | | | | d]; try done.
  rewrite stamp_course_dict in Hfst. injection Hfst as <-.
  exists d. split; [done |]. by exists m, raw.
Qed.

Lemma stamped_truthy (today topic level : string) (d : list (string * json)) :
  truthy_json (JDict (stamped today topic level d)) = true.
Proof.
  cbn [truthy_json]. unfold stamped.
  destruct (dict_set "level" _ _) eqn:Hset; [| done].
  by apply dict_set_not_nil in Hset.
Qed.

Lemma stamped_keys (today topic level : string) (d : list (string * json)) :
  let c := JDict (stamped today topic level d) in
  has_key "created_date" c = true /\ has_key "user_topic" c = true
  /\ has_key "level" c = true
  /\ getitem c "user_topic" = inr (JStr topic)
  /\ dict_get "title" (stamped today topic level d) = dict_get "title" d.
Proof.
  unfold has_key, getitem, stamped. cbv zeta.
  rewrite !dict_get_set_eq.
  rewrite (dict_get_set_ne "level" "user_topic") by done.
  rewrite (dict_get_set_ne "level" "created_date") by done.
  rewrite (dict_get_set_ne "user_topic" "created_date") by done.
  rewrite !dict_get_set_eq.
  by rewrite !dict_get_set_ne.
Qed.

(** What a click on Generate Course does. *)
Lemma course_click_run (E : environment) (now : Q)
    (today topic level duration : string) (a : application)
    (u : string) (st : user_stats) :
  current_user (session_state a) = Some u ->
  user_data (session_state a) !! u = Some st ->
  exists r a',
    course_generator_click E now today topic level duration a = (r, a')
    /\ users a' = users a /\ logged_in a' = logged_in a
    /\ current_user (session_state a') = Some u
    /\ match fst (generate_course E now today topic level duration (session_state a)) with
       | inr (Some c) =>
           user_data (session_state a') !! u =
             Some {| courses := courses st ++ [c];
                     quiz_history := quiz_history st;
                     learning_preferences := learning_preferences st;
                     total_score := total_score st;
                     courses_completed := courses_completed st + 1;
                     quizzes_taken := quizzes_taken st;
                     learning_streak := learning_streak st |}
           /\ (exists more, written a' = written a ++ CourseGenerated :: more
                 /\ (forall d, c = JDict d -> dict_get "title" d = None ->
                       r = inl (KeyError "title") /\ more = []))
       | _ => user_data (session_state a') !! u = Some st /\ written a' = written a
              /\ r = inr tt
       end.
Proof.
  intros Hu Hst.
  destruct (generate_course_never_raises E now today topic level duration (session_state a))
    as (course & s1 & Hgen).
  destruct (generators_progress E now today topic level duration "" 0 [] []
              (session_state a)) as [Hprog _].
  rewrite Hgen in Hprog. unfold progress_of in Hprog. cbn [snd] in Hprog.
  injection Hprog as Hud Hcu _ _ _ _.
  unfold course_generator_click, hbind. unfold in_session at 1.
  rewrite Hgen. cbn [fst].
  destruct course as [c |].
  - destruct (generated_course_dict E now today topic level duration (session_state a) c)
      as (d & -> & _); [by rewrite Hgen |].
    rewrite stamped_truthy. unfold in_session. cbn [session_state set_state].
    rewrite (record_course_eq _ s1 u st) by congruence.
    match goal with
    | |- context [show_course ?c0 ?a0] =>
        destruct (show_course_run c0 a0) as (r & a' & more & -> & Hu' & Hl' & Hs' & Hw & Ht)
    end.
    cbn [users logged_in session_state written set_state] in Hu', Hl', Hs', Hw.
    exists r, a'. rewrite Hu', Hl', Hs'.
    cbn [current_user user_data set_user_data].
    rewrite lookup_insert_eq.
    split; [done |]. split; [done |]. split; [done |]. split; [congruence |].
    split; [done |]. exists more. split; [done | exact Ht].
  - exists (inr tt), (set_state s1 a). unfold hret.
    cbn [users logged_in session_state written set_state].
    repeat split; congruence.
Qed.

Lemma courses_ok_add (st : user_stats) (today topic level : string)
    (d : list (string * json)) :
  courses_ok st ->
  courses_ok {| courses := courses st ++ [JDict (stamped today topic level d)];
                quiz_history := quiz_history st;
                learning_preferences := learning_preferences st;
                total_score := total_score st;
                courses_completed := courses_completed st + 1;
                quizzes_taken := quizzes_taken st;
                learning_streak := learning_streak st |}.
Proof.
  intros [Hn Hall]. split; cbn [courses courses_completed].
  - rewrite List.length_app. simpl. lia.
  - apply Forall_app. split; [done |]. constructor; [| constructor].
    by destruct (stamped_keys today topic level d) as (? & ? & ? & _).
Qed.

(** X18.  A click on Generate Course keeps the course record sound:
    the counter stays equal to the number of stored courses and every
    stored course carries its metadata.  A generated course is appended
    last, with the requested topic as the last entry of the history of
    topics; when nothing was generated the record is untouched.  The quiz
    totals are never changed. *)
Theorem course_click_records (E : environment) (now : Q)
    (today topic level duration : string) (a : application)
    (u : string) (st : user_stats) :
  current_user (session_state a) = Some u ->
  user_data (session_state a) !! u = Some st ->
  courses_ok st ->
  exists r a' st',
    course_generator_click E now today topic level duration a = (r, a')
    /\ user_data (session_state a') !! u = Some st'
    /\ courses_ok st'
    /\ quiz_history st' = quiz_history st
    /\ total_score st' = total_score st
    /\ quizzes_taken st' = quizzes_taken st
    /\ (forall c,
          fst (generate_course E now today topic level duration (session_state a))
          = inr (Some c) ->
          courses st' = courses st ++ [c]
          /\ forall ts, user_topics (courses st) = inr ts ->
                        user_topics (courses st') = inr (ts ++ [JStr topic]))
    /\ (fst (generate_course E now today topic level duration (session_state a))
        = inr None -> st' = st /\ r = inr tt).
Proof.
  intros Hu Hst Hok.
  destruct (course_click_run E now today topic level duration a u st Hu Hst)
    as (r & a' & Hrun & _ & _ & _ & Hcase).
  destruct (fst (generate_course E now today topic level duration (session_state a)))
    as [e | [c |]] eqn:Hgen.
  - destruct Hcase as (Hst' & _ & Hr). exists r, a', st.
    do 6 (split; [done |]). split; [by intros c [=] | by intros _].
  - destruct Hcase as (Hst' & _).
    destruct (generated_course_dict E now today topic level duration _ c Hgen)
      as (d & -> & _).
    eexists r, a', _. split; [done |]. split; [exact Hst' |].
    split; [by apply courses_ok_add |]. do 3 (split; [done |]). split; [| done].
    intros c [= <-]. split; [done |]. intros ts Hts. cbn [courses].
    apply user_topics_app; [done |].
    by destruct (stamped_keys today topic level d) as (_ & _ & _ & ? & _).
  - destruct Hcase as (Hst' & _ & Hr). exists r, a', st.
    do 6 (split; [done |]). split; [by intros c [=] | by intros _].
Qed.

Lemma course_click_records_witness :
  let E := Demo.env (fence_json (Json.dumps Demo.course)) in
  let a := {| users := ∅; logged_in := true; session_state := Demo.session0;
              written := [] |} in
  exists r a' st',
    course_generator_click E (100 # 1) "2026-01-01" "Python" "Beginner" "1 week" a = (r, a')
    /\ user_data (session_state a') !! "ada" = Some st'
    /\ courses_ok st'
    /\ quiz_history st' = quiz_history fresh_user_stats
    /\ total_score st' = total_score fresh_user_stats
    /\ quizzes_taken st' = quizzes_taken fresh_user_stats
    /\ (forall c,
          fst (generate_course E (100 # 1) "2026-01-01" "Python" "Beginner" "1 week"
                 (session_state a)) = inr (Some c) ->
          courses st' = courses fresh_user_stats ++ [c]
          /\ forall ts, user_topics (courses fresh_user_stats) = inr ts ->
                        user_topics (courses st') = inr (ts ++ [JStr "Python"]))
    /\ (fst (generate_course E (100 # 1) "2026-01-01" "Python" "Beginner" "1 week"
               (session_state a)) = inr None -> st' = fresh_user_stats /\ r = inr tt).
Proof.
  intros E a.
  apply (course_click_records E (100 # 1) "2026-01-01" "Python" "Beginner" "1 week" a
           "ada" fresh_user_stats).
  - reflexivity.
  - reflexivity.
  - split; [reflexivity | constructor].
Defined.

(** The history of topics grows by the topic of each request that
    produced a course. *)
Lemma history_after_clicks (E : environment) (reqs : list course_request) :
  forall (a : application) (u : string) (st : user_stats) (ts : list json),
  current_user (session_state a) = Some u ->
  user_data (session_state a) !! u = Some st ->
  user_topics (courses st) = inr ts ->
  exists st',
    user_data (session_state (course_clicks E reqs a)) !! u = Some st'
    /\ current_user (session_state (course_clicks E reqs a)) = Some u
    /\ user_topics (courses st') = inr (ts ++ generated_topics E reqs a)
    /\ length (courses st')
       = (length (courses st) + length (generated_topics E reqs a))%nat
    /\ courses_completed st'
       = courses_completed st + Z.of_nat (length (generated_topics E reqs a)).
Proof.
  induction reqs as [| r reqs IH]; intros a u st ts Hu Hst Hts.
  - exists st. cbn [course_clicks generated_topics length]. rewrite app_nil_r.
    repeat split; [done | done | done | lia | lia].
  - cbn [course_clicks generated_topics]. unfold click_course at 1 3.
    destruct (course_click_run E (asked_at r) (asked_on r) (asked_topic r)
                (asked_level r) (asked_duration r) a u st Hu Hst)
      as (res & a1 & Hrun & _ & _ & Hu1 & Hcase).
    unfold click_course. rewrite Hrun. cbn [snd].
    destruct (fst (generate_course E (asked_at r) (asked_on r) (asked_topic r)
                     (asked_level r) (asked_duration r) (session_state a)))
      as [e | [c |]] eqn:Hgen.
    + destruct Hcase as (Hst1 & _).
      destruct (IH a1 u st ts Hu1 Hst1 Hts) as (st' & ? & ? & ? & ? & ?).
      by exists st'.
    + destruct Hcase as (Hst1 & _).
      destruct (generated_course_dict E _ _ _ _ _ _ c Hgen) as (d & -> & _).
      pose proof (stamped_keys (asked_on r) (asked_topic r) (asked_level r) d)
        as (_ & _ & _ & Htopic & _).
      pose proof (user_topics_app _ _ _ _ Hts Htopic) as Hts1.
      destruct (IH a1 u _ _ Hu1 Hst1 Hts1) as (st' & Hst' & Hu' & Hts' & Hlen & Hcount).
      exists st'. cbn [courses courses_completed] in Hlen, Hcount.
      rewrite List.length_app in Hlen. cbn [length] in Hlen.
      rewrite <- app_assoc in Hts'. cbn [app length].
      repeat split; [done | done | done | lia | lia].
    + destruct Hcase as (Hst1 & _).
      destruct (IH a1 u st ts Hu1 Hst1 Hts) as (st' & ? & ? & ? & ? & ?).
      by exists st'.
Qed.

(** X17.  Starting from a record without courses, after any sequence of
    clicks on Generate Course (whether a click ends normally or raises
    while the course is displayed) the dashboard's history of topics does
    not fail: it is the list of the topics requested by the clicks that
    produced a course, in the order of the clicks, and the course list
    and the course counter have that length. *)
Theorem history_after_course_clicks (E : environment) (reqs : list course_request)
    (a : application) (u : string) (st : user_stats) :
  current_user (session_state a) = Some u ->
  user_data (session_state a) !! u = Some st ->
  courses st = [] ->
  exists st',
    user_data (session_state (course_clicks E reqs a)) !! u = Some st'
    /\ user_topics (courses st') = inr (generated_topics E reqs a)
    /\ length (courses st') = length (generated_topics E reqs a)
    /\ courses_completed st'
       = courses_completed st + Z.of_nat (length (generated_topics E reqs a)).
Proof.
  intros Hu Hst Hnone.
  destruct (history_after_clicks E reqs a u st [] Hu Hst) as (st' & ? & _ & ? & Hlen & ?).
  { by rewrite Hnone. }
  exists st'. rewrite Hnone in Hlen. by repeat split.
Qed.

Lemma history_after_course_clicks_witness :
  let E := Demo.env (fence_json (Json.dumps Demo.course)) in
  let a := {| users := ∅; logged_in := true; session_state := Demo.session0;
              written := [] |} in
  let reqs :=
    [ {| asked_at := 100 # 1; asked_on := "2026-01-01"; asked_topic := "Python";
         asked_level := "Beginner"; asked_duration := "1 week" |};
      {| asked_at := 101 # 1; asked_on := "2026-01-01"; asked_topic := "Rust";
         asked_level := "Advanced"; asked_duration := "1 month" |} ] in
  exists st',
    user_data (session_state (course_clicks E reqs a)) !! "ada" = Some st'
    /\ user_topics (courses st') = inr (generated_topics E reqs a)
    /\ length (courses st') = length (generated_topics E reqs a)
    /\ courses_completed st'
       = courses_completed fresh_user_stats
         + Z.of_nat (length (generated_topics E reqs a)).
Proof.
  intros E a reqs.
  apply (history_after_course_clicks E reqs a "ada" fresh_user_stats); reflexivity.
Defined.

(** Two clicks that both produce a course: the history holds the two
    topics and the record the two stamped courses. *)
Example history_of_two_clicks :
  let E := Demo.env (fence_json (Json.dumps Demo.course)) in
  let a := {| users := ∅; logged_in := true; session_state := Demo.session0;
              written := [] |} in
  let ask t := {| asked_at := 100 # 1; asked_on := "2026-01-01"; asked_topic := t;
                  asked_level := "Beginner"; asked_duration := "1 week" |} in
  generated_topics E [ask "Python"; ask "Rust"] a = [JStr "Python"; JStr "Rust"]
  /\ (courses <$> user_data (session_state (course_clicks E [ask "Python"; ask "Rust"] a))
        !! "ada")
     = Some [ JDict (stamped "2026-01-01" "Python" "Beginner"
                       match Demo.course with JDict d => d | _ => [] end);
              JDict (stamped "2026-01-01" "Rust" "Beginner"
                       match Demo.course with JDict d => d | _ => [] end) ].
Proof. vm_compute. split; reflexivity. Qed.

(** A course list that ends with an object without a title makes the
    profile page raise. *)
Lemma show_profile_courses_untitled (c : json) (d : list (string * json)) :
  c = JDict d -> dict_get "title" d = None ->
  forall cs a, exists e a', show_profile_courses (cs ++ [c]) a = (inl e, a').
Proof.
  intros -> Hd. induction cs as [| c0 cs IH]; intros a.
  - simpl. unfold hbind, hlift. simpl. rewrite Hd. eauto.
  - cbn [app show_profile_courses]. unfold hbind, hlift, write, hmodify.
    destruct (getitem c0 "title"); [eauto |].
    destruct (getitem c0 "level"); [eauto |].
    destruct (getitem c0 "created_date"); [eauto |].
    destruct (getitem c0 "modules") as [e | ms]; [eauto |].
    destruct (len ms); [eauto |]. apply IH.
Qed.

(** X19.  The course is stored before it is shown: when the decoded
    object has no [title], the click appends it to the user's courses and
    counts it, writes only the success banner and then raises
    [KeyError]; from then on the profile page raises as well. *)
Theorem untitled_course_is_stored (E : environment) (now : Q)
    (today topic level duration : string) (a : application)
    (u : string) (st : user_stats) (c : json) :
  current_user (session_state a) = Some u ->
  user_data (session_state a) !! u = Some st ->
  fst (generate_course E now today topic level duration (session_state a))
  = inr (Some c) ->
  has_key "title" c = false ->
  exists a' st',
    course_generator_click E now today topic level duration a
    = (inl (KeyError "title"), a')
    /\ written a' = written a ++ [CourseGenerated]
    /\ user_data (session_state a') !! u = Some st'
    /\ courses st' = courses st ++ [c]
    /\ courses_completed st' = courses_completed st + 1
    /\ exists e a'', profile_courses a' = (inl e, a'').
Proof.
  intros Hu Hst Hgen Htitle.
  destruct (course_click_run E now today topic level duration a u st Hu Hst)
    as (r & a' & Hrun & _ & _ & Hu' & Hcase).
  rewrite Hgen in Hcase. destruct Hcase as (Hst' & more & Hw & Hraise).
  destruct (generated_course_dict E now today topic level duration _ c Hgen)
    as (d & -> & _).
  assert (dict_get "title" (stamped today topic level d) = None) as Hd.
  { unfold has_key, getitem in Htitle. by destruct (dict_get "title" _). }
  destruct (Hraise _ eq_refl Hd) as [-> ->].
  eexists a', _. split; [done |]. split; [done |]. split; [exact Hst' |].
  do 2 (split; [done |]).
  unfold profile_courses, hbind, hget. rewrite Hu', Hst'. cbn [courses].
  destruct (courses st ++ [JDict (stamped today topic level d)]) as [| c0 cs] eqn:Hcs.
  { by destruct (courses st). }
  rewrite <- Hcs. by apply (show_profile_courses_untitled _ _ eq_refl Hd).
Qed.

Lemma untitled_course_is_stored_witness :
  let E := Demo.env "{}" in
  let a := {| users := ∅; logged_in := true; session_state := Demo.session0;
              written := [] |} in
  exists a' st',
    course_generator_click E (100 # 1) "2026-01-01" "Python" "Beginner" "1 week" a
    = (inl (KeyError "title"), a')
    /\ written a' = written a ++ [CourseGenerated]
    /\ user_data (session_state a') !! "ada" = Some st'
    /\ courses st' = courses fresh_user_stats
                     ++ [JDict (stamped "2026-01-01" "Python" "Beginner" [])]
    /\ courses_completed st' = courses_completed fresh_user_stats + 1
    /\ exists e a'', profile_courses a' = (inl e, a'').
Proof.
  intros E a.
  apply (untitled_course_is_stored E (100 # 1) "2026-01-01" "Python" "Beginner" "1 week"
           a "ada" fresh_user_stats).
  - reflexivity.
  - reflexivity.
  - vm_compute. reflexivity.
  - reflexivity.
Defined.

(** ** The quiz page *)

(** What a click on Submit does, for a quiz whose questions carry a
    [correct] value. *)
Lemma submit_quiz_run (stamp : string) (s : session) (quiz : json)
    (questions : list json) (u : string) (st : user_stats) :
  current_quiz s = Some quiz ->
  getitem quiz "questions" = inr (JList questions) ->
  questions <> [] ->
  forallb (has_key "correct") questions = true ->
  current_user s = Some u ->
  user_data s !! u = Some st ->
  let k := matching (quiz_answers s) questions in
  let n := Z.of_nat (length questions) in
  let sc := (inject_Z k / inject_Z n * 100)%Q in
  let s1 := scored stamp sc k n u st s in
  exists r feedback,
    submit_quiz stamp s = (r, set_ui (ui s1 ++ feedback) s1)
    /\ (forallb (has_key "explanation") questions = true -> r = inr tt).
Proof.
  intros Hquiz Hqs Hne Hkeys Hu Hst k n sc s1.
  assert (0 < n) as Hn.
  { subst n. destruct questions; [done | simpl; lia]. }
  unfold submit_quiz. unfold bind at 1. unfold get at 1. rewrite Hquiz.
  unfold bind at 1. unfold lift at 1. rewrite Hqs.
  unfold bind at 1. unfold lift at 1. cbn [iter].
  unfold bind at 1. unfold lift at 1.
  rewrite count_correct_matching by done. rewrite Z.add_0_l.
  change (Z.of_nat (length (filter _ _))) with k.
  unfold bind at 1. unfold lift at 1. cbn [len]. fold n.
  unfold bind at 1. unfold lift at 1. unfold compute_score.
  replace (n =? 0) with false by (symmetry; apply Z.eqb_neq; lia).
  fold sc.
  unfold bind at 1. unfold modify at 1.
  unfold bind at 1.
  rewrite (record_quiz_attempt_eq sc stamp _ u st) by done.
  unfold bind at 1. unfold show at 1, modify at 1.
  unfold bind at 1. unfold show at 1, modify at 1.
  match goal with
  | |- context [show_feedback ?a ?i ?q ?s0] =>
      destruct (show_feedback_frame a q i s0) as (r & extra & -> & Hok)
  end.
  exists r, extra. split.
  - f_equal. subst s1. unfold scored. simpl. by rewrite <- !app_assoc.
  - intros He. by apply Hok.
Qed.

Lemma generate_quiz_click_eq (E : environment) (now : Q)
    (quiz_topic_input difficulty : string) (n : Z) (s : session) :
  generate_quiz_click E now quiz_topic_input difficulty n s =
  match generate_quiz E now quiz_topic_input difficulty n s with
  | (inr (Some q), s0) =>
      if truthy_json q
      then (inr tt,
            set_quiz_topic quiz_topic_input
              (set_quiz_answers ∅ (set_current_quiz (Some q) s0)))
      else (inr tt, s0)
  | (inr None, s0) => (inr tt, s0)
  | (inl e, s0) => (inl e, s0)
  end.
Proof.
  unfold generate_quiz_click, bind.
  destruct (generate_quiz E now quiz_topic_input difficulty n s) as [[e | [q |]] s0];
    try done.
  by destruct (truthy_json q).
Qed.

(** X20.  A click on Generate Quiz stores the decoded value as the
    current quiz, with the answers cleared and the topic set, exactly
    when that value is truthy; a failed generation, or an empty object,
    an empty list or [null] from the backend, leaves the quiz state as it
    was.  The progress records are untouched either way. *)
Theorem quiz_click_stores_truthy (E : environment) (now : Q)
    (quiz_topic_input difficulty : string) (n : Z) (s : session) :
  let generated := fst (generate_quiz E now quiz_topic_input difficulty n s) in
  let s' := snd (generate_quiz_click E now quiz_topic_input difficulty n s) in
  fst (generate_quiz_click E now quiz_topic_input difficulty n s) = inr tt
  /\ user_data s' = user_data s
  /\ (forall q, generated = inr (Some q) -> truthy_json q = true ->
        current_quiz s' = Some q /\ quiz_answers s' = ∅
        /\ quiz_topic s' = quiz_topic_input)
  /\ (generated = inr None
      \/ (exists q, generated = inr (Some q) /\ truthy_json q = false) ->
      current_quiz s' = current_quiz s /\ quiz_answers s' = quiz_answers s
      /\ quiz_topic s' = quiz_topic s).
Proof.
  intros generated s'. subst generated s'.
  rewrite generate_quiz_click_eq.
  destruct (generators_progress E now "" quiz_topic_input "" "" difficulty n [] [] s)
    as (_ & Hprog & _).
  destruct (generate_quiz_never_raises E now quiz_topic_input difficulty n s)
    as (r & s0 & Hgen).
  rewrite Hgen in *. unfold progress_of in Hprog. cbn [snd fst] in *.
  injection Hprog as Hud Hcu Hcq Hqa Hqs Hqt.
  destruct r as [q |].
  - destruct (truthy_json q) eqn:Htruthy; cbn [fst snd].
    + split; [done |]. split; [done |]. split.
      * by intros q' [= <-] _.
      * intros [[=] | (q' & [= <-] & Hf)]. congruence.
    + split; [done |]. split; [done |]. split.
      * intros q' [= <-] Ht. congruence.
      * by intros _.
  - cbn [fst snd]. split; [done |]. split; [done |]. split; [by intros q [=] |].
    by intros _.
Qed.

Lemma quiz_click_stores_truthy_witness :
  let E := Demo.env "{}" in
  let generated := fst (generate_quiz E (100 # 1) "Python" "Easy" 3 Demo.session_quiz) in
  let s' := snd (generate_quiz_click E (100 # 1) "Python" "Easy" 3 Demo.session_quiz) in
  fst (generate_quiz_click E (100 # 1) "Python" "Easy" 3 Demo.session_quiz) = inr tt
  /\ user_data s' = user_data Demo.session_quiz
  /\ (forall q, generated = inr (Some q) -> truthy_json q = true ->
        current_quiz s' = Some q /\ quiz_answers s' = ∅ /\ quiz_topic s' = "Python")
  /\ (generated = inr None
      \/ (exists q, generated = inr (Some q) /\ truthy_json q = false) ->
      current_quiz s' = current_quiz Demo.session_quiz
      /\ quiz_answers s' = quiz_answers Demo.session_quiz
      /\ quiz_topic s' = quiz_topic Demo.session_quiz).
Proof.
  intros E. apply (quiz_click_stores_truthy E (100 # 1) "Python" "Easy" 3 Demo.session_quiz).
Defined.

(** An empty object from the backend is dropped without a word: the
    quiz being taken stays. *)
Example empty_object_quiz_dropped :
  let s' := snd (generate_quiz_click (Demo.env "{}") (100 # 1) "Python" "Easy" 3
                   Demo.session_quiz) in
  current_quiz s' = Some Demo.quiz3
  /\ ui s' = [InfoUsingModel "gemini-1.5-flash"].
Proof. vm_compute. split; reflexivity. Qed.

(** After the question loop the matching answers are the selections
    that start with the right tag. *)
Lemma matching_after_render (selected : nat -> string) (questions : list json)
    (answers : gmap nat string) :
  (forall i, (i < length questions)%nat ->
     answers !! i = Some (Py.take 1 (selected i))) ->
  (forall i, (i < length questions)%nat -> selected i <> "") ->
  matching answers questions =
  Z.of_nat (length (filter (fun b => b = true)
                      (imap (picked_right selected) questions))).
Proof.
  intros Hanswers Hsel. unfold matching. do 3 f_equal.
  apply imap_ext. intros i q Hq.
  assert (i < length questions)%nat as Hi by (by eapply lookup_lt_Some).
  unfold is_match, picked_right. rewrite (Hanswers i Hi).
  specialize (Hsel i Hi). destruct (selected i) as [| ch rest]; [done |].
  cbn [Py.take]. destruct (getitem q "correct") as [e | c]; [done |].
  by destruct c.
Qed.

(** X21.  Taking a well-formed quiz end to end: rendering the questions
    with a selection for each and then submitting returns normally, and
    the score is 100 times the share of questions whose selected option
    starts with the question's [correct] value; that score is stored and
    appended once to the user's history under the quiz topic. *)
Theorem quiz_taken (selected : nat -> string) (stamp : string) (s : session)
    (quiz : json) (questions : list json) (u : string) (st : user_stats) :
  current_quiz s = Some quiz ->
  getitem quiz "questions" = inr (JList questions) ->
  questions <> [] ->
  forallb (has_key "question") questions = true ->
  forallb (has_key "options") questions = true ->
  forallb (has_key "correct") questions = true ->
  forallb (has_key "explanation") questions = true ->
  (forall i, (i < length questions)%nat -> selected i <> "") ->
  current_user s = Some u ->
  user_data s !! u = Some st ->
  let k := Z.of_nat (length (filter (fun b => b = true)
                               (imap (picked_right selected) questions))) in
  let sc := (inject_Z k / inject_Z (Z.of_nat (length questions)) * 100)%Q in
  exists s' st',
    (render_questions selected ;;; submit_quiz stamp) s = (inr tt, s')
    /\ quiz_score s' = Some sc
    /\ user_data s' !! u = Some st'
    /\ quiz_history st' =
       quiz_history st ++ [ {| topic := quiz_topic s; score := sc; date := stamp |} ]
    /\ quizzes_taken st' = quizzes_taken st + 1
    /\ total_score st' = (total_score st + sc)%Q.
Proof.
  intros Hquiz Hqs Hne Hq Ho Hc He Hsel Hu Hst k sc.
  destruct (store_answers_spec selected questions Hq Ho O s Hsel)
    as (answers & Hrender & Hnew & _).
  unfold bind at 1.
  assert (render_questions selected s = (inr tt, set_quiz_answers answers s)) as ->.
  { unfold render_questions, bind, get, lift. rewrite Hquiz, Hqs. cbn [iter].
    exact Hrender. }
  destruct (submit_quiz_run stamp (set_quiz_answers answers s) quiz questions u st)
    as (r & feedback & Hrun & Hok); try done.
  rewrite Hrun, (Hok He).
  cbn [quiz_answers set_quiz_answers].
  rewrite (matching_after_render selected questions answers Hnew Hsel).
  fold k. fold sc.
  eexists _, _. split; [reflexivity |].
  unfold scored. cbn. rewrite lookup_insert_eq. repeat split.
Qed.

Lemma quiz_taken_witness :
  let questions :=
    [ Demo.question "first?" "A"; Demo.question "second?" "B";
      Demo.question "third?" "C" ] in
  let k := Z.of_nat (length (filter (fun b => b = true)
                               (imap (picked_right Demo.picks) questions))) in
  let sc := (inject_Z k / inject_Z (Z.of_nat (length questions)) * 100)%Q in
  exists s' st',
    (render_questions Demo.picks ;;; submit_quiz "2026-01-01 10:00") Demo.session_quiz
    = (inr tt, s')
    /\ quiz_score s' = Some sc
    /\ user_data s' !! "ada" = Some st'
    /\ quiz_history st' =
       quiz_history fresh_user_stats
       ++ [ {| topic := quiz_topic Demo.session_quiz; score := sc;
               date := "2026-01-01 10:00" |} ]
    /\ quizzes_taken st' = quizzes_taken fresh_user_stats + 1
    /\ total_score st' = (total_score fresh_user_stats + sc)%Q.
Proof.
  intros questions.
  apply (quiz_taken Demo.picks "2026-01-01 10:00" Demo.session_quiz Demo.quiz3
           questions "ada" fresh_user_stats).
  - reflexivity.
  - reflexivity.
  - discriminate.
  - reflexivity.
  - reflexivity.
  - reflexivity.
  - reflexivity.
  - intros [| [| [| i]]] Hi; simpl in *; first [discriminate | lia].
  - reflexivity.
  - reflexivity.
Defined.

(** X22.  Nothing stops a second click on Submit: each click on the
    same answered quiz appends another attempt with the same score and
    counts another quiz. *)
Theorem submit_twice_counts_twice (stamp1 stamp2 : string) (s : session)
    (quiz : json) (questions : list json) (u : string) (st : user_stats) :
  current_quiz s = Some quiz ->
  getitem quiz "questions" = inr (JList questions) ->
  questions <> [] ->
  forallb (has_key "correct") questions = true ->
  forallb (has_key "explanation") questions = true ->
  current_user s = Some u ->
  user_data s !! u = Some st ->
  let k := matching (quiz_answers s) questions in
  let sc := (inject_Z k / inject_Z (Z.of_nat (length questions)) * 100)%Q in
  exists s' st',
    (submit_quiz stamp1 ;;; submit_quiz stamp2) s = (inr tt, s')
    /\ user_data s' !! u = Some st'
    /\ quiz_history st' =
       quiz_history st
       ++ [ {| topic := quiz_topic s; score := sc; date := stamp1 |};
            {| topic := quiz_topic s; score := sc; date := stamp2 |} ]
    /\ quizzes_taken st' = quizzes_taken st + 2
    /\ total_score st' = (total_score st + sc + sc)%Q.
Proof.
  intros Hquiz Hqs Hne Hc He Hu Hst k sc.
  destruct (submit_quiz_run stamp1 s quiz questions u st)
    as (r & feedback & Hrun & Hok); try done.
  unfold bind at 1. rewrite Hrun, (Hok He).
  set (n := Z.of_nat (length questions)) in *.
  set (s1 := set_ui _ _).
  set (st1 := add_attempt {| topic := quiz_topic s; score := sc; date := stamp1 |} st).
  destruct (submit_quiz_run stamp2 s1 quiz questions u st1)
    as (r2 & feedback2 & Hrun2 & Hok2); try done.
  { subst s1. unfold scored. cbn. apply lookup_insert_eq. }
  rewrite Hrun2, (Hok2 He).
  eexists _, _. split; [reflexivity |].
  subst s1. unfold scored. cbn. rewrite lookup_insert_eq.
  split; [reflexivity |]. subst st1. cbn. fold k. fold n. fold sc.
  rewrite <- app_assoc. repeat split. lia.
Qed.

Lemma submit_twice_counts_twice_witness :
  let s := snd (render_questions Demo.picks Demo.session_quiz) in
  let questions :=
    [ Demo.question "first?" "A"; Demo.question "second?" "B";
      Demo.question "third?" "C" ] in
  let k := matching (quiz_answers s) questions in
  let sc := (inject_Z k / inject_Z (Z.of_nat (length questions)) * 100)%Q in
  exists s' st',
    (submit_quiz "10:00" ;;; submit_quiz "10:01") s = (inr tt, s')
    /\ user_data s' !! "ada" = Some st'
    /\ quiz_history st' =
       quiz_history fresh_user_stats
       ++ [ {| topic := quiz_topic s; score := sc; date := "10:00" |};
            {| topic := quiz_topic s; score := sc; date := "10:01" |} ]
    /\ quizzes_taken st' = quizzes_taken fresh_user_stats + 2
    /\ total_score st' = (total_score fresh_user_stats + sc + sc)%Q.
Proof.
  intros s questions.
  apply (submit_twice_counts_twice "10:00" "10:01" s Demo.quiz3 questions "ada"
           fresh_user_stats); try reflexivity. discriminate.
Defined.

(** ** Accounts *)

Section Accounts.

Variable sha256_hexdigest : string -> string.

Lemma login_click_eq (username password : string) (a : application) :
  login_click sha256_hexdigest username password a =
  match users a !! username with
  | Some stored =>
      if String.eqb stored (sha256_hexdigest password)
      then (inr tt,
            set_page (written a ++ [LoginSuccessful])
              (set_state
                 (snd (initialize_user_data username
                         (set_current_user (Some username) (session_state a))))
                 (set_logged_in true a)))
      else (inr tt, set_page (written a ++ [IncorrectPassword]) a)
  | None => (inr tt, set_page (written a ++ [UserNotFound]) a)
  end.
Proof.
  unfold login_click, hbind, hget. destruct (users a !! username) as [stored |]; [| done].
  unfold hash_password. by destruct (String.eqb stored (sha256_hexdigest password)).
Qed.

Lemma sign_up_click_eq (new_username new_password confirm_password email : string)
    (a : application) :
  sign_up_click sha256_hexdigest new_username new_password confirm_password email a =
  (inr tt,
   if Py.truthy new_username && Py.truthy new_password && Py.truthy email then
     match users a !! new_username with
     | None =>
         if String.eqb new_password confirm_password
         then set_page (written a ++ [AccountCreated])
                (set_users (<[new_username := sha256_hexdigest new_password]> (users a)) a)
         else set_page (written a ++ [PasswordsDontMatch]) a
     | Some _ => set_page (written a ++ [UsernameExists]) a
     end
   else set_page (written a ++ [FillAllFields]) a).
Proof.
  unfold sign_up_click, hbind, hget.
  destruct (Py.truthy new_username && Py.truthy new_password && Py.truthy email);
    [| done].
  destruct (users a !! new_username); [done |].
  unfold hash_password. by destruct (String.eqb new_password confirm_password).
Qed.

Lemma initialize_user_data_lookup (username : string) (s : session) :
  let s' := snd (initialize_user_data username s) in
  is_Some (user_data s' !! username)
  /\ user_data s ⊆ user_data s'
  /\ current_user s' = current_user s.
Proof.
  unfold initialize_user_data, modify. cbn [snd].
  destruct (user_data s !! username) as [st |] eqn:Hst.
  - rewrite Hst. by repeat split.
  - cbn. rewrite lookup_insert_eq. repeat split; [by eexists |].
    by apply insert_subseteq.
Qed.

(** X23.  Signing up and then logging in with the same password always
    works, whatever the hash function: a free username with non-empty
    fields and a confirmed password gets an account, and the login that
    follows sets the login flag, makes that user current and gives them a
    progress record. *)
Theorem sign_up_then_login (new_username new_password email : string)
    (a : application) :
  Py.truthy new_username = true ->
  Py.truthy new_password = true ->
  Py.truthy email = true ->
  users a !! new_username = None ->
  exists a',
    (sign_up_click sha256_hexdigest new_username new_password new_password email ;;>
     login_click sha256_hexdigest new_username new_password)%page a = (inr tt, a')
    /\ logged_in a' = true
    /\ current_user (session_state a') = Some new_username
    /\ is_Some (user_data (session_state a') !! new_username)
    /\ users a' !! new_username = Some (sha256_hexdigest new_password)
    /\ written a' = written a ++ [AccountCreated; LoginSuccessful].
Proof.
  intros Hu Hp He Hfree. unfold hbind.
  rewrite sign_up_click_eq, Hu, Hp, He, Hfree, String.eqb_refl. cbn [andb].
  rewrite login_click_eq. cbn [users set_page set_users].
  rewrite lookup_insert_eq, String.eqb_refl.
  eexists. split; [reflexivity |].
  cbn [logged_in session_state users written set_page set_state set_logged_in set_users].
  destruct (initialize_user_data_lookup new_username
              (set_current_user (Some new_username) (session_state a)))
    as (Hrec & _ & Hcur).
  repeat split; try done.
  - by rewrite lookup_insert_eq.
  - by rewrite <- app_assoc.
Qed.

(** What one step on the login page keeps. *)
Lemma auth_step_keeps (act : auth_action) (a : application) :
  logged_in_ok a ->
  exists a',
    auth_step sha256_hexdigest act a = (inr tt, a')
    /\ logged_in_ok a'
    /\ users a ⊆ users a'
    /\ user_data (session_state a) ⊆ user_data (session_state a').
Proof.
  intros Hok. destruct act as [u p | u p c e |]; cbn [auth_step].
  - rewrite login_click_eq.
    destruct (users a !! u) as [stored |]; [| by eexists].
    destruct (String.eqb stored (sha256_hexdigest p)); [| by eexists].
    eexists. split; [reflexivity |].
    cbn [logged_in session_state users written set_page set_state set_logged_in].
    destruct (initialize_user_data_lookup u
                (set_current_user (Some u) (session_state a)))
      as (Hrec & Hsub & Hcur).
    split; [| split].
    + intros _. exists u. cbn [session_state set_page set_state]. by rewrite Hcur.
    + done.
    + exact Hsub.
  - rewrite sign_up_click_eq. eexists. split; [reflexivity |].
    destruct (Py.truthy u && Py.truthy p && Py.truthy e); [| done].
    destruct (users a !! u) eqn:Hfree; [done |].
    destruct (String.eqb p c); [| done].
    cbn [logged_in session_state users set_page set_users].
    repeat split; try done. by apply insert_subseteq.
  - eexists. split; [reflexivity |]. cbn. repeat split; done.
Qed.

(** X24.  Any sequence of sign-ups, logins and logouts runs without an
    exception and keeps three things: whoever is logged in has a progress
    record; no account is removed or given another password hash; and no
    progress record is removed or changed, so logging out and in again
    brings the same progress back. *)
Theorem auth_run_keeps (acts : list auth_action) : forall a : application,
  logged_in_ok a ->
  exists a',
    auth_run sha256_hexdigest acts a = (inr tt, a')
    /\ logged_in_ok a'
    /\ users a ⊆ users a'
    /\ user_data (session_state a) ⊆ user_data (session_state a').
Proof.
  induction acts as [| act acts IH]; intros a Hok.
  - exists a. by repeat split.
  - destruct (auth_step_keeps act a Hok) as (a1 & Hstep & Hok1 & Hu1 & Hd1).
    destruct (IH a1 Hok1) as (a' & Hrun & Hok' & Hu' & Hd').
    exists a'. cbn [auth_run]. unfold hbind. rewrite Hstep, Hrun.
    repeat split; try done; by etrans.
Qed.

(** X25.  A login goes through exactly when the stored hash for the
    username equals the hash of the password typed; otherwise the
    application is as before except for one error message. *)
Theorem login_iff_hash_matches (username password : string) (a : application) :
  logged_in a = false ->
  let a' := snd (login_click sha256_hexdigest username password a) in
  (logged_in a' = true <-> users a !! username = Some (sha256_hexdigest password))
  /\ (users a !! username <> Some (sha256_hexdigest password) ->
      a' = set_page (written a ++ [IncorrectPassword]) a
      \/ a' = set_page (written a ++ [UserNotFound]) a).
Proof.
  intros Hout a'. subst a'. rewrite login_click_eq.
  destruct (users a !! username) as [stored |] eqn:Hstored.
  - destruct (String.eqb stored (sha256_hexdigest password)) eqn:Heq; cbn [snd].
    + apply String.eqb_eq in Heq as ->. by repeat split.
    + apply String.eqb_neq in Heq. cbn [logged_in set_page]. rewrite Hout.
      split; [split; [done | congruence] | auto].
  - cbn [snd logged_in set_page]. rewrite Hout. split; [done | auto].
Qed.

End Accounts.

Lemma sign_up_then_login_witness :
  exists a',
    (sign_up_click (fun p => "sha:" +:+ p) "ada" "s3cret" "s3cret" "ada@example.org" ;;>
     login_click (fun p => "sha:" +:+ p) "ada" "s3cret")%page initial_application
    = (inr tt, a')
    /\ logged_in a' = true
    /\ current_user (session_state a') = Some "ada"
    /\ is_Some (user_data (session_state a') !! "ada")
    /\ users a' !! "ada" = Some ("sha:" +:+ "s3cret")
    /\ written a' = written initial_application ++ [AccountCreated; LoginSuccessful].
Proof.
  apply (sign_up_then_login (fun p => "sha:" +:+ p) "ada" "s3cret" "ada@example.org"
           initial_application); reflexivity.
Defined.

Lemma auth_run_keeps_witness :
  let acts := [ SignUp "ada" "s3cret" "s3cret" "ada@example.org";
                Login "ada" "s3cret"; Logout;
                SignUp "ada" "other" "other" "eve@example.org";
                Login "ada" "other"; Login "ada" "s3cret" ] in
  exists a',
    auth_run (fun p => "sha:" +:+ p) acts initial_application = (inr tt, a')
    /\ logged_in_ok a'
    /\ users initial_application ⊆ users a'
    /\ user_data (session_state initial_application) ⊆ user_data (session_state a').
Proof.
  intros acts.
  apply (auth_run_keeps (fun p => "sha:" +:+ p) acts initial_application).
  intros H. discriminate H.
Defined.

Lemma login_iff_hash_matches_witness :
  let a := set_users {[ "ada" := "sha:s3cret" ]} initial_application in
  let a' := snd (login_click (fun p => "sha:" +:+ p) "ada" "guess" a) in
  (logged_in a' = true <-> users a !! "ada" = Some ("sha:" +:+ "guess"))
  /\ (users a !! "ada" <> Some ("sha:" +:+ "guess") ->
      a' = set_page (written a ++ [IncorrectPassword]) a
      \/ a' = set_page (written a ++ [UserNotFound]) a).
Proof.
  intros a.
  apply (login_iff_hash_matches (fun p => "sha:" +:+ p) "ada" "guess" a).
  reflexivity.
Defined.

(** A second sign-up under a taken name is refused, and only the first
    password logs in. *)
Example second_sign_up_refused :
  let acts := [ SignUp "ada" "s3cret" "s3cret" "ada@example.org";
                SignUp "ada" "other" "other" "eve@example.org";
                Login "ada" "other" ] in
  let a' := snd (auth_run (fun p => "sha:" +:+ p) acts initial_application) in
  written a' = [AccountCreated; UsernameExists; IncorrectPassword]
  /\ logged_in a' = false.
Proof. vm_compute. split; reflexivity. Qed.

(** ** Failures before the backend is asked *)

(** X26.  A decoded object that is not empty but has no [questions]
    key is stored as the current quiz, and from then on the quiz page is
    stuck: every run raises [KeyError] in the question loop and changes
    nothing, whatever is selected or clicked, so neither Submit nor New
    Quiz is ever reached. *)
Theorem quiz_without_questions_blocks (E : environment) (now : Q)
    (quiz_topic_input difficulty : string) (n : Z)
    (s : session) (d : list (string * json)) :
  fst (generate_quiz E now quiz_topic_input difficulty n s) = inr (Some (JDict d)) ->
  d <> [] ->
  dict_get "questions" d = None ->
  let s1 := snd (generate_quiz_click E now quiz_topic_input difficulty n s) in
  current_quiz s1 = Some (JDict d)
  /\ forall selected stamp clicked,
       quiz_view selected stamp clicked s1 = (inl (KeyError "questions"), s1).
Proof.
  intros Hgen Hne Hd s1. subst s1. rewrite generate_quiz_click_eq.
  destruct (generate_quiz E now quiz_topic_input difficulty n s) as [r s0].
  cbn [fst] in Hgen. subst r.
  assert (truthy_json (JDict d) = true) as -> by (by destruct d).
  cbn [snd]. split; [done |]. intros selected stamp clicked.
  unfold quiz_view, render_questions, bind, get, lift.
  cbn [current_quiz set_quiz_topic set_quiz_answers set_current_quiz].
  unfold getitem. by rewrite Hd.
Qed.

Lemma quiz_without_questions_blocks_witness :
  let E := Demo.env (Json.dumps (JDict [("quiz", JList [])])) in
  let s1 := snd (generate_quiz_click E (100 # 1) "Python" "Easy" 3 Demo.session0) in
  current_quiz s1 = Some (JDict [("quiz", JList [])])
  /\ forall selected stamp clicked,
       quiz_view selected stamp clicked s1 = (inl (KeyError "questions"), s1).
Proof.
  intros E.
  apply (quiz_without_questions_blocks E (100 # 1) "Python" "Easy" 3
           Demo.session0 [("quiz", JList [])]).
  - vm_compute. reflexivity.
  - discriminate.
  - reflexivity.
Defined.

(** X27.  When configuring the client raises, the error is shown and
    nothing else happens: no permit is spent, no backend is reached, the
    course and quiz generators return nothing and the recommendations
    are the four-item list. *)
Theorem configuration_error_reported (E : environment) (now : Q)
    (today topic level duration difficulty : string) (n : Z)
    (user_history preferences : list string) (s : session) (k : string) (e : exn) :
  api_key s = Some k ->
  Py.truthy k = true ->
  genai_configure E k = Some e ->
  let s' := shown (ErrApiConfiguration (str_exn e))
              (set_calls (calls s ++ [CallConfigure k]) s) in
  generate_course E now today topic level duration s = (inr None, s')
  /\ generate_quiz E now topic difficulty n s = (inr None, s')
  /\ get_recommendations E user_history preferences s = (inr fallback_no_history, s')
  /\ request_count s' = request_count s.
Proof.
  intros Hk Htruthy Hconf s'.
  assert (configure_gemini E s = (inr false, s')) as Hrun.
  { rewrite configure_gemini_eq, Hk, Htruthy. cbv zeta. by rewrite Hconf. }
  unfold generate_course, generate_quiz, get_recommendations, bind.
  by rewrite Hrun.
Qed.

Lemma configuration_error_reported_witness :
  let E := {| json_loads := Json.loads;
              genai_configure := fun _ => Some (ClientError "invalid key");
              genai_list_models := inr Demo.models;
              genai_generate_content := fun _ _ => inr "{}";
              repr_list := Demo.repr |} in
  let s := Demo.session0 in
  let s' := shown (ErrApiConfiguration (str_exn (ClientError "invalid key")))
              (set_calls (calls s ++ [CallConfigure "key"]) s) in
  generate_course E (100 # 1) "2026-01-01" "Python" "Beginner" "1 week" s = (inr None, s')
  /\ generate_quiz E (100 # 1) "Python" "Easy" 3 s = (inr None, s')
  /\ get_recommendations E ["Python"] [] s = (inr fallback_no_history, s')
  /\ request_count s' = request_count s.
Proof.
  intros E s.
  apply (configuration_error_reported E (100 # 1) "2026-01-01" "Python" "Beginner"
           "1 week" "Easy" 3 ["Python"] [] s "key" (ClientError "invalid key"));
    reflexivity.
Defined.

(** X28.  When listing the models raises, no model is resolved and the
    cause is not shown: a permitted course request ends with the
    no-working-model error alone, a quiz request with that error and the
    hint to get a new key, and the recommendations are the five-item
    list; the backend is never asked to generate. *)
Theorem listing_failure_hidden (E : environment) (now : Q)
    (today topic level duration difficulty : string) (n : Z)
    (user_history preferences : list string) (s s1 s2 : session) (e : exn) :
  configure_gemini E s = (inr true, s1) ->
  rate_limit_check now s1 = (inr true, s2) ->
  truthy_opt (working_model s) = false ->
  user_history <> [] ->
  genai_list_models E = inl e ->
  exists s_course s_quiz s_rec,
    generate_course E now today topic level duration s = (inr None, s_course)
    /\ ui s_course = ui s2 ++ [ErrNoWorkingModel]
    /\ generate_quiz E now topic difficulty n s = (inr None, s_quiz)
    /\ ui s_quiz = ui s2 ++ [ErrNoWorkingModel; InfoGetNewKey]
    /\ get_recommendations E user_history preferences s = (inr fallback_on_failure, s_rec)
    /\ ui s_rec = ui s1
    /\ filter (fun c => outbound c = true) (calls s_course)
       = filter (fun c => outbound c = true) (calls s) ++ [CallListModels]
    /\ filter (fun c => outbound c = true) (calls s_quiz)
       = filter (fun c => outbound c = true) (calls s) ++ [CallListModels]
    /\ filter (fun c => outbound c = true) (calls s_rec)
       = filter (fun c => outbound c = true) (calls s) ++ [CallListModels].
Proof.
  intros Hconf Hpermit Hcold Hhist Hlist.
  assert (exists k, api_key s = Some k /\ Py.truthy k = true
                    /\ genai_configure E k = None
                    /\ s1 = set_calls (calls s ++ [CallConfigure k]) s)
    as (k & Hk & Htruthy & Hgc & ->).
  { rewrite configure_gemini_eq in Hconf.
    destruct (api_key s) as [k |]; [| done].
    destruct (Py.truthy k) eqn:Ht; [| done]. cbv zeta in Hconf.
    destruct (genai_configure E k) eqn:Hg; [done |]. injection Hconf as <-.
    by exists k. }
  assert (forall s0, api_key s0 = Some k -> working_model s0 = working_model s ->
            get_working_model E s0 =
            (inr None,
             set_calls (calls s0 ++ [CallConfigure k; CallListModels]) s0)) as Hmodel.
  { intros s0 Hk0 Hw0. unfold get_working_model, bind, get, ret. rewrite Hw0, Hcold.
    rewrite test_api_key_and_list_models_eq, Hk0, Htruthy. cbv zeta.
    rewrite Hgc, Hlist. cbn [fst]. f_equal. unfold set_calls. simpl.
    by rewrite <- app_assoc. }
  assert (api_key s2 = Some k /\ working_model s2 = working_model s
          /\ calls s2 = calls s ++ [CallConfigure k]) as (Hk2 & Hw2 & Hc2).
  { rewrite rate_limit_check_eq in Hpermit. cbv zeta in Hpermit.
    unfold after_reset_test in Hpermit.
    destruct (Py.gt _ 60) in Hpermit; destruct (_ && _) in Hpermit; try done;
      injection Hpermit as <-; by repeat split. }
  unfold generate_course, generate_quiz, get_recommendations, bind.
  rewrite Hconf. cbn [negb]. rewrite Hpermit. cbn [negb orb].
  rewrite (bool_decide_eq_false_2 _ Hhist).
  rewrite (Hmodel s2 Hk2 Hw2),
    (Hmodel (set_calls (calls s ++ [CallConfigure k]) s) Hk eq_refl).
  cbn [truthy_opt negb]. unfold show, modify, ret.
  eexists _, _, _. split; [reflexivity |]. split; [reflexivity |].
  split; [reflexivity |]. split; [simpl; by rewrite <- app_assoc |].
  split; [reflexivity |]. split; [reflexivity |].
  cbn [calls set_ui set_calls]. rewrite Hc2.
  rewrite <- !app_assoc, !filter_app. repeat split; simpl;
    rewrite ?filter_cons_False, ?filter_cons_True, ?filter_nil by done; done.
Qed.

Lemma listing_failure_hidden_witness :
  let E := {| json_loads := Json.loads;
              genai_configure := fun _ => None;
              genai_list_models := inl (ClientError "503 unavailable");
              genai_generate_content := fun _ _ => inr "{}";
              repr_list := Demo.repr |} in
  let s := Demo.session0 in
  let s1 := snd (configure_gemini E s) in
  let s2 := snd (rate_limit_check (100 # 1) s1) in
  exists s_course s_quiz s_rec,
    generate_course E (100 # 1) "2026-01-01" "Python" "Beginner" "1 week" s
    = (inr None, s_course)
    /\ ui s_course = ui s2 ++ [ErrNoWorkingModel]
    /\ generate_quiz E (100 # 1) "Python" "Easy" 3 s = (inr None, s_quiz)
    /\ ui s_quiz = ui s2 ++ [ErrNoWorkingModel; InfoGetNewKey]
    /\ get_recommendations E ["Python"] [] s = (inr fallback_on_failure, s_rec)
    /\ ui s_rec = ui s1
    /\ filter (fun c => outbound c = true) (calls s_course)
       = filter (fun c => outbound c = true) (calls s) ++ [CallListModels]
    /\ filter (fun c => outbound c = true) (calls s_quiz)
       = filter (fun c => outbound c = true) (calls s) ++ [CallListModels]
    /\ filter (fun c => outbound c = true) (calls s_rec)
       = filter (fun c => outbound c = true) (calls s) ++ [CallListModels].
Proof.
  intros E s s1 s2.
  apply (listing_failure_hidden E (100 # 1) "2026-01-01" "Python" "Beginner" "1 week"
           "Easy" 3 ["Python"] [] s s1 s2 (ClientError "503 unavailable")).
  - vm_compute. reflexivity.
  - vm_compute. reflexivity.
  - reflexivity.
  - discriminate.
  - reflexivity.
Defined.

(** ** What logging out leaves behind *)

Section Browser.

Variable sha256_hexdigest : string -> string.

Lemma auth_step_shared (act : auth_action) (a : application) :
  exists a',
    auth_step sha256_hexdigest act a = (inr tt, a')
    /\ shared_of (session_state a') = shared_of (session_state a).
Proof.
  destruct act as [u p | u p c e |]; cbn [auth_step].
  - rewrite login_click_eq.
    destruct (users a !! u) as [stored |]; [| by eexists].
    destruct (String.eqb stored (sha256_hexdigest p)); [| by eexists].
    eexists. split; [reflexivity |].
    cbn [session_state set_page set_state set_logged_in].
    unfold initialize_user_data, modify. cbn [snd].
    by destruct (user_data _ !! u).
  - rewrite sign_up_click_eq. eexists. split; [reflexivity |].
    destruct (Py.truthy u && Py.truthy p && Py.truthy e); [| done].
    destruct (users a !! u); [done |].
    by destruct (String.eqb p c).
  - by eexists.
Qed.

(** X29.  Logging out clears nothing but the login flag and the current
    user: after any sequence of sign-ups, logins and logouts the API key,
    the resolved model, the limiter's counter and window start, and the
    quiz being taken with its answers, score and topic are as before, so
    the next user to log in in the same browser session inherits them. *)
Theorem auth_run_keeps_shared (acts : list auth_action) : forall a : application,
  shared_of (session_state (snd (auth_run sha256_hexdigest acts a)))
  = shared_of (session_state a).
Proof.
  induction acts as [| act acts IH]; intros a; [done |].
  cbn [auth_run]. unfold hbind.
  destruct (auth_step_shared act a) as (a1 & -> & Hshared).
  by rewrite IH.
Qed.

End Browser.
